(** * semantic-memory-mcp: a shallow embedding of the MCP handler and of the
    embedding consistency check.

    Sources embedded here:
    - [src/mcp_sse_handler.py]: [verify_auth], [handle_mcp_request],
      [handle_tool_call], [search_notes], [get_stats], [add_note],
      [update_note], [delete_note] and the [/sse] endpoint;
    - [src/embedding_check.py]: [cosine_similarity], [compute_calibration],
      [check_consistency], [run_check], [recalibrate];
    - [src/server.py]: the schema of the [notes] table.

    Python values are modelled as follows.  A Python [float] is an IEEE 754
    value of [SpecFloat.spec_float] (binary64 unless said otherwise); numpy
    [float32] scalars are [spec_float] values operated on with precision 24.
    Python [int] is [Z]; [str] is [string], holding the UTF-8 encoding of
    the text (one [ascii] per byte, so a character takes one to four of
    them); an argument that the caller left out and a NULL of the database
    are the [None] of [option].  Exceptions are the [Raise] case of
    [exc]. *)

From Stdlib Require Import ZArith NArith List String Ascii Bool Lia DecimalString.
From Stdlib Require Import Sorting.Sorted Permutation.
From Stdlib Require Import Floats.SpecFloat.
Import ListNotations.
Local Open Scope string_scope.
Local Open Scope list_scope.
Local Open Scope Z_scope.
Set Warnings "-register-all".

(* ================================================================== *)
(** * Library models *)
(* ================================================================== *)

(** ** [hashlib.sha256(...).hexdigest()] *)

Module SHA256.
Local Open Scope N_scope.

Definition w32 (x : N) : N := x mod 4294967296.

Definition rotr (n x : N) : N :=
  N.lor (N.shiftr x n) (w32 (N.shiftl x (32 - n))).

Definition ch (x y z : N) : N :=
  N.lxor (N.land x y) (N.land (N.lxor x 4294967295) z).

Definition maj (x y z : N) : N :=
  N.lxor (N.lxor (N.land x y) (N.land x z)) (N.land y z).

Definition bsig0 (x : N) : N := N.lxor (N.lxor (rotr 2 x) (rotr 13 x)) (rotr 22 x).
Definition bsig1 (x : N) : N := N.lxor (N.lxor (rotr 6 x) (rotr 11 x)) (rotr 25 x).
Definition ssig0 (x : N) : N := N.lxor (N.lxor (rotr 7 x) (rotr 18 x)) (N.shiftr x 3).
Definition ssig1 (x : N) : N := N.lxor (N.lxor (rotr 17 x) (rotr 19 x)) (N.shiftr x 10).

Definition K : list N :=
  [1116352408; 1899447441; 3049323471; 3921009573; 961987163; 1508970993;
   2453635748; 2870763221; 3624381080; 310598401; 607225278; 1426881987;
   1925078388; 2162078206; 2614888103; 3248222580; 3835390401; 4022224774;
   264347078; 604807628; 770255983; 1249150122; 1555081692; 1996064986;
   2554220882; 2821834349; 2952996808; 3210313671; 3336571891; 3584528711;
   113926993; 338241895; 666307205; 773529912; 1294757372; 1396182291;
   1695183700; 1986661051; 2177026350; 2456956037; 2730485921; 2820302411;
   3259730800; 3345764771; 3516065817; 3600352804; 4094571909; 275423344;
   430227734; 506948616; 659060556; 883997877; 958139571; 1322822218;
   1537002063; 1747873779; 1955562222; 2024104815; 2227730452; 2361852424;
   2428436474; 2756734187; 3204031479; 3329325298].

Definition H0 : list N :=
  [1779033703; 3144134277; 1013904242; 2773480762;
   1359893119; 2600822924; 528734635; 1541459225].

(** Message padding: a [0x80] byte, zero bytes up to 56 modulo 64, and the
    bit length as 8 big-endian bytes. *)
Definition be_bytes (count : nat) (x : N) : list N :=
  map (fun i => N.shiftr x (8 * N.of_nat i) mod 256) (rev (seq 0 count)).

Definition pad (msg : list N) : list N :=
  let len := N.of_nat (List.length msg) in
  let zeros := N.to_nat ((64 + 55 - len mod 64) mod 64) in
  (msg ++ [128] ++ repeat 0 zeros ++ be_bytes 8 (8 * len))%list.

Fixpoint words (bs : list N) : list N :=
  match bs with
  | a :: b :: c :: d :: rest =>
      (N.shiftl a 24 + N.shiftl b 16 + N.shiftl c 8 + d) :: words rest
  | _ => []
  end.

Fixpoint blocks (fuel : nat) (ws : list N) : list (list N) :=
  match fuel, ws with
  | S fuel', _ :: _ => firstn 16 ws :: blocks fuel' (skipn 16 ws)
  | _, _ => []
  end.

(** Message schedule: [w] is kept newest-first, so [W[t-2]] is [nth 1]. *)
Fixpoint schedule (count : nat) (w : list N) : list N :=
  match count with
  | O => w
  | S count' =>
      let wt := w32 (ssig1 (nth 1 w 0) + nth 6 w 0 + ssig0 (nth 14 w 0) + nth 15 w 0) in
      schedule count' (wt :: w)
  end.

Record regs := Regs { ra : N; rb : N; rc : N; rd : N; re : N; rf : N; rg : N; rh : N }.

Definition round (r : regs) (kw : N * N) : regs :=
  let (k, w) := kw in
  let t1 := rh r + bsig1 (re r) + ch (re r) (rf r) (rg r) + k + w in
  let t2 := bsig0 (ra r) + maj (ra r) (rb r) (rc r) in
  Regs (w32 (t1 + t2)) (ra r) (rb r) (rc r) (w32 (rd r + t1)) (re r) (rf r) (rg r).

Definition regs_of (h : list N) : regs :=
  Regs (nth 0 h 0) (nth 1 h 0) (nth 2 h 0) (nth 3 h 0)
       (nth 4 h 0) (nth 5 h 0) (nth 6 h 0) (nth 7 h 0).

Definition compress (h : list N) (block : list N) : list N :=
  let w := rev (schedule 48 (rev block)) in
  let r := fold_left round (combine K w) (regs_of h) in
  map w32 (map (fun p => fst p + snd p)
               (combine h [ra r; rb r; rc r; rd r; re r; rf r; rg r; rh r])).

Definition bytes_of_string (s : string) : list N :=
  map N_of_ascii (list_ascii_of_string s).

Definition digest (s : string) : list N :=
  let ws := words (pad (bytes_of_string s)) in
  fold_left compress (blocks (List.length ws) ws) H0.

Definition hex_digit (d : N) : ascii :=
  ascii_of_N (if d <? 10 then 48 + d else 87 + d).

Definition hex_word (w : N) : list ascii :=
  map (fun i => hex_digit (N.shiftr w (4 * N.of_nat i) mod 16)) (rev (seq 0 8)).

Definition hexdigest (s : string) : string :=
  string_of_list_ascii (flat_map hex_word (digest s)).

End SHA256.

(** ** Python floats and numpy [float32] scalars *)

Module PyFloat.

Definition float := spec_float.

Definition is_nan (x : float) : bool :=
  match x with S754_nan => true | _ => false end.

Definition is_finite (x : float) : bool :=
  match x with S754_zero _ | S754_finite _ _ _ => true | _ => false end.

(** Python's [x < y] and [x >= y] on floats: false as soon as one side is a
    NaN. *)
Definition lt (x y : float) : bool := SFltb x y.
Definition ge (x y : float) : bool := SFleb y x.

(** The literals [0.4] ([0x1.999999999999ap-2]), [0.99]
    ([0x1.fae147ae147aep-1]) and [1.0] as binary64 values. *)
Definition lit_0_4 : float := S754_finite false 7205759403792794 (-54).
Definition lit_0_99 : float := S754_finite false 8917127262193582 (-53).
Definition lit_1 : float := S754_finite false 4503599627370496 (-52).

(** numpy [float32] scalar arithmetic: [a * b] and [a / b]. *)
Definition mul32 (x y : float) : float := SFmul 24 128 x y.
Definition div32 (x y : float) : float := SFdiv 24 128 x y.
Definition mul64 (x y : float) : float := SFmul 53 1024 x y.
Definition div64 (x y : float) : float := SFdiv 53 1024 x y.

(** [float(x)] for a numpy scalar [x] of at most 53 significant bits: the
    same value with the mantissa aligned on 53 bits (float32 values, down
    to the subnormal ones, are normal binary64 numbers). *)
Definition to_py_float (x : float) : float :=
  match x with
  | S754_finite s m e =>
      let (m', e') := shl_align m e (e - (53 - Zpos (digits2_pos m))) in
      S754_finite s m' e'
  | _ => x
  end.

(** [a / b] rounded to the nearest integer, ties to even ([0 <= a], [0 < b]). *)
Definition div_half_even (a b : Z) : Z :=
  let q := a / b in
  let r := a mod b in
  match 2 * r ?= b with
  | Lt => q
  | Gt => q + 1
  | Eq => if Z.even q then q else q + 1
  end.

(** The binary64 value nearest to the rational [n / d] ([0 <= n], [0 < d]),
    ties to even, with sign [s]: what [strtod] returns on a decimal string. *)
Definition nearest64 (s : bool) (n d : Z) : float :=
  let t := n * 2 ^ 1200 / d in
  if t =? 0 then S754_zero s
  else
    let e := Z.max (Z.log2 t - 1200 - 52) (-1074) in
    let q := div_half_even (n * 2 ^ Z.max 0 (- e)) (d * 2 ^ Z.max 0 e) in
    let (q', e') := if q =? 2 ^ 53 then (2 ^ 52, e + 1) else (q, e) in
    match q' with
    | Zpos m => if e' <=? 971 then S754_finite s m e' else S754_infinity s
    | _ => S754_zero s
    end.

(** [round(x, 4)]: CPython prints [x] correctly rounded to 4 decimals (ties
    to even on the exact binary value) and reads the decimal string back;
    infinities and NaN round to themselves. *)
Definition round4 (x : float) : float :=
  match x with
  | S754_finite s m e =>
      let k := div_half_even (Zpos m * 10000 * 2 ^ Z.max 0 e) (2 ^ Z.max 0 (- e)) in
      nearest64 s k 10000
  | _ => x
  end.

(** The place of a float that is no NaN in the order of the comparisons:
    triples compared lexicographically. *)
Definition rank (x : float) : Z * Z * Z :=
  match x with
  | S754_infinity true => (-2, 0, 0)
  | S754_finite true m e => (-1, - e, - Zpos m)
  | S754_zero _ => (0, 0, 0)
  | S754_nan => (0, 0, 0)
  | S754_finite false m e => (1, e, Zpos m)
  | S754_infinity false => (2, 0, 0)
  end.

Definition rank_lt (p q : Z * Z * Z) : Prop :=
  let '(a1, b1, c1) := p in
  let '(a2, b2, c2) := q in
  a1 < a2 \/ (a1 = a2 /\ (b1 < b2 \/ (b1 = b2 /\ c1 < c2))).

End PyFloat.

(** ** Exceptions, JSON values and a few Python built-ins *)

Inductive exc (A : Type) : Type :=
| Ok (a : A)
| Raise (msg : string).
Arguments Ok {A} a.
Arguments Raise {A} msg.

Definition bind {A B : Type} (c : exc A) (k : A -> exc B) : exc B :=
  match c with
  | Ok a => k a
  | Raise msg => Raise msg
  end.

Notation "x <- c ;; k" := (bind c (fun x => k))
  (at level 61, c at next level, right associativity).

Inductive json : Type :=
| JNull
| JBool (b : bool)
| JInt (z : Z)
| JStr (s : string)
| JList (items : list json)
| JDict (members : list (string * json)).

(** [d.get(key)] on a JSON object. *)
Fixpoint dict_get (key : string) (members : list (string * json)) : option json :=
  match members with
  | [] => None
  | (k, v) :: rest => if String.eqb k key then Some v else dict_get key rest
  end.

Definition member (key : string) (j : json) : option json :=
  match j with
  | JDict members => dict_get key members
  | _ => None
  end.

Module Py.

Definition nl : string := String (ascii_of_nat 10) EmptyString.

(** [str(n)] for an [int]. *)
Definition str_int (z : Z) : string := NilZero.string_of_int (Z.to_int z).

(** [str(x)] where [x] is an [int] or [None]. *)
Definition str_opt_int (x : option Z) : string :=
  match x with
  | Some z => str_int z
  | None => "None"
  end.

Definition str_opt (x : option string) : string :=
  match x with
  | Some s => s
  | None => "None"
  end.

(** Truth value of an [int]-or-[None] and of a [str]-or-[None]. *)
Definition truthy_int (x : option Z) : bool :=
  match x with
  | Some z => negb (z =? 0)
  | None => false
  end.

Definition truthy_str (x : option string) : bool :=
  match x with
  | Some s => negb (String.eqb s "")
  | None => false
  end.

(** [l[:stop]]: a negative [stop] counts from the end. *)
Definition slice_to {A : Type} (l : list A) (stop : Z) : list A :=
  if 0 <=? stop then firstn (Z.to_nat stop) l
  else firstn (List.length l - Z.to_nat (- stop)) l.

(** [s[:n]] on a string: its first [n] characters.  In UTF-8 a character
    is a lead byte followed by its continuation bytes, the bytes
    [10xxxxxx]. *)
Definition is_continuation (c : ascii) : bool :=
  let b := N_of_ascii c in
  ((128 <=? b) && (b <? 192))%N.

Fixpoint str_slice_to (s : string) (n : nat) : string :=
  match s with
  | EmptyString => EmptyString
  | String c rest =>
      if is_continuation c then String c (str_slice_to rest n)
      else
        match n with
        | O => EmptyString
        | S n' => String c (str_slice_to rest n')
        end
  end.

(** [list.sort]: a stable sort that only asks [a < b].  [insert_by] puts
    [x] in front of the first element that is not smaller than it, so an
    element never overtakes an equal one that stood before it. *)
Fixpoint insert_by {A : Type} (lt : A -> A -> bool) (x : A) (l : list A) : list A :=
  match l with
  | [] => [x]
  | y :: l' => if lt y x then y :: insert_by lt x l' else x :: l
  end.

Definition list_sort {A : Type} (lt : A -> A -> bool) (l : list A) : list A :=
  fold_right (insert_by lt) [] l.

(** [l.sort(reverse=True)]: CPython reverses the list, sorts it, and
    reverses it again, which keeps equal elements in their original
    order. *)
Definition list_sort_reverse {A : Type} (lt : A -> A -> bool) (l : list A) : list A :=
  rev (list_sort lt (rev l)).

(** [sorted(l)] where comparing two elements may raise: the same
    insertion, with a comparison that returns or raises.  Every element of
    a list of two or more takes part in a comparison, as in CPython's
    sort. *)
Fixpoint insert_by_exc {A : Type} (lt : A -> A -> exc bool) (x : A) (l : list A)
  : exc (list A) :=
  match l with
  | [] => Ok [x]
  | y :: l' =>
      smaller <- lt y x ;;
      if smaller : bool then
        rest <- insert_by_exc lt x l' ;;
        Ok (y :: rest)
      else Ok (x :: l)
  end.

Fixpoint sorted_exc {A : Type} (lt : A -> A -> exc bool) (l : list A)
  : exc (list A) :=
  match l with
  | [] => Ok []
  | x :: l' =>
      rest <- sorted_exc lt l' ;;
      insert_by_exc lt x rest
  end.

(** [min(l)] on a list of floats: the first element, replaced by each later
    one that compares smaller; [ValueError] on the empty list. *)
Definition min (l : list PyFloat.float) : exc PyFloat.float :=
  match l with
  | [] => Raise "min() arg is an empty sequence"
  | x :: rest => Ok (fold_left (fun m y => if PyFloat.lt y m then y else m) rest x)
  end.

(** [hmac.compare_digest] on two hexadecimal digests: their equality (the
    running time is not modelled). *)
Definition compare_digest (a b : string) : bool := String.eqb a b.

(** What a stable sort promises.  After an ascending stable sort of a list
    that was ordered by [R], [a] stands in front of [b] only if it is
    smaller, or if neither is smaller and [R a b]; [desc_stable] is the
    same for a descending sort. *)
Definition asc_stable {A : Type} (lt : A -> A -> bool) (R : A -> A -> Prop)
  (a b : A) : Prop :=
  lt a b = true \/ (lt a b = false /\ lt b a = false /\ R a b).

Definition desc_stable {A : Type} (lt : A -> A -> bool) (R : A -> A -> Prop)
  (a b : A) : Prop :=
  lt b a = true \/ (lt a b = false /\ lt b a = false /\ R a b).

End Py.

(* ================================================================== *)
(** * [src/mcp_sse_handler.py] *)
(* ================================================================== *)

Module Handler.
Import PyFloat.

(** ** The [notes] table ([src/server.py], [init_database])

    [id INTEGER PRIMARY KEY AUTOINCREMENT, content TEXT NOT NULL,
    category TEXT DEFAULT 'general', timestamp TEXT, embedding_vector
    BLOB].  The rows are kept in the order of a table scan (by rowid);
    [last_rowid] is the AUTOINCREMENT counter.  The category and the
    embedding of a row may be NULL; an embedding is the list of the
    [float32] values of the blob. *)
Record note : Type := Note {
  note_id : Z;
  note_content : string;
  note_category : option string;
  note_timestamp : string;
  note_embedding : option (list float)
}.

Record database : Type := Database {
  notes : list note;
  last_rowid : Z
}.

Definition empty_database : database := Database [] 0.

(** SQLite keeps a rowid, and any INTEGER, in 64 bits: the AUTOINCREMENT
    counter stops at [max_rowid], and the [sqlite3] module refuses to bind
    a Python [int] outside of the range. *)
Definition max_rowid : Z := 9223372036854775807.
Definition min_integer : Z := -9223372036854775808.

Definition fits_integer (z : Z) : bool :=
  (min_integer <=? z) && (z <=? max_rowid).

(** One entry of [results] in [search_notes]. *)
Record result : Type := Result {
  result_id : Z;
  result_content : string;
  result_category : option string;
  result_similarity : float
}.

(** The [arguments] object of a [tools/call] request, each argument of the
    type its input schema declares, or left out. *)
Record arguments : Type := Args {
  arg_query : option string;
  arg_limit : option Z;
  arg_content : option string;
  arg_category : option string;
  arg_note_id : option Z
}.

Definition no_arguments : arguments := Args None None None None None.

Record params : Type := Params {
  params_name : option string;
  params_arguments : option arguments
}.

Definition no_params : params := Params None None.

(** The JSON body of a request: [method], [params], [id]. *)
Record rpc : Type := Rpc {
  rpc_method : option string;
  rpc_params : option params;
  rpc_id : option json
}.

Definition empty_rpc : rpc := Rpc None None None.

Inductive http_method : Type := GET | POST.

(** The parts of a Flask request the handler reads.  [req_json] is what
    [request.get_json()] followed by the [data.get] calls gives: the body
    as an object, or the exception raised on a body that is none. *)
Record request : Type := Request {
  req_method : http_method;
  req_api_key : option string;
  req_authorization : option string;
  req_json : exc rpc
}.

Inductive response : Type :=
| Unauthorized
| EventStream (event : json).

Definition dget {A : Type} (x : option A) (default : A) : A :=
  match x with
  | Some a => a
  | None => default
  end.

Definition error_dict (code : Z) (message : string) : json :=
  JDict [("error", JDict [("code", JInt code); ("message", JStr message)])].

Definition content_dict (text : string) : json :=
  JDict [("content", JList [JDict [("type", JStr "text"); ("text", JStr text)]])].

Definition initialize_result : json :=
  JDict [("protocolVersion", JStr "2024-11-05");
         ("capabilities", JDict [("tools", JDict [])]);
         ("serverInfo", JDict [("name", JStr "neural-memory");
                               ("version", JStr "1.0.0")])].

Definition tools_list_result : json :=
  JDict [("tools", JList [
    JDict [("name", JStr "search_neural_memory");
           ("description", JStr "Search through notes using semantic similarity");
           ("inputSchema", JDict [
              ("type", JStr "object");
              ("properties", JDict [
                 ("query", JDict [("type", JStr "string");
                                  ("description", JStr "Search query")]);
                 ("limit", JDict [("type", JStr "integer"); ("default", JInt 5);
                                  ("minimum", JInt 1); ("maximum", JInt 20)])]);
              ("required", JList [JStr "query"])])];
    JDict [("name", JStr "neural_stats");
           ("description", JStr "Get statistics about stored notes");
           ("inputSchema", JDict [("type", JStr "object"); ("properties", JDict [])])];
    JDict [("name", JStr "add_note");
           ("description", JStr "Add new note with automatic embedding");
           ("inputSchema", JDict [
              ("type", JStr "object");
              ("properties", JDict [
                 ("content", JDict [("type", JStr "string");
                                    ("description", JStr "Note content")]);
                 ("category", JDict [("type", JStr "string");
                                     ("default", JStr "general")])]);
              ("required", JList [JStr "content"])])];
    JDict [("name", JStr "update_note");
           ("description", JStr "Update existing note by ID");
           ("inputSchema", JDict [
              ("type", JStr "object");
              ("properties", JDict [
                 ("note_id", JDict [("type", JStr "integer")]);
                 ("content", JDict [("type", JStr "string")]);
                 ("category", JDict [("type", JStr "string")])]);
              ("required", JList [JStr "note_id"; JStr "content"])])];
    JDict [("name", JStr "delete_note");
           ("description", JStr "Delete note by ID");
           ("inputSchema", JDict [
              ("type", JStr "object");
              ("properties", JDict [("note_id", JDict [("type", JStr "integer")])]);
              ("required", JList [JStr "note_id"])])]])].

Section WithEnvironment.

(** The deployment: the configured secret, the embedding model, the numpy
    kernels (their order of accumulation is numpy's business), the clock
    reading of a call and the text of a float in an f-string. *)
Variable API_KEY : string.
Variable model_encode : list string -> exc (list (list float)).
Variable np_dot : list float -> list float -> float.
Variable np_norm : list float -> float.
Variable repr_float : float -> string.

Definition API_KEY_HASH : string := SHA256.hexdigest API_KEY.

(** ** [verify_auth] *)
Definition verify_auth (req : request) : bool :=
  if Py.truthy_str (req_api_key req) then
    let key_hash := SHA256.hexdigest (dget (req_api_key req) "") in
    Py.compare_digest key_hash API_KEY_HASH
  else
    match req_authorization req with
    | Some auth_header =>
        if String.prefix "Bearer " auth_header then
          let token := substring 7 (String.length auth_header - 7) auth_header in
          let token_hash := SHA256.hexdigest token in
          Py.compare_digest token_hash API_KEY_HASH
        else false
    | None => false
    end.

(** [model.encode([text])[0]] *)
Definition encode_one (text : string) : exc (list float) :=
  embs <- model_encode [text] ;;
  match embs with
  | emb :: _ => Ok emb
  | [] => Raise "index 0 is out of bounds for axis 0 with size 0"
  end.

(** ** [search_notes] *)

(** [float(np.dot(q, e) / (np.linalg.norm(q) * np.linalg.norm(e)))] on two
    [float32] arrays; [np.dot] raises on arrays of different lengths. *)
Definition cosine_value (query_emb note_emb : list float) : float :=
  to_py_float (div32 (np_dot query_emb note_emb)
                     (mul32 (np_norm query_emb) (np_norm note_emb))).

Definition cosine (query_emb note_emb : list float) : exc float :=
  if Nat.eqb (List.length query_emb) (List.length note_emb) then
    Ok (cosine_value query_emb note_emb)
  else Raise "shapes not aligned".

(** [SELECT ... FROM notes WHERE embedding_vector IS NOT NULL] *)
Definition fetch_embedded (db : database) : list (note * list float) :=
  flat_map (fun row => match note_embedding row with
                       | Some emb => [(row, emb)]
                       | None => []
                       end) (notes db).

(** The loop over [cursor.fetchall()]. *)
Fixpoint collect (query_emb : list float) (rows : list (note * list float))
  : exc (list result) :=
  match rows with
  | [] => Ok []
  | (row, note_emb) :: rest =>
      sim <- cosine query_emb note_emb ;;
      results <- collect query_emb rest ;;
      if ge sim lit_0_4 then
        Ok (Result (note_id row) (note_content row) (note_category row) (round4 sim)
              :: results)
      else Ok results
  end.

Definition by_similarity (a b : result) : bool :=
  lt (result_similarity a) (result_similarity b).

(** The locals [results] (after the sort) and [top_results]. *)
Record search_outcome : Type := SearchOutcome {
  results : list result;
  top_results : list result
}.

Definition search (db : database) (query : string) (limit : Z) : exc search_outcome :=
  query_emb <- encode_one query ;;
  found <- collect query_emb (fetch_embedded db) ;;
  let results := Py.list_sort_reverse by_similarity found in
  Ok (SearchOutcome results (Py.slice_to results limit)).

Definition result_line (r : result) : string :=
  "[ID:" ++ Py.str_int (result_id r) ++ "] [" ++ Py.str_opt (result_category r)
  ++ "] (similarity: " ++ repr_float (result_similarity r) ++ ")" ++ Py.nl
  ++ result_content r ++ Py.nl ++ Py.nl.

Definition search_text (o : search_outcome) : string :=
  "Found " ++ Py.str_int (Z.of_nat (List.length (top_results o)))
  ++ " relevant notes (from " ++ Py.str_int (Z.of_nat (List.length (results o)))
  ++ " total matches):" ++ Py.nl ++ Py.nl
  ++ String.concat "" (map result_line (top_results o)).

Definition search_notes (db : database) (query : string) (limit : Z) : exc json :=
  o <- search db query limit ;;
  Ok (content_dict (search_text o)).

(** ** [get_stats] *)

(** [SELECT category, COUNT( * ) FROM notes GROUP BY category] read into a
    dict: one item per category, the rows whose category is NULL forming
    the group of key [None]. *)
Definition same_category (a b : option string) : bool :=
  match a, b with
  | Some x, Some y => String.eqb x y
  | None, None => true
  | _, _ => false
  end.

Fixpoint count_category (cat : option string) (counts : list (option string * nat))
  : list (option string * nat) :=
  match counts with
  | [] => [(cat, 1%nat)]
  | (c, n) :: rest =>
      if same_category c cat then (c, S n) :: rest
      else (c, n) :: count_category cat rest
  end.

Definition by_category (db : database) : list (option string * nat) :=
  fold_left (fun counts row => count_category (note_category row) counts)
            (notes db) [].

(** [a < b] on two items [(cat, count)], as Python compares tuples: on the
    first components when they differ, on the counts otherwise; a [str]
    and [None] cannot be ordered (TypeError, its text naming the types of
    the left and of the right operand). *)
Definition item_lt (a b : option string * nat) : exc bool :=
  match fst a, fst b with
  | Some x, Some y =>
      if String.eqb x y then Ok (Nat.ltb (snd a) (snd b)) else Ok (String.ltb x y)
  | None, None => Ok (Nat.ltb (snd a) (snd b))
  | Some _, None =>
      Raise "'<' not supported between instances of 'str' and 'NoneType'"
  | None, Some _ =>
      Raise "'<' not supported between instances of 'NoneType' and 'str'"
  end.

Definition stats_line (item : option string * nat) : string :=
  "  - " ++ Py.str_opt (fst item) ++ ": " ++ Py.str_int (Z.of_nat (snd item)) ++ Py.nl.

Definition get_stats (db : database) : exc json :=
  let total := List.length (notes db) in
  items <- Py.sorted_exc item_lt (by_category db) ;;
  Ok (content_dict
        ("Neural Memory Statistics:" ++ Py.nl ++ Py.nl
         ++ "Total notes: " ++ Py.str_int (Z.of_nat total) ++ Py.nl ++ Py.nl
         ++ "By category:" ++ Py.nl
         ++ String.concat "" (map stats_line items))).

(** ** [add_note]

    The store operations take the store and the reading of
    [datetime.now().isoformat()] and give back the store after the commit.
    A raised exception leaves the store as it was.  The INSERT takes the
    rowid after the AUTOINCREMENT counter; once the counter has reached
    the largest rowid SQLite refuses it (SQLITE_FULL). *)
Definition add_note (db : database) (now : string) (content category : string)
  : exc (database * json) :=
  if String.eqb content "" then
    Ok (db, error_dict (-32602) "Content required")
  else
    embedding <- encode_one content ;;
    if last_rowid db <? max_rowid then
      let new_id := last_rowid db + 1 in
      let row := Note new_id content (Some category) now (Some embedding) in
      Ok (Database (notes db ++ [row]) new_id,
          content_dict ("✅ Added note #" ++ Py.str_int new_id ++ Py.nl
                        ++ "Category: " ++ category ++ Py.nl
                        ++ "Content: " ++ content))
    else Raise "database or disk is full".

(** [SELECT ... FROM notes WHERE id = ?] followed by [fetchone()]. *)
Definition fetch_by_id (db : database) (i : Z) : option note :=
  find (fun row => note_id row =? i) (notes db).

(** ** [update_note]

    Binding [note_id] to the [?] of the SELECT raises OverflowError when
    it does not fit in 64 bits. *)
Definition update_note (db : database) (now : string)
  (note_id_arg : option Z) (content category : option string)
  : exc (database * json) :=
  if negb (Py.truthy_int note_id_arg) || negb (Py.truthy_str content) then
    Ok (db, error_dict (-32602) "Note ID and content required")
  else
    let i := dget note_id_arg 0 in
    let text := dget content "" in
    if negb (fits_integer i) then
      Raise "Python int too large to convert to SQLite INTEGER"
    else
      match fetch_by_id db i with
      | None =>
          Ok (db, error_dict (-32602) ("Note #" ++ Py.str_int i ++ " not found"))
      | Some existing =>
          embedding <- encode_one text ;;
          let final_category :=
            if Py.truthy_str category then category
            else note_category existing in
          let rows :=
            map (fun row =>
                   if note_id row =? i
                   then Note (note_id row) text final_category now (Some embedding)
                   else row) (notes db) in
          Ok (Database rows (last_rowid db),
              content_dict ("✅ Updated note #" ++ Py.str_int i ++ Py.nl
                            ++ "Category: " ++ Py.str_opt final_category ++ Py.nl
                            ++ "Content: " ++ text))
      end.

(** ** [delete_note] *)
Definition delete_note (db : database) (note_id_arg : option Z)
  : exc (database * json) :=
  if negb (Py.truthy_int note_id_arg) then
    Ok (db, error_dict (-32602) "Note ID required")
  else
    let i := dget note_id_arg 0 in
    if negb (fits_integer i) then
      Raise "Python int too large to convert to SQLite INTEGER"
    else
      match fetch_by_id db i with
      | None =>
          Ok (db, error_dict (-32602) ("Note #" ++ Py.str_int i ++ " not found"))
      | Some existing =>
          Ok (Database (filter (fun row => negb (note_id row =? i)) (notes db))
                       (last_rowid db),
              content_dict ("✅ Deleted note #" ++ Py.str_int i ++ Py.nl
                            ++ "Was: [" ++ Py.str_opt (note_category existing) ++ "] "
                            ++ Py.str_slice_to (note_content existing) 100 ++ "..."))
      end.

(** ** [handle_tool_call] *)

(** [name == literal] where [name] may be [None]. *)
Definition is_name (name : option string) (literal : string) : bool :=
  match name with
  | Some s => String.eqb s literal
  | None => false
  end.

Definition handle_tool_call (db : database) (now : string) (p : params)
  : exc (database * json) :=
  let tool_name := params_name p in
  let args := dget (params_arguments p) no_arguments in
  if is_name tool_name "search_neural_memory" then
    r <- search_notes db (dget (arg_query args) "") (dget (arg_limit args) 5) ;;
    Ok (db, r)
  else if is_name tool_name "neural_stats" then
    r <- get_stats db ;;
    Ok (db, r)
  else if is_name tool_name "add_note" then
    add_note db now (dget (arg_content args) "") (dget (arg_category args) "general")
  else if is_name tool_name "update_note" then
    update_note db now (arg_note_id args) (arg_content args) (arg_category args)
  else if is_name tool_name "delete_note" then
    delete_note db (arg_note_id args)
  else
    Ok (db, error_dict (-32602) ("Unknown tool: " ++ Py.str_opt tool_name)).

(** ** [handle_mcp_request]: the [except Exception] clause turns whatever
    is raised below into the [-32603] dict. *)
Definition handle_mcp_request (db : database) (now : string)
  (method : string) (p : params) : database * json :=
  let attempt : exc (database * json) :=
    if String.eqb method "initialize" then Ok (db, initialize_result)
    else if String.eqb method "tools/list" then Ok (db, tools_list_result)
    else if String.eqb method "tools/call" then handle_tool_call db now p
    else Ok (db, error_dict (-32601) ("Method not found: " ++ method)) in
  match attempt with
  | Ok r => r
  | Raise e => (db, error_dict (-32603) e)
  end.

(** ** The [/sse] endpoint: [mcp_sse] and its generator [generate].
    The event is the dict handed to [json.dumps]. *)
Definition generate (db : database) (now : string) (req : request) : database * json :=
  let data := match req_method req with
              | POST => req_json req
              | GET => Ok empty_rpc
              end in
  match data with
  | Ok data =>
      let method := dget (rpc_method data) "initialize" in
      let p := dget (rpc_params data) no_params in
      let req_id := dget (rpc_id data) (JInt 1) in
      let (db', result) := handle_mcp_request db now method p in
      (db', JDict [("jsonrpc", JStr "2.0"); ("id", req_id); ("result", result)])
  | Raise e =>
      (db, JDict [("jsonrpc", JStr "2.0"); ("id", JInt 1);
                  ("error", JDict [("code", JInt (-32603)); ("message", JStr e)])])
  end.

Definition mcp_sse (db : database) (now : string) (req : request)
  : database * response :=
  if negb (verify_auth req) then (db, Unauthorized)
  else
    let (db', event) := generate db now req in
    (db', EventStream event).

End WithEnvironment.

End Handler.

(* ================================================================== *)
(** * Vocabulary of the statements about the handler *)
(* ================================================================== *)

Module Spec.
Import PyFloat Handler.

(** The table as [add_note], [update_note] and [delete_note] keep it: ids
    grow along the table scan, start at 1 and never pass the AUTOINCREMENT
    counter, which is a rowid. *)
Definition ids_ascending (db : database) : Prop :=
  StronglySorted Z.lt (map note_id (notes db)).

Definition database_ok (db : database) : Prop :=
  ids_ascending db /\
  0 <= last_rowid db <= max_rowid /\
  Forall (fun row => 0 < note_id row <= last_rowid db) (notes db).

(** Every stored embedding has the dimension of the query embedding. *)
Definition dims_agree (query_emb : list float) (db : database) : Prop :=
  Forall (fun row => match note_embedding row with
                     | Some emb => List.length emb = List.length query_emb
                     | None => True
                     end) (notes db).

(** The order the search results are claimed to come in: by descending
    similarity, and by ascending id among equal similarities. *)
Definition ranked_before (a b : result) : Prop :=
  ge (result_similarity a) (result_similarity b) = true /\
  (SFeqb (result_similarity a) (result_similarity b) = true ->
   result_id a < result_id b).

Definition above_floor (r : result) : Prop :=
  ge (result_similarity r) lit_0_4 = true.

(** The result made from a row and its unrounded similarity. *)
Definition result_of (row : note) (sim : float) : result :=
  Result (note_id row) (note_content row) (note_category row) (round4 sim).

(** Rounding to four decimals, said on the values.  The finite float
    [m * 2^e] lies within half a ten-thousandth of [k / 10000]; it lies
    strictly within when it is no tie between two multiples of 0.0001. *)
Definition nearest_ten_thousandths (m : positive) (e : Z) (k : Z) : Prop :=
  2 * Z.abs (k * 2 ^ Z.max 0 (- e) - Zpos m * 10000 * 2 ^ Z.max 0 e)
  <= 2 ^ Z.max 0 (- e).

Definition within_half_of (k : Z) (x : float) : Prop :=
  match x with
  | S754_finite false m e =>
      2 * Z.abs (k * 2 ^ Z.max 0 (- e) - Zpos m * 10000 * 2 ^ Z.max 0 e)
      < 2 ^ Z.max 0 (- e)
  | _ => False
  end.

(** The binary64 float [q * 2^e], of 53 significant bits, lies within half
    a unit of its last place of [k / 10000]. *)
Definition nearest_double (k : Z) (q : positive) (e : Z) : Prop :=
  2 ^ 52 <= Zpos q < 2 ^ 53 /\
  2 * Z.abs (Zpos q * 10000 * 2 ^ Z.max 0 e - k * 2 ^ Z.max 0 (- e))
  <= 10000 * 2 ^ Z.max 0 e.

(** [y] is [x] rounded to four decimals: the float next to the multiple
    of 0.0001 next to [x], with the sign of [x]; an infinity and a NaN are
    left as they are. *)
Definition rounded_to_4_decimals (x y : float) : Prop :=
  match x with
  | S754_finite s m e =>
      exists k,
        nearest_ten_thousandths m e k /\
        match y with
        | S754_finite s' q e' => s' = s /\ nearest_double k q e'
        | S754_zero s' => s' = s /\ k = 0
        | _ => False
        end
  | _ => y = x
  end.

(** The credentials a request carries: the [api_key] query parameter and
    the token of an [Authorization: Bearer] header. *)
Definition query_credential (req : request) : option string := req_api_key req.

Definition bearer_credential (req : request) : option string :=
  match req_authorization req with
  | Some h =>
      if String.prefix "Bearer " h
      then Some (substring 7 (String.length h - 7) h)
      else None
  | None => None
  end.

Definition hashes_to_secret (API_KEY credential : string) : bool :=
  String.eqb (SHA256.hexdigest credential) (SHA256.hexdigest API_KEY).

Definition opt_hashes_to_secret (API_KEY : string) (c : option string) : bool :=
  match c with
  | Some credential => hashes_to_secret API_KEY credential
  | None => false
  end.

(** The response is a JSON-RPC error envelope: [error] is a member of the
    envelope itself and carries the code. *)
Definition is_error_envelope (code : Z) (event : json) : Prop :=
  exists message,
    member "error" event
    = Some (JDict [("code", JInt code); ("message", JStr message)]).

End Spec.

(* ================================================================== *)
(** * [src/embedding_check.py] *)
(* ================================================================== *)

Module EmbeddingCheck.
Import PyFloat.

Definition SIMILARITY_THRESHOLD : float := lit_0_99.

Definition CALIBRATION_PHRASES : list string :=
  ["The quick brown fox jumps over the lazy dog.";
   "Semantic search uses vector embeddings.";
   "Python programming and machine learning."].

(** The content of the calibration file. *)
Record calibration : Type := Calibration {
  phrases : list string;
  embeddings : list (list float)
}.

Section WithModel.

Variable model_encode : list string -> exc (list (list float)).
(** [np.dot] on a [float32] and a [float64] array, [np.linalg.norm] on a
    [float32] array and on a [float64] array. *)
Variable np_dot : list float -> list float -> float.
Variable np_norm32 : list float -> float.
Variable np_norm64 : list float -> float.
(** [f'{x:.4f}'] *)
Variable format_4f : float -> string.
(** [save_calibration(data)]: creating the directory, opening the file and
    writing to it succeed, or one of them raises; a call that raises is
    taken to leave no calibration behind (a file cut short by a failing
    write is not modelled). *)
Variable save_calibration : calibration -> exc unit.

(** [cosine_similarity(a, b)]: here [a] is a [float32] row of
    [model.encode] and [b] a list of Python floats, so the dot product, the
    product of the norms and the quotient are [float64]. *)
Definition cosine_value (a b : list float) : float :=
  div64 (np_dot a b) (mul64 (to_py_float (np_norm32 a)) (np_norm64 b)).

Definition cosine_similarity (a b : list float) : exc float :=
  if Nat.eqb (List.length a) (List.length b) then Ok (cosine_value a b)
  else Raise "shapes not aligned".

(** [emb.tolist()] turns the [float32] values into Python floats. *)
Definition compute_calibration : exc calibration :=
  embs <- model_encode CALIBRATION_PHRASES ;;
  Ok (Calibration CALIBRATION_PHRASES (map (map to_py_float) embs)).

(** The loop over [zip(current, saved['embeddings'])]. *)
Fixpoint compare_all (pairs : list (list float * list float)) : exc (list float) :=
  match pairs with
  | [] => Ok []
  | (curr, saved_emb) :: rest =>
      sim <- cosine_similarity curr saved_emb ;;
      sims <- compare_all rest ;;
      Ok (sim :: sims)
  end.

(** [check_consistency(model)].  [saved] is what [load_calibration()]
    returns; the result is [(is_consistent, message)] together with the
    calibration file after the call. *)
Definition check_consistency (saved : option calibration)
  : exc (bool * string * option calibration) :=
  match saved with
  | None =>
      calibration <- compute_calibration ;;
      _ <- save_calibration calibration ;;
      Ok (true, "Initial calibration created", Some calibration)
  | Some saved =>
      current <- model_encode CALIBRATION_PHRASES ;;
      similarities <- compare_all (combine current (embeddings saved)) ;;
      min_sim <- Py.min similarities ;;
      if ge min_sim SIMILARITY_THRESHOLD then
        Ok (true, ("Model consistent (min_sim=" ++ format_4f min_sim ++ ")")%string,
            Some saved)
      else
        Ok (false,
            ("MODEL DRIFT DETECTED! min_sim=" ++ format_4f min_sim ++ " < 0.99")%string,
            Some saved)
  end.

End WithModel.

End EmbeddingCheck.

(* ================================================================== *)
(** * A sample deployment, for running the definitions *)
(* ================================================================== *)

Module Sample.
Import PyFloat.

(** The [float32] value of a small integer. *)
Definition f32 (z : Z) : float := binary_normalize 24 128 z 0 false.

(** A dot product and a norm accumulated from left to right in [float32];
    on the small integer vectors used below every step is exact. *)
Definition dot (a b : list float) : float :=
  fold_left (fun acc xy => SFadd 24 128 acc (SFmul 24 128 (fst xy) (snd xy)))
            (combine a b) (S754_zero false).

Definition norm (a : list float) : float := SFsqrt 24 128 (dot a a).

(** An embedding model given by a table; a text outside the table makes
    [encode] fail. *)
Fixpoint lookup (table : list (string * list float)) (text : string)
  : exc (list float) :=
  match table with
  | [] => Raise "encoding failed"
  | (t, v) :: rest => if String.eqb t text then Ok v else lookup rest text
  end.

Fixpoint encode (table : list (string * list float)) (texts : list string)
  : exc (list (list float)) :=
  match texts with
  | [] => Ok []
  | t :: rest =>
      v <- lookup table t ;;
      vs <- encode table rest ;;
      Ok (v :: vs)
  end.

(** A placeholder for the rendering of floats. *)
Definition repr (x : float) : string := "<float>".

(** The same kernels for [embedding_check]: a [float64] dot product of a
    [float32] array with a [float64] one, and a [float64] norm. *)
Definition dot64 (a b : list float) : float :=
  fold_left (fun acc xy =>
               SFadd 53 1024 acc (SFmul 53 1024 (to_py_float (fst xy)) (snd xy)))
            (combine a b) (S754_zero false).

Definition norm64 (b : list float) : float :=
  SFsqrt 53 1024
    (fold_left (fun acc y => SFadd 53 1024 acc (SFmul 53 1024 y y)) b
               (S754_zero false)).

(** [f'{x:.4f}']: the decimal expansion correctly rounded to four
    decimals (ties to even on the exact binary value). *)
Definition four_digits (k : Z) : string :=
  let d := Py.str_int k in
  substring 0 (4 - String.length d) "0000" ++ d.

Definition format_4f (x : float) : string :=
  match x with
  | S754_nan => "nan"
  | S754_infinity s => if s then "-inf" else "inf"
  | S754_zero s => if s then "-0.0000" else "0.0000"
  | S754_finite s m e =>
      let k := div_half_even (Zpos m * 10000 * 2 ^ Z.max 0 e) (2 ^ Z.max 0 (- e)) in
      (if s then "-" else "") ++ Py.str_int (k / 10000) ++ "."
      ++ four_digits (k mod 10000)
  end.

Definition table : list (string * list float) :=
  [("", [f32 1; f32 1]);
   ("The quick brown fox jumps over the lazy dog.", [f32 3; f32 4]);
   ("Semantic search uses vector embeddings.", [f32 1; f32 0]);
   ("Python programming and machine learning.", [f32 0; f32 1]);
   ("east", [f32 1; f32 0]);
   ("north", [f32 0; f32 1]);
   ("north-east", [f32 3; f32 4]);
   ("east-north", [f32 4; f32 3]);
   ("nowhere", [f32 0; f32 0]);
   ("beyond", [S754_infinity false; f32 0])].

(** A store of five notes, the third without an embedding. *)
Definition compass_db : Handler.database :=
  Handler.Database
    [Handler.Note 1 "north-east" (Some "general") "2024-01-01T00:00:00"
       (Some [f32 3; f32 4]);
     Handler.Note 2 "east" (Some "general") "2024-01-01T00:00:01"
       (Some [f32 1; f32 0]);
     Handler.Note 3 "draft" (Some "general") "2024-01-01T00:00:02"
       None;
     Handler.Note 4 "north" (Some "general") "2024-01-01T00:00:03"
       (Some [f32 0; f32 1]);
     Handler.Note 5 "east-north" (Some "travel") "2024-01-01T00:00:04"
       (Some [f32 4; f32 3])]
    5.

(** Two notes with the same embedding. *)
Definition twin_db : Handler.database :=
  Handler.Database
    [Handler.Note 1 "first" (Some "general") "2024-01-01T00:00:00"
       (Some [f32 1; f32 0]);
     Handler.Note 2 "second" (Some "general") "2024-01-01T00:00:01"
       (Some [f32 1; f32 0])]
    2.

(** Three notes whose similarities to "east" are about 0.40035, 0.39999
    and 0.40041. *)
Definition rounding_db : Handler.database :=
  Handler.Database
    [Handler.Note 1 "a" (Some "general") "2024-01-01T00:00:00"
       (Some [f32 45; f32 103]);
     Handler.Note 2 "b" (Some "general") "2024-01-01T00:00:01"
       (Some [f32 127; f32 291]);
     Handler.Note 3 "c" (Some "general") "2024-01-01T00:00:02"
       (Some [f32 52; f32 119])]
    3.

(** A store whose AUTOINCREMENT counter has reached the largest rowid. *)
Definition full_db : Handler.database :=
  Handler.Database
    [Handler.Note Handler.max_rowid "last" (Some "general") "2024-01-01T00:00:00"
       (Some [f32 1; f32 0])]
    Handler.max_rowid.

(** A store with a note of 101 characters, two bytes each, and a note
    whose category is NULL. *)
Definition accents_db : Handler.database :=
  Handler.Database
    [Handler.Note 1 (String.concat "" (repeat "é" 101)) (Some "général")
       "2024-01-01T00:00:00" (Some [f32 1; f32 0]);
     Handler.Note 2 "plain" None "2024-01-01T00:00:01" (Some [f32 0; f32 1])]
    2.

(** A baseline taken with the sample model, and the same baseline with
    the vector of the second phrase turned by a quarter. *)
Definition baseline : EmbeddingCheck.calibration :=
  EmbeddingCheck.Calibration EmbeddingCheck.CALIBRATION_PHRASES
    [map to_py_float [f32 3; f32 4];
     map to_py_float [f32 1; f32 0];
     map to_py_float [f32 0; f32 1]].

Definition drifted_baseline : EmbeddingCheck.calibration :=
  EmbeddingCheck.Calibration EmbeddingCheck.CALIBRATION_PHRASES
    [map to_py_float [f32 3; f32 4];
     map to_py_float [f32 0; f32 1];
     map to_py_float [f32 0; f32 1]].



(** A file system that takes the calibration file, and one that
    refuses it. *)
Definition save (data : EmbeddingCheck.calibration) : exc unit := Ok tt.

Definition save_refused (data : EmbeddingCheck.calibration) : exc unit :=
  Raise "[Errno 13] Permission denied: '/app/data'".

End Sample.

(* ================================================================== *)
(** * [src/embedding_check.py]: [run_check] and [recalibrate] *)
(* ================================================================== *)

Module Startup.
Import PyFloat EmbeddingCheck.

Section WithModel.

(** [StableEmbeddingModel()]: loading the model succeeds or raises. *)
Variable load_model : exc unit.
Variable model_encode : list string -> exc (list (list float)).
Variable np_dot : list float -> list float -> float.
Variable np_norm32 : list float -> float.
Variable np_norm64 : list float -> float.
Variable format_4f : float -> string.
Variable save_calibration : calibration -> exc unit.

(** [run_check()]: the exit code, and the calibration file after the call
    ([saved] is the file before it).  Whatever is raised inside the [try]
    ends in the exit code 1. *)
Definition run_check (saved : option calibration) : Z * option calibration :=
  match (_ <- load_model ;;
         check_consistency model_encode np_dot np_norm32 np_norm64 format_4f
           save_calibration saved)
  with
  | Ok (is_ok, message, file) => (if is_ok : bool then 0 else 1, file)
  | Raise e => (1, saved)
  end.

(** [recalibrate()]: the calibration it saves; nothing is caught here. *)
Definition recalibrate : exc calibration :=
  _ <- load_model ;;
  calibration <- compute_calibration model_encode ;;
  _ <- save_calibration calibration ;;
  Ok calibration.

End WithModel.

End Startup.

(* ================================================================== *)
(** * Vocabulary of the further statements *)
(* ================================================================== *)

Module Spec2.
Import PyFloat Handler.

(** The names of the tools in a [tools/list] result. *)
Definition tool_names (catalog : json) : list string :=
  match member "tools" catalog with
  | Some (JList tools) =>
      flat_map (fun tool => match member "name" tool with
                            | Some (JStr name) => [name]
                            | _ => []
                            end) tools
  | _ => []
  end.

(** The tools that write to the store. *)
Definition is_write_tool (name : option string) : bool :=
  is_name name "add_note" || is_name name "update_note"
  || is_name name "delete_note".

(** The number of notes of a category ([None]: of no category). *)
Definition count_in_category (rows : list note) (cat : option string) : nat :=
  List.length (filter (fun row => same_category (note_category row) cat) rows).

(** The count kept for a category in the dict of [get_stats]. *)
Definition kept (counts : list (option string * nat)) (cat : option string) : nat :=
  match find (fun item => same_category (fst item) cat) counts with
  | Some item => snd item
  | None => 0%nat
  end.

(** One item of the listing stands before another: both categories are
    strings, the first one smaller. *)
Definition category_before (a b : option string * nat) : Prop :=
  exists x y, fst a = Some x /\ fst b = Some y /\ String.ltb x y = true.

(** The text of the TypeError raised on comparing a string with [None]. *)
Definition is_type_error (e : string) : Prop :=
  e = "'<' not supported between instances of 'str' and 'NoneType'" \/
  e = "'<' not supported between instances of 'NoneType' and 'str'".

(** The order of two items by their categories, where both are strings. *)
Definition category_ltb (a b : option string * nat) : bool :=
  match fst a, fst b with
  | Some x, Some y => String.ltb x y
  | _, _ => false
  end.

(** The store never loses or reuses an id: the counter does not go back. *)
Definition counter_kept (db db' : database) : Prop :=
  last_rowid db <= last_rowid db'.

End Spec2.

(* ================================================================== *)
(** * Properties *)
(* ================================================================== *)

(** ** SHA-256 on the test vectors of the standard and on a two-block
    message *)

Example sha_abc :
  SHA256.hexdigest "abc" = "ba7816bf8f01cfea414140de5dae2223b00361a396177a9cb410ff61f20015ad"%string.
Proof. vm_compute. reflexivity. Qed.

Example sha_empty :
  SHA256.hexdigest "" = "e3b0c44298fc1c149afbf4c8996fb92427ae41e4649b934ca495991b7852b855"%string.
Proof. vm_compute. reflexivity. Qed.

Example sha_long :
  SHA256.hexdigest "change_me_in_productionchange_me_in_productionchange_me_in_production"
  = "9bbbfd42aae9e9eebe552179199075b1344af0694418ef28d87826a5936ea7fc"%string.
Proof. vm_compute. reflexivity. Qed.

(** ** The order of floats *)

Module FloatOrder.
Import PyFloat.

Ltac compare_cases :=
  repeat match goal with
         | |- context [Pos.compare_cont Eq ?a ?b] =>
             change (Pos.compare_cont Eq a b) with (Pos.compare a b)
         end;
  repeat match goal with
         | |- context [Z.compare ?a ?b] => destruct (Z.compare_spec a b)
         | |- context [Pos.compare ?a ?b] => destruct (Pos.compare_spec a b)
         end.

Lemma lt_rank (a b : float) :
  is_nan a = false -> is_nan b = false ->
  (lt a b = true <-> rank_lt (rank a) (rank b)).
Proof.
  intros Ha Hb.
  destruct a as [sa | sa | | sa ma ea]; try discriminate;
    destruct b as [sb | sb | | sb mb eb]; try discriminate;
    destruct sa, sb; unfold lt, SFltb, SFcompare, rank, rank_lt;
    compare_cases; simpl; split; intros; try easy; try lia.
Qed.

Lemma lt_not_nan (a b : float) :
  lt a b = true -> is_nan a = false /\ is_nan b = false.
Proof.
  destruct a, b; simpl; intros H; try discriminate H; auto.
Qed.

Lemma ge_not_nan (a b : float) :
  ge a b = true -> is_nan a = false /\ is_nan b = false.
Proof.
  destruct a, b; simpl; intros H; try discriminate H; auto.
Qed.

(** [a >= b] is [not (a < b)] when there is no NaN around. *)
Lemma ge_not_lt (a b : float) :
  is_nan a = false -> is_nan b = false ->
  ge a b = negb (lt a b).
Proof.
  intros Ha Hb.
  destruct a as [sa | sa | | sa ma ea]; try discriminate;
    destruct b as [sb | sb | | sb mb eb]; try discriminate;
    destruct sa, sb; unfold ge, lt, SFleb, SFltb, SFcompare;
    compare_cases; simpl; try easy; try lia.
Qed.

Lemma eqb_not_lt (a b : float) :
  is_nan a = false -> is_nan b = false ->
  SFeqb a b = negb (lt a b) && negb (lt b a).
Proof.
  intros Ha Hb.
  destruct a as [sa | sa | | sa ma ea]; try discriminate;
    destruct b as [sb | sb | | sb mb eb]; try discriminate;
    destruct sa, sb; unfold lt, SFeqb, SFltb, SFcompare;
    compare_cases; simpl; try easy; try lia.
Qed.

Lemma lt_asym (a b : float) : lt a b = true -> lt b a = false.
Proof.
  intros H. destruct (lt_not_nan _ _ H) as [Ha Hb].
  apply (lt_rank _ _ Ha Hb) in H.
  destruct (lt b a) eqn:E; [|reflexivity].
  apply (lt_rank _ _ Hb Ha) in E.
  unfold rank_lt in *.
  destruct (rank a) as [[a1 a2] a3], (rank b) as [[b1 b2] b3]. lia.
Qed.

Lemma lt_negative_trans (a b c : float) :
  is_nan a = false -> is_nan b = false -> is_nan c = false ->
  lt a b = false -> lt b c = false -> lt a c = false.
Proof.
  intros Ha Hb Hc Hab Hbc.
  destruct (lt a c) eqn:E; [|reflexivity].
  apply (lt_rank _ _ Ha Hc) in E.
  assert (Nab : ~ rank_lt (rank a) (rank b))
    by (intros H; apply (lt_rank _ _ Ha Hb) in H; congruence).
  assert (Nbc : ~ rank_lt (rank b) (rank c))
    by (intros H; apply (lt_rank _ _ Hb Hc) in H; congruence).
  unfold rank_lt in *.
  destruct (rank a) as [[a1 a2] a3], (rank b) as [[b1 b2] b3],
    (rank c) as [[c1 c2] c3]. lia.
Qed.

Lemma ge_trans (a b c : float) :
  ge a b = true -> ge b c = true -> ge a c = true.
Proof.
  intros Hab Hbc.
  destruct (ge_not_nan _ _ Hab) as [Ha Hb].
  destruct (ge_not_nan _ _ Hbc) as [_ Hc].
  rewrite (ge_not_lt _ _ Ha Hb) in Hab.
  rewrite (ge_not_lt _ _ Hb Hc) in Hbc.
  rewrite (ge_not_lt _ _ Ha Hc).
  apply negb_true_iff in Hab, Hbc. apply negb_true_iff.
  exact (lt_negative_trans a b c Ha Hb Hc Hab Hbc).
Qed.

End FloatOrder.

(** ** Rounding to four decimals never goes below the floor *)

Module RoundFacts.
Import PyFloat.

Lemma div_half_even_lower (a b : Z) :
  0 < b -> a / b <= div_half_even a b.
Proof.
  intros Hb. unfold div_half_even.
  destruct (2 * (a mod b) ?= b); [destruct (Z.even (a / b))| |]; lia.
Qed.

Lemma div_half_even_mono (a a' b : Z) :
  0 < b -> a <= a' -> div_half_even a b <= div_half_even a' b.
Proof.
  intros Hb Ha.
  assert (Hq : a / b <= a' / b) by (apply Z.div_le_mono; lia).
  destruct (Z.eq_dec (a / b) (a' / b)) as [E | N].
  - assert (Hr : a mod b <= a' mod b).
    { rewrite (Z.div_mod a b), (Z.div_mod a' b) in Ha by lia.
      rewrite E in Ha. lia. }
    unfold div_half_even. rewrite E.
    destruct (Z.compare_spec (2 * (a mod b)) b),
             (Z.compare_spec (2 * (a' mod b)) b);
      destruct (Z.even (a' / b)); lia.
  - apply Z.le_trans with (a / b + 1).
    + unfold div_half_even.
      destruct (2 * (a mod b) ?= b); [destruct (Z.even (a / b))| |]; lia.
    + apply Z.le_trans with (a' / b); [lia|].
      apply div_half_even_lower. assumption.
Qed.

Lemma digits2_pos_lower (m : positive) :
  2 ^ (Zpos (digits2_pos m) - 1) <= Zpos m.
Proof.
  induction m as [m IH | m IH |]; simpl digits2_pos.
  - rewrite Pos2Z.inj_succ.
    replace (Z.succ (Zpos (digits2_pos m)) - 1)
      with (Z.succ (Zpos (digits2_pos m) - 1)) by lia.
    rewrite Z.pow_succ_r by lia. lia.
  - rewrite Pos2Z.inj_succ.
    replace (Z.succ (Zpos (digits2_pos m)) - 1)
      with (Z.succ (Zpos (digits2_pos m) - 1)) by lia.
    rewrite Z.pow_succ_r by lia. lia.
  - simpl. lia.
Qed.

Lemma iter_xO_value (m d : positive) :
  Zpos (Pos.iter xO m d) = Zpos m * 2 ^ Zpos d.
Proof.
  induction d as [|d IH] using Pos.peano_ind.
  - simpl. lia.
  - rewrite Pos.iter_succ, Pos2Z.inj_succ, Z.pow_succ_r by lia.
    rewrite Pos2Z.inj_xO, IH. lia.
Qed.

(** After [float(...)] the mantissa has at least 53 bits. *)
Lemma to_py_float_mantissa (r : float) (s : bool) (m : positive) (e : Z) :
  to_py_float r = S754_finite s m e -> 2 ^ 52 <= Zpos m.
Proof.
  destruct r as [? | ? | | s0 m0 e0]; try discriminate.
  pose proof (digits2_pos_lower m0) as Hd.
  unfold to_py_float, shl_align.
  destruct (e0 - (53 - Zpos (digits2_pos m0)) - e0) as [|p|p] eqn:E;
    intros H; injection H as <- <- <-.
  - assert (Zpos (digits2_pos m0) = 53) as Hd53 by lia.
    rewrite Hd53 in Hd. exact Hd.
  - assert (2 ^ 52 <= 2 ^ (Zpos (digits2_pos m0) - 1))
      by (apply Z.pow_le_mono_r; lia).
    lia.
  - rewrite iter_xO_value.
    assert (Zpos p = 53 - Zpos (digits2_pos m0)) as -> by lia.
    replace 52 with ((Zpos (digits2_pos m0) - 1) + (53 - Zpos (digits2_pos m0)))
      by lia.
    rewrite Z.pow_add_r by lia.
    apply Z.mul_le_mono_nonneg_r; [apply Z.pow_nonneg; lia | assumption].
Qed.

Lemma ge_floor_finite (s : bool) (m : positive) (e : Z) :
  ge (S754_finite s m e) lit_0_4 = true <->
  s = false /\ (-54 < e \/ (e = -54 /\ 7205759403792794 <= Zpos m)).
Proof.
  unfold ge, SFleb, SFcompare, lit_0_4.
  destruct s.
  - split; intros Hyp; [discriminate Hyp | destruct Hyp as [Hs _]; discriminate Hs].
  - change (Pos.compare_cont Eq 7205759403792794 m)
      with (Z.compare 7205759403792794 (Zpos m)).
    destruct (Z.compare_spec (-54) e) as [He | He | He];
      destruct (Z.compare_spec 7205759403792794 (Zpos m)) as [Hm | Hm | Hm];
      (split;
       [intros Hyp; first [discriminate Hyp | split; [reflexivity | lia]]
       | intros [_ Hyp]; first [reflexivity | lia]]).
Qed.

(** The number of ten-thousandths nearest to a float that is at least
    [0.4] is at least 4000. *)
Lemma ten_thousandths_floor (m : positive) (e : Z) :
  2 ^ 52 <= Zpos m ->
  -54 < e \/ (e = -54 /\ 7205759403792794 <= Zpos m) ->
  4000 <= div_half_even (Zpos m * 10000 * 2 ^ Z.max 0 e) (2 ^ Z.max 0 (- e)).
Proof.
  intros Hm He.
  assert (Hb : 0 < 2 ^ Z.max 0 (- e)) by (apply Z.pow_pos_nonneg; lia).
  eapply Z.le_trans; [|apply div_half_even_lower; assumption].
  apply Z.div_le_lower_bound; [assumption|].
  assert (Hn : 1 <= 2 ^ Z.max 0 e)
    by (change 1 with (2 ^ 0); apply Z.pow_le_mono_r; lia).
  destruct He as [He | [-> Hc]].
  - assert (Hd : 2 ^ Z.max 0 (- e) <= 2 ^ 53) by (apply Z.pow_le_mono_r; lia).
    change (2 ^ 53) with 9007199254740992 in Hd.
    change (2 ^ 52) with 4503599627370496 in Hm.
    apply Z.le_trans with (Zpos m * 10000 * 1); [lia|].
    apply Z.mul_le_mono_nonneg_l; lia.
  - change (Z.max 0 (- -54)) with 54. change (Z.max 0 (-54)) with 0.
    change (2 ^ 54) with 18014398509481984. change (2 ^ 0) with 1. lia.
Qed.

Lemma nearest64_floor (k : Z) :
  4000 <= k -> ge (nearest64 false k 10000) lit_0_4 = true.
Proof.
  intros Hk. unfold nearest64.
  set (t := k * 2 ^ 1200 / 10000).
  assert (Hp : 0 < 2 ^ 1198) by (apply Z.pow_pos_nonneg; lia).
  assert (Ht : 2 ^ 1198 <= t).
  { unfold t. apply Z.div_le_lower_bound; [lia|].
    replace (2 ^ 1200) with (2 ^ 1198 * 2 ^ 2) by (rewrite <- Z.pow_add_r; auto with zarith).
    change (2 ^ 2) with 4.
    generalize dependent (2 ^ 1198). intros p Hp.
    apply Z.le_trans with (4000 * (p * 4)); [lia|].
    apply Z.mul_le_mono_nonneg_r; lia. }
  assert (Hlog : 1198 <= Z.log2 t).
  { rewrite <- (Z.log2_pow2 1198) by lia. apply Z.log2_le_mono. assumption. }
  assert (Htpos : 0 < t) by lia.
  destruct (Z.log2_spec t Htpos) as [Hlow _].
  assert (Hmul : 10000 * 2 ^ Z.log2 t <= k * 2 ^ 1200).
  { apply Z.le_trans with (10000 * t).
    - apply Z.mul_le_mono_nonneg_l; lia.
    - unfold t. apply Z.mul_div_le. lia. }
  destruct (Z.eqb_spec t 0) as [Ht0 | _]; [lia|].
  set (e := Z.max (Z.log2 t - 1200 - 52) (-1074)).
  assert (He : -54 <= e) by (unfold e; lia).
  set (q := div_half_even (k * 2 ^ Z.max 0 (- e)) (10000 * 2 ^ Z.max 0 e)).
  assert (Hq : 1 <= q /\ (e = -54 -> 7205759403792794 <= q)).
  { split.
    - eapply Z.le_trans; [|apply div_half_even_lower].
      2: { apply Z.mul_pos_pos; [lia | apply Z.pow_pos_nonneg; lia]. }
      apply Z.div_le_lower_bound.
      { apply Z.mul_pos_pos; [lia | apply Z.pow_pos_nonneg; lia]. }
      rewrite Z.mul_1_r.
      assert (Elog : Z.log2 t = e + 1252) by (unfold e; lia).
      set (u := Z.max 0 (- e)). set (v := Z.max 0 e).
      assert (Hu : 0 <= u) by (unfold u; lia).
      assert (Hv : 0 <= v) by (unfold v; lia).
      assert (Huv : Z.log2 t + u = v + 52 + 1200) by (unfold u, v; lia).
      assert (H1 : 10000 * 2 ^ v * 2 ^ 52 * 2 ^ 1200 <= k * 2 ^ u * 2 ^ 1200).
      { rewrite <- !Z.mul_assoc, <- !Z.pow_add_r by lia.
        replace (v + (52 + 1200)) with (Z.log2 t + u) by lia.
        rewrite !Z.pow_add_r by lia.
        replace (10000 * (2 ^ Z.log2 t * 2 ^ u))
          with (10000 * 2 ^ Z.log2 t * 2 ^ u) by ring.
        replace (k * (2 ^ u * 2 ^ 1200)) with (k * 2 ^ 1200 * 2 ^ u) by ring.
        apply Z.mul_le_mono_nonneg_r; [apply Z.pow_nonneg; lia | assumption]. }
      apply Z.mul_le_mono_pos_r in H1; [|apply Z.pow_pos_nonneg; lia].
      assert (0 <= 10000 * 2 ^ v)
        by (apply Z.mul_nonneg_nonneg; [lia | apply Z.pow_nonneg; lia]).
      change (2 ^ 52) with 4503599627370496 in H1.
      generalize dependent (10000 * 2 ^ v). intros; lia.
    - intros E. unfold q. rewrite E.
      change (Z.max 0 (- -54)) with 54. change (Z.max 0 (-54)) with 0.
      change (10000 * 2 ^ 0) with 10000.
      change 7205759403792794 with (div_half_even (4000 * 2 ^ 54) 10000).
      apply div_half_even_mono; [lia|].
      apply Z.mul_le_mono_nonneg_r; [apply Z.pow_nonneg; lia | assumption]. }
  destruct Hq as [Hq1 Hq2].
  destruct (Z.eqb_spec q (2 ^ 53)) as [_ | _].
  - change (2 ^ 52) with (Zpos 4503599627370496).
    destruct (e + 1 <=? 971); [|reflexivity].
    apply ge_floor_finite. split; [reflexivity | lia].
  - destruct q as [|qm|qm]; try lia.
    destruct (e <=? 971); [|reflexivity].
    apply ge_floor_finite. split; [reflexivity | lia].
Qed.

(** [div_half_even a b] is within a half of [a / b], and is the only
    integer strictly within. *)
Lemma div_half_even_near (a b : Z) :
  0 < b -> 2 * Z.abs (div_half_even a b * b - a) <= b.
Proof.
  intros Hb. unfold div_half_even.
  pose proof (Z.div_mod a b ltac:(lia)) as Hdm.
  pose proof (Z.mod_pos_bound a b Hb) as Hr.
  set (q := a / b) in *. set (r := a mod b) in *.
  destruct (Z.compare_spec (2 * r) b) as [E | L | G];
    [destruct (Z.even q)| |]; lia.
Qed.

Lemma div_half_even_unique (a b k : Z) :
  0 < b -> 2 * Z.abs (k * b - a) < b -> div_half_even a b = k.
Proof.
  intros Hb Hk. pose proof (div_half_even_near a b Hb) as Hd.
  set (d := div_half_even a b) in *.
  destruct (Z.lt_trichotomy d k) as [L | [E | G]]; [exfalso | exact E | exfalso].
  - assert ((d + 1) * b <= k * b) by (apply Z.mul_le_mono_nonneg_r; lia). lia.
  - assert ((k + 1) * b <= d * b) by (apply Z.mul_le_mono_nonneg_r; lia). lia.
Qed.

Lemma div_half_even_upper (a b : Z) :
  0 < b -> 0 <= a -> div_half_even a b <= a + 1.
Proof.
  intros Hb Ha.
  assert (Hq : a / b <= a).
  { apply Z.div_le_upper_bound; [assumption|].
    replace a with (1 * a) at 1 by lia. apply Z.mul_le_mono_nonneg_r; lia. }
  unfold div_half_even.
  destruct (2 * (a mod b) ?= b); [destruct (Z.even (a / b))| |]; lia.
Qed.

(** ** The values of [float32] divisions *)

Lemma digits2_pos_upper (m : positive) :
  Zpos m < 2 ^ Zpos (digits2_pos m).
Proof.
  induction m as [m IH | m IH |]; simpl digits2_pos.
  - rewrite Pos2Z.inj_succ, Z.pow_succ_r by lia. lia.
  - rewrite Pos2Z.inj_succ, Z.pow_succ_r by lia. lia.
  - simpl. lia.
Qed.

(** One shift to the right halves the mantissa. *)
Lemma shr_1_halves (r : shr_record) :
  2 * Z.max (shr_m (shr_1 r)) 0 <= Z.max (shr_m r) 0.
Proof.
  destruct r as [m rb sb]. destruct m as [|[p | p |]|[p | p |]]; simpl; lia.
Qed.

Lemma iter_shr_1_halves (p : positive) (r : shr_record) :
  Z.max (shr_m (iter_pos shr_1 p r)) 0 * 2 ^ Zpos p <= Z.max (shr_m r) 0.
Proof.
  revert r. induction p as [p IH | p IH |]; intros r; simpl iter_pos.
  - pose proof (IH (iter_pos shr_1 p (shr_1 r))) as H1.
    pose proof (IH (shr_1 r)) as H2.
    pose proof (shr_1_halves r) as H3.
    rewrite Pos2Z.inj_xI.
    replace (2 * Zpos p + 1) with (Zpos p + Zpos p + 1) by lia.
    rewrite !Z.pow_add_r by lia. change (2 ^ 1) with 2.
    assert (Hp : 0 < 2 ^ Zpos p) by (apply Z.pow_pos_nonneg; lia).
    set (A := Z.max (shr_m (iter_pos shr_1 p (iter_pos shr_1 p (shr_1 r)))) 0) in *.
    set (B := Z.max (shr_m (iter_pos shr_1 p (shr_1 r))) 0) in *.
    set (C := Z.max (shr_m (shr_1 r)) 0) in *.
    remember (2 ^ Zpos p) as P eqn:EP. clear EP IH.
    assert (A * P * P <= B * P) by (apply Z.mul_le_mono_nonneg_r; lia).
    lia.
  - pose proof (IH (iter_pos shr_1 p r)) as H1.
    pose proof (IH r) as H2.
    replace (Zpos p~0) with (Zpos p + Zpos p) by lia.
    rewrite !Z.pow_add_r by lia.
    assert (Hp : 0 < 2 ^ Zpos p) by (apply Z.pow_pos_nonneg; lia).
    set (A := Z.max (shr_m (iter_pos shr_1 p (iter_pos shr_1 p r))) 0) in *.
    set (B := Z.max (shr_m (iter_pos shr_1 p r)) 0) in *.
    remember (2 ^ Zpos p) as P eqn:EP. clear EP IH.
    assert (A * P * P <= B * P) by (apply Z.mul_le_mono_nonneg_r; lia).
    lia.
  - pose proof (shr_1_halves r). change (2 ^ 1) with 2. lia.
Qed.

(** What [binary_round_aux] returns for [float32] is a [float32]: a
    mantissa below [2^24] and an exponent of at most 104. *)
Lemma binary_round_aux_float32 (sx : bool) (mx ex : Z) (lx : location)
  (s : bool) (m : positive) (e : Z) :
  binary_round_aux 24 128 sx mx ex lx = S754_finite s m e ->
  Zpos m < 2 ^ 24 /\ e <= 104.
Proof.
  unfold binary_round_aux.
  destruct (shr_fexp 24 128 mx ex lx) as [mrs1 e1].
  set (M := round_nearest_even (shr_m mrs1) (loc_of_shr_record mrs1)).
  destruct (shr_fexp 24 128 M e1 loc_Exact) as [mrs2 e2] eqn:E2.
  destruct (shr_m mrs2) as [|m2|m2] eqn:Em; try discriminate.
  destruct (Z.leb_spec e2 (128 - 24)) as [He | He]; [|discriminate].
  intros H. injection H as _ <- <-. split; [|lia].
  unfold shr_fexp, shr, shr_record_of_loc, fexp, emin in E2.
  assert (Hcase : forall d : Z,
             Zdigits2 M = d -> 0 < M -> M < 2 ^ d).
  { intros d Hd HM. destruct M as [|mm|mm]; try lia.
    simpl in Hd. subst d. apply digits2_pos_upper. }
  destruct (Z.max (Zdigits2 M + e1 - 24) (3 - 128 - 24) - e1) as [|p|p] eqn:En.
  - injection E2 as <- <-. simpl in Em. rewrite Em in *.
    pose proof (Hcase _ eq_refl ltac:(lia)) as Hlt.
    simpl Zdigits2 in *.
    assert (Hd : Zpos (digits2_pos m2) <= 24) by lia.
    apply Z.lt_le_trans with (2 ^ Zpos (digits2_pos m2)); [exact Hlt|].
    apply Z.pow_le_mono_r; lia.
  - injection E2 as <- <-.
    pose proof (iter_shr_1_halves p {| shr_m := M; shr_r := false; shr_s := false |})
      as Hshift.
    rewrite Em in Hshift. simpl shr_m in Hshift.
    assert (Hp : 0 < 2 ^ Zpos p) by (apply Z.pow_pos_nonneg; lia).
    assert (HM : 0 < M).
    { destruct (Z.max_spec M 0) as [[_ E] | [_ E]]; rewrite E in Hshift.
      - replace (Z.max (Zpos m2) 0) with (Zpos m2) in Hshift by lia.
        assert (0 < Zpos m2 * 2 ^ Zpos p) by (apply Z.mul_pos_pos; lia). lia.
      - replace (Z.max (Zpos m2) 0) with (Zpos m2) in Hshift by lia.
        assert (0 < Zpos m2 * 2 ^ Zpos p) by (apply Z.mul_pos_pos; lia). lia. }
    replace (Z.max (Zpos m2) 0) with (Zpos m2) in Hshift by lia.
    replace (Z.max M 0) with M in Hshift by lia.
    pose proof (Hcase _ eq_refl HM) as Hlt.
    assert (Hd : Zdigits2 M <= Zpos p + 24) by lia.
    assert (Hpow : 2 ^ Zdigits2 M <= 2 ^ Zpos p * 2 ^ 24).
    { rewrite <- Z.pow_add_r by lia. apply Z.pow_le_mono_r; lia. }
    assert (Hprod : Zpos m2 * 2 ^ Zpos p < 2 ^ 24 * 2 ^ Zpos p) by lia.
    apply Z.mul_lt_mono_pos_r in Hprod; assumption.
  - injection E2 as <- <-. simpl in Em. rewrite Em in *.
    pose proof (Hcase _ eq_refl ltac:(lia)) as Hlt.
    simpl Zdigits2 in *.
    assert (Hd : Zpos (digits2_pos m2) <= 24) by lia.
    apply Z.lt_le_trans with (2 ^ Zpos (digits2_pos m2)); [exact Hlt|].
    apply Z.pow_le_mono_r; lia.
Qed.

Lemma div32_float32 (a b : float) (s : bool) (m : positive) (e : Z) :
  div32 a b = S754_finite s m e -> Zpos m < 2 ^ 24 /\ e <= 104.
Proof.
  unfold div32, SFdiv.
  destruct a as [sa | sa | | sa ma ea], b as [sb | sb | | sb mb eb];
    try discriminate.
  destruct (SFdiv_core_binary 24 128 (Zpos ma) ea (Zpos mb) eb) as [[mz ez] lz].
  apply binary_round_aux_float32.
Qed.

(** [float(x)] of a [float32]: 53 bits and an exponent of at most 75. *)
Lemma to_py_float_float32 (s0 : bool) (m0 : positive) (e0 : Z)
  (s : bool) (m : positive) (e : Z) :
  Zpos m0 < 2 ^ 24 -> e0 <= 104 ->
  to_py_float (S754_finite s0 m0 e0) = S754_finite s m e ->
  s = s0 /\ 2 ^ 52 <= Zpos m < 2 ^ 53 /\ e <= 75.
Proof.
  intros Hm0 He0 H.
  pose proof (to_py_float_mantissa _ _ _ _ H) as Hlow.
  pose proof (digits2_pos_lower m0) as Hd.
  pose proof (digits2_pos_upper m0) as Hu.
  assert (Hdigits : Zpos (digits2_pos m0) <= 24).
  { destruct (Z.le_gt_cases (Zpos (digits2_pos m0)) 24) as [L | G]; [exact L|].
    assert (2 ^ 24 <= 2 ^ (Zpos (digits2_pos m0) - 1))
      by (apply Z.pow_le_mono_r; lia).
    lia. }
  unfold to_py_float, shl_align in H.
  destruct (e0 - (53 - Zpos (digits2_pos m0)) - e0) as [|p|p] eqn:E; try lia.
  injection H as <- <- <-. split; [reflexivity|]. split; [split|].
  - exact Hlow.
  - rewrite iter_xO_value.
    assert (Hp : Zpos p = 53 - Zpos (digits2_pos m0)) by lia.
    replace 53 with (Zpos (digits2_pos m0) + Zpos p) by lia.
    rewrite Z.pow_add_r by lia.
    apply Z.mul_lt_mono_pos_r; [apply Z.pow_pos_nonneg; lia | exact Hu].
  - change (e0 - (53 - Zpos (digits2_pos m0)) <= 75). lia.
Qed.


(** The double next to [k / 10000], for [k / 10000] between 0.4 and
    [2^128]. *)
Lemma nearest64_near (k : Z) :
  4000 <= k -> k <= 10000 * 2 ^ 128 ->
  exists q e,
    nearest64 false k 10000 = S754_finite false q e /\
    2 ^ 52 <= Zpos q < 2 ^ 53 /\
    2 * Z.abs (Zpos q * 10000 * 2 ^ Z.max 0 e - k * 2 ^ Z.max 0 (- e))
    <= 10000 * 2 ^ Z.max 0 e.
Proof.
  intros Hk Hkmax. unfold nearest64.
  set (t := k * 2 ^ 1200 / 10000).
  assert (Hp1200 : 0 < 2 ^ 1200) by (apply Z.pow_pos_nonneg; lia).
  assert (Ht : 2 ^ 1198 <= t).
  { unfold t. apply Z.div_le_lower_bound; [lia|].
    replace (2 ^ 1200) with (2 ^ 1198 * 2 ^ 2)
      by (rewrite <- Z.pow_add_r; auto with zarith).
    change (2 ^ 2) with 4.
    assert (Hp : 0 < 2 ^ 1198) by (apply Z.pow_pos_nonneg; lia).
    remember (2 ^ 1198) as P eqn:EP. clear EP.
    apply Z.le_trans with (4000 * (P * 4)); [lia|].
    apply Z.mul_le_mono_nonneg_r; lia. }
  assert (Htpos : 0 < t).
  { apply Z.lt_le_trans with (2 ^ 1198); [apply Z.pow_pos_nonneg; lia | exact Ht]. }
  assert (Hlog : 1198 <= Z.log2 t).
  { rewrite <- (Z.log2_pow2 1198) by lia. apply Z.log2_le_mono. assumption. }
  assert (Htmax : t < 2 ^ 1329).
  { unfold t. apply Z.div_lt_upper_bound; [lia|].
    replace (2 ^ 1329) with (2 ^ 129 * 2 ^ 1200)
      by (rewrite <- Z.pow_add_r; auto with zarith).
    assert (Hk' : k < 10000 * 2 ^ 129).
    { replace (2 ^ 129) with (2 ^ 128 * 2) by reflexivity.
      assert (0 < 2 ^ 128) by (apply Z.pow_pos_nonneg; lia).
      remember (2 ^ 128) as P eqn:EP in *. clear EP. lia. }
    rewrite Z.mul_assoc. apply Z.mul_lt_mono_pos_r; assumption. }
  assert (Hlogmax : Z.log2 t < 1329) by (apply Z.log2_lt_pow2; assumption).
  destruct (Z.log2_spec t Htpos) as [Hlow Hup].
  assert (Hmul : 10000 * 2 ^ Z.log2 t <= k * 2 ^ 1200).
  { apply Z.le_trans with (10000 * t).
    - apply Z.mul_le_mono_nonneg_l; lia.
    - unfold t. apply Z.mul_div_le. lia. }
  assert (Hmul' : k * 2 ^ 1200 < 10000 * 2 ^ Z.succ (Z.log2 t)).
  { apply Z.lt_le_trans with (10000 * Z.succ t).
    - unfold t. apply Z.mul_succ_div_gt. lia.
    - apply Z.mul_le_mono_nonneg_l; lia. }
  destruct (Z.eqb_spec t 0) as [Ht0 | _]; [lia|].
  set (e := Z.max (Z.log2 t - 1200 - 52) (-1074)).
  assert (Ee : e = Z.log2 t - 1252) by (unfold e; lia).
  set (u := Z.max 0 (- e)). set (v := Z.max 0 e).
  assert (Hu : 0 <= u) by (unfold u; lia).
  assert (Hv : 0 <= v) by (unfold v; lia).
  assert (Huv : Z.log2 t + u = v + 52 + 1200) by (unfold u, v; lia).
  assert (Hpu : 0 < 2 ^ u) by (apply Z.pow_pos_nonneg; lia).
  assert (Hpv : 0 < 2 ^ v) by (apply Z.pow_pos_nonneg; lia).
  assert (Hd : 0 < 10000 * 2 ^ v) by lia.
  assert (H1 : 10000 * 2 ^ v * 2 ^ 52 <= k * 2 ^ u).
  { assert (H : 10000 * 2 ^ v * 2 ^ 52 * 2 ^ 1200 <= k * 2 ^ u * 2 ^ 1200).
    { rewrite <- !Z.mul_assoc, <- !Z.pow_add_r by lia.
      replace (v + (52 + 1200)) with (Z.log2 t + u) by lia.
      rewrite !Z.pow_add_r by lia.
      replace (10000 * (2 ^ Z.log2 t * 2 ^ u))
        with (10000 * 2 ^ Z.log2 t * 2 ^ u) by ring.
      replace (k * (2 ^ u * 2 ^ 1200)) with (k * 2 ^ 1200 * 2 ^ u) by ring.
      apply Z.mul_le_mono_nonneg_r; [lia | assumption]. }
    apply Z.mul_le_mono_pos_r in H; assumption. }
  assert (H2 : k * 2 ^ u < 10000 * 2 ^ v * 2 ^ 53).
  { assert (H : k * 2 ^ u * 2 ^ 1200 < 10000 * 2 ^ v * 2 ^ 53 * 2 ^ 1200).
    { rewrite <- !Z.mul_assoc, <- !Z.pow_add_r by lia.
      replace (v + (53 + 1200)) with (Z.succ (Z.log2 t) + u) by lia.
      rewrite !Z.pow_add_r by lia.
      replace (10000 * (2 ^ Z.succ (Z.log2 t) * 2 ^ u))
        with (10000 * 2 ^ Z.succ (Z.log2 t) * 2 ^ u) by ring.
      replace (k * (2 ^ u * 2 ^ 1200)) with (k * 2 ^ 1200 * 2 ^ u) by ring.
      apply Z.mul_lt_mono_pos_r; assumption. }
    apply Z.mul_lt_mono_pos_r in H; assumption. }
  set (q := div_half_even (k * 2 ^ u) (10000 * 2 ^ v)).
  pose proof (div_half_even_near (k * 2 ^ u) (10000 * 2 ^ v) Hd) as Hnear.
  fold q in Hnear.
  assert (Hqlow : 2 ^ 52 <= q).
  { eapply Z.le_trans; [|apply div_half_even_lower; exact Hd].
    apply Z.div_le_lower_bound; [exact Hd|]. exact H1. }
  assert (Hqup : q <= 2 ^ 53).
  { assert (Hfloor : k * 2 ^ u / (10000 * 2 ^ v) < 2 ^ 53)
      by (apply Z.div_lt_upper_bound; [exact Hd | exact H2]).
    unfold q, div_half_even.
    destruct (2 * ((k * 2 ^ u) mod (10000 * 2 ^ v)) ?= 10000 * 2 ^ v);
      [destruct (Z.even (k * 2 ^ u / (10000 * 2 ^ v)))| |]; lia. }
  change (2 ^ 52) with 4503599627370496 in *.
  change (2 ^ 53) with 9007199254740992 in *.
  destruct (Z.eqb_spec q 9007199254740992) as [Eq | Nq].
  - assert (Hle : (e + 1 <=? 971) = true) by (apply Z.leb_le; lia).
    rewrite Hle. exists 4503599627370496%positive, (e + 1).
    split; [reflexivity|]. split; [lia|].
    rewrite Eq in Hnear.
    destruct (Z.le_gt_cases 0 e) as [Hpos | Hneg].
    + assert (Ev : v = e) by (unfold v; lia).
      assert (Eu : u = 0) by (unfold u; lia).
      rewrite Ev, Eu in Hnear. change (2 ^ 0) with 1 in Hnear.
      replace (Z.max 0 (e + 1)) with (Z.succ e) by lia.
      replace (Z.max 0 (- (e + 1))) with 0 by lia.
      change (2 ^ 0) with 1. rewrite Z.pow_succ_r by lia.
      assert (0 < 2 ^ e) by (apply Z.pow_pos_nonneg; lia).
      remember (2 ^ e) as P eqn:EP in *. clear EP. lia.
    + assert (Ev : v = 0) by (unfold v; lia).
      assert (Eu : u = Z.succ (- (e + 1))) by (unfold u; lia).
      rewrite Ev, Eu in Hnear. change (2 ^ 0) with 1 in Hnear.
      rewrite Z.pow_succ_r in Hnear by lia.
      replace (Z.max 0 (e + 1)) with 0 by lia.
      replace (Z.max 0 (- (e + 1))) with (- (e + 1)) by lia.
      change (2 ^ 0) with 1.
      assert (0 < 2 ^ (- (e + 1))) by (apply Z.pow_pos_nonneg; lia).
      remember (2 ^ (- (e + 1))) as P eqn:EP in *. clear EP. lia.
  - destruct q as [|qm|qm]; try lia.
    assert (Hle : (e <=? 971) = true) by (apply Z.leb_le; lia).
    rewrite Hle. exists qm, e.
    split; [reflexivity|]. split; [lia|].
    fold u v.
    replace (Zpos qm * 10000 * 2 ^ v) with (Zpos qm * (10000 * 2 ^ v)) by ring.
    exact Hnear.
Qed.

(** A similarity that passed the floor is rounded to four decimals in
    the sense of [rounded_to_4_decimals]. *)
Lemma round4_rounds (a b : float) :
  ge (to_py_float (div32 a b)) lit_0_4 = true ->
  Spec.rounded_to_4_decimals (to_py_float (div32 a b))
    (round4 (to_py_float (div32 a b))).
Proof.
  intros Hge.
  destruct (div32 a b) as [s0 | s0 | | s0 m0 e0] eqn:Ediv;
    try (simpl in *; first [discriminate Hge | reflexivity]).
  destruct (div32_float32 a b s0 m0 e0 Ediv) as [Hm0 He0].
  destruct (to_py_float (S754_finite s0 m0 e0)) as [s | s | | s m e] eqn:E;
    try (unfold to_py_float in E;
         destruct (shl_align m0 e0 (e0 - (53 - Zpos (digits2_pos m0))));
         discriminate E).
  destruct (to_py_float_float32 s0 m0 e0 s m e Hm0 He0 E) as (_ & Hm & He).
  apply ge_floor_finite in Hge. destruct Hge as [-> Hfloor].
  unfold Spec.rounded_to_4_decimals, round4.
  set (k := div_half_even (Zpos m * 10000 * 2 ^ Z.max 0 e) (2 ^ Z.max 0 (- e))).
  assert (Hb : 0 < 2 ^ Z.max 0 (- e)) by (apply Z.pow_pos_nonneg; lia).
  assert (Hk : 4000 <= k) by (apply ten_thousandths_floor; [lia | assumption]).
  assert (Hkmax : k <= 10000 * 2 ^ 128).
  { assert (Ha : 0 <= Zpos m * 10000 * 2 ^ Z.max 0 e).
    { apply Z.mul_nonneg_nonneg; [lia | apply Z.pow_nonneg; lia]. }
    pose proof (div_half_even_upper _ _ Hb Ha) as Hup. fold k in Hup.
    assert (Hpow : 2 ^ Z.max 0 e <= 2 ^ 75) by (apply Z.pow_le_mono_r; lia).
    assert (Hp0 : 0 < 2 ^ Z.max 0 e) by (apply Z.pow_pos_nonneg; lia).
    replace (2 ^ 128) with (2 ^ 53 * 2 ^ 75)
      by (rewrite <- Z.pow_add_r; auto with zarith).
    assert (Hprod : (Zpos m + 1) * 2 ^ Z.max 0 e <= 2 ^ 53 * 2 ^ 75).
    { apply Z.mul_le_mono_nonneg; lia. }
    remember (2 ^ Z.max 0 e) as P eqn:EP in *.
    remember (2 ^ 75) as Q eqn:EQ in *.
    remember (2 ^ 53) as R eqn:ER in *. clear EP EQ ER. lia. }
  destruct (nearest64_near k Hk Hkmax) as (q & e' & Hq & Hbits & Hnear).
  exists k. split.
  - unfold Spec.nearest_ten_thousandths.
    exact (div_half_even_near _ _ Hb).
  - rewrite Hq. split; [reflexivity|]. split; assumption.
Qed.

(** Two similarities strictly within a half of the same multiple of
    0.0001 are rounded to the same float. *)
Lemma round4_ties (k : Z) (x x' : float) :
  Spec.within_half_of k x -> Spec.within_half_of k x' -> round4 x = round4 x'.
Proof.
  destruct x as [? | ? | | [|] m e]; try contradiction.
  destruct x' as [? | ? | | [|] m' e']; try contradiction.
  unfold Spec.within_half_of, round4. intros H H'.
  rewrite (div_half_even_unique _ _ k) by
    (first [apply Z.pow_pos_nonneg; lia | exact H]).
  rewrite (div_half_even_unique _ _ k) by
    (first [apply Z.pow_pos_nonneg; lia | exact H']).
  reflexivity.
Qed.

(** [round4] on a few values, as CPython rounds them. *)
Example round4_values :
  (* round(0.12345, 4) = 0.1235 *)
  round4 (S754_finite false 8895509983982204 (-56))
  = S754_finite false 8899112863684100 (-56) /\
  (* round(0.00005, 4) = 0.0001 *)
  round4 (S754_finite false 7378697629483821 (-67))
  = S754_finite false 7378697629483821 (-66) /\
  (* round(-0.00001, 4) = -0.0 *)
  round4 (S754_finite true 5902958103587057 (-69))
  = S754_zero true /\
  (* round(0.6000000238418579, 4) = 0.6 *)
  round4 (S754_finite false 5404319767592960 (-53))
  = S754_finite false 5404319552844595 (-53) /\
  (* round(0.39995, 4) = 0.4 *)
  round4 (S754_finite false 7204858683867320 (-54))
  = S754_finite false 7205759403792794 (-54) /\
  (* round(123456789.98765433, 4) = 123456789.9877 *)
  round4 (S754_finite false 8285044929158056 (-26))
  = S754_finite false 8285044929161121 (-26).
Proof.
  repeat split; vm_compute; reflexivity.
Qed.

(** A similarity that passed the [>= 0.4] test still passes it after
    [round(sim, 4)]. *)
Lemma round4_floor (r : float) :
  ge (to_py_float r) lit_0_4 = true ->
  ge (round4 (to_py_float r)) lit_0_4 = true.
Proof.
  intros H.
  destruct (to_py_float r) as [s | s | | s m e] eqn:E.
  - discriminate H.
  - exact H.
  - discriminate H.
  - apply ge_floor_finite in H. destruct H as [-> He].
    unfold round4. apply nearest64_floor.
    apply ten_thousandths_floor; [|assumption].
    exact (to_py_float_mantissa r false m e E).
Qed.

End RoundFacts.

(** ** Sorting and slicing *)

Module SortFacts.

Section Lists.

Context {A : Type}.

Lemma StronglySorted_app (R : A -> A -> Prop) (l1 l2 : list A) :
  StronglySorted R l1 -> StronglySorted R l2 ->
  (forall a b, In a l1 -> In b l2 -> R a b) ->
  StronglySorted R (l1 ++ l2).
Proof.
  induction l1 as [|x l1 IH]; intros H1 H2 H12; simpl; [assumption|].
  apply StronglySorted_inv in H1. destruct H1 as [H1 Hx].
  constructor.
  - apply IH; [assumption | assumption |].
    intros a b Ha Hb. apply H12; [right|]; assumption.
  - apply Forall_app. split; [assumption|].
    apply Forall_forall. intros b Hb. apply H12; [left; reflexivity | assumption].
Qed.

Lemma StronglySorted_rev (R : A -> A -> Prop) (l : list A) :
  StronglySorted R l -> StronglySorted (fun a b => R b a) (rev l).
Proof.
  induction 1 as [|x l Hl IH Hx]; simpl; [constructor|].
  apply StronglySorted_app; [assumption | repeat constructor |].
  intros a b Ha [<- | []].
  apply in_rev in Ha. rewrite Forall_forall in Hx. auto.
Qed.

Lemma StronglySorted_impl (R S : A -> A -> Prop) (l : list A) :
  (forall a b, In a l -> In b l -> R a b -> S a b) ->
  StronglySorted R l -> StronglySorted S l.
Proof.
  intros HRS H. induction H as [|x l Hl IH Hx]; constructor.
  - apply IH. intros a b Ha Hb. apply HRS; right; assumption.
  - rewrite Forall_forall in *. intros b Hb.
    apply HRS; [left; reflexivity | right; assumption | auto].
Qed.

Lemma StronglySorted_firstn (R : A -> A -> Prop) (n : nat) (l : list A) :
  StronglySorted R l -> StronglySorted R (firstn n l).
Proof.
  intros H. revert n. induction H as [|x l Hl IH Hx]; intros [|n]; simpl;
    try constructor.
  - apply IH.
  - rewrite Forall_forall in *. intros b Hb. apply Hx.
    revert Hb. rewrite <- (firstn_skipn n l) at 2. intros Hb.
    apply in_or_app. left. assumption.
Qed.

Lemma In_firstn (n : nat) (l : list A) (a : A) :
  In a (firstn n l) -> In a l.
Proof.
  intros H. rewrite <- (firstn_skipn n l). apply in_or_app. left. assumption.
Qed.

Lemma In_slice_to (l : list A) (stop : Z) (a : A) :
  In a (Py.slice_to l stop) -> In a l.
Proof.
  unfold Py.slice_to. destruct (0 <=? stop); apply In_firstn.
Qed.

Lemma StronglySorted_slice_to (R : A -> A -> Prop) (l : list A) (stop : Z) :
  StronglySorted R l -> StronglySorted R (Py.slice_to l stop).
Proof.
  intros H. unfold Py.slice_to.
  destruct (0 <=? stop); apply StronglySorted_firstn; assumption.
Qed.

Lemma slice_to_length (l : list A) (stop : Z) :
  0 <= stop ->
  Z.of_nat (List.length (Py.slice_to l stop)) = Z.min stop (Z.of_nat (List.length l)).
Proof.
  intros H. unfold Py.slice_to.
  destruct (Z.leb_spec 0 stop); [|lia].
  rewrite length_firstn. lia.
Qed.

Lemma slice_to_negative_length (l : list A) (stop : Z) :
  stop < 0 ->
  Z.of_nat (List.length (Py.slice_to l stop))
  = Z.max 0 (Z.of_nat (List.length l) + stop).
Proof.
  intros H. unfold Py.slice_to.
  destruct (Z.leb_spec 0 stop); [lia|].
  rewrite length_firstn. lia.
Qed.

End Lists.

Section StableSort.

Context {A : Type}.
Variable lt : A -> A -> bool.
(** The elements whose keys can be compared (for floats: no NaN). *)
Variable ok : A -> Prop.
Hypothesis lt_asym : forall a b, ok a -> ok b -> lt a b = true -> lt b a = false.
Hypothesis lt_negative_trans :
  forall a b c, ok a -> ok b -> ok c ->
    lt a b = false -> lt b c = false -> lt a c = false.

Lemma In_insert_by (x a : A) (l : list A) :
  In a (Py.insert_by lt x l) <-> a = x \/ In a l.
Proof.
  induction l as [|y l IH]; simpl.
  - intuition.
  - destruct (lt y x); simpl; rewrite ?IH; intuition.
Qed.

Lemma In_list_sort (a : A) (l : list A) :
  In a (Py.list_sort lt l) <-> In a l.
Proof.
  induction l as [|x l IH]; simpl; [reflexivity|].
  rewrite In_insert_by, IH. intuition.
Qed.

Lemma In_list_sort_reverse (a : A) (l : list A) :
  In a (Py.list_sort_reverse lt l) <-> In a l.
Proof.
  unfold Py.list_sort_reverse.
  rewrite <- in_rev, In_list_sort, <- in_rev. reflexivity.
Qed.

Lemma insert_by_length (x : A) (l : list A) :
  List.length (Py.insert_by lt x l) = S (List.length l).
Proof.
  induction l as [|y l IH]; simpl; [reflexivity|].
  destruct (lt y x); simpl; congruence.
Qed.

Lemma list_sort_length (l : list A) :
  List.length (Py.list_sort lt l) = List.length l.
Proof.
  induction l as [|x l IH]; simpl; [reflexivity|].
  rewrite insert_by_length. congruence.
Qed.

Lemma list_sort_reverse_length (l : list A) :
  List.length (Py.list_sort_reverse lt l) = List.length l.
Proof.
  unfold Py.list_sort_reverse.
  rewrite length_rev, list_sort_length, length_rev. reflexivity.
Qed.

Lemma insert_by_sorted (R : A -> A -> Prop) (x : A) (l : list A) :
  ok x -> Forall ok l -> Forall (R x) l ->
  StronglySorted (Py.asc_stable lt R) l ->
  StronglySorted (Py.asc_stable lt R) (Py.insert_by lt x l).
Proof.
  intros Hx Hok HR Hs.
  induction Hs as [|y l Hl IH Hy]; simpl.
  - repeat constructor.
  - apply Forall_cons_iff in Hok. destruct Hok as [Hoky Hok].
    apply Forall_cons_iff in HR. destruct HR as [HRy HR].
    destruct (lt y x) eqn:Eyx.
    + constructor; [auto|].
      apply Forall_forall. intros z Hz.
      apply (proj1 (In_insert_by x z l)) in Hz. destruct Hz as [-> | Hz].
      * left. assumption.
      * rewrite Forall_forall in Hy. auto.
    + assert (Hfront : forall z, ok z -> R x z -> lt z x = false ->
                                 Py.asc_stable lt R x z).
      { intros z Hz HRz Hzx. unfold Py.asc_stable.
        destruct (lt x z); [left; reflexivity | right; auto]. }
      constructor; [constructor; assumption|].
      constructor; [apply Hfront; assumption|].
      apply Forall_forall. intros z Hz.
      rewrite Forall_forall in Hy, Hok, HR.
      apply Hfront; [auto | auto |].
      assert (Hzy : lt z y = false).
      { destruct (Hy z Hz) as [Hyz | (_ & Hzy & _)]; [|assumption].
        apply lt_asym; auto. }
      apply (lt_negative_trans z y x); auto.
Qed.

Lemma list_sort_sorted (R : A -> A -> Prop) (l : list A) :
  Forall ok l -> StronglySorted R l ->
  StronglySorted (Py.asc_stable lt R) (Py.list_sort lt l).
Proof.
  intros Hok Hs.
  induction Hs as [|x l Hl IH Hx]; simpl; [constructor|].
  apply Forall_cons_iff in Hok. destruct Hok as [Hokx Hok].
  rewrite Forall_forall in Hok, Hx.
  apply insert_by_sorted.
  - assumption.
  - apply Forall_forall. intros z Hz.
    apply (proj1 (In_list_sort z l)) in Hz. auto.
  - apply Forall_forall. intros z Hz.
    apply (proj1 (In_list_sort z l)) in Hz. auto.
  - apply IH. apply Forall_forall. assumption.
Qed.

(** The descending sort of a list ordered by [R] puts [a] in front of [b]
    only if [b < a], or if neither is smaller and [R a b]. *)
Lemma list_sort_reverse_sorted (R : A -> A -> Prop) (l : list A) :
  Forall ok l -> StronglySorted R l ->
  StronglySorted (Py.desc_stable lt R) (Py.list_sort_reverse lt l).
Proof.
  intros Hok Hs. unfold Py.list_sort_reverse.
  apply StronglySorted_impl
    with (R := fun a b => Py.asc_stable lt (fun a b => R b a) b a).
  - unfold Py.asc_stable, Py.desc_stable. intros a b _ _ H. intuition.
  - apply StronglySorted_rev. apply list_sort_sorted.
    + apply Forall_rev. assumption.
    + apply StronglySorted_rev. assumption.
Qed.

End StableSort.

End SortFacts.

(** ** [search_notes] *)

Module SearchFacts.
Import PyFloat Handler Spec.

Lemma StronglySorted_map {A B : Type} (f : A -> B) (R : B -> B -> Prop)
  (l : list A) :
  StronglySorted R (map f l) <-> StronglySorted (fun a b => R (f a) (f b)) l.
Proof.
  induction l as [|x l IH]; simpl.
  - split; constructor.
  - split; intros H; apply StronglySorted_inv in H; destruct H as [Hs Hx];
      constructor; try (apply IH; assumption).
    + rewrite Forall_map in Hx. exact Hx.
    + rewrite Forall_map. exact Hx.
Qed.

Section WithEnvironment.

Variable model_encode : list string -> exc (list (list float)).
Variable np_dot : list float -> list float -> float.
Variable np_norm : list float -> float.

Local Abbreviation cosine_value := (cosine_value np_dot np_norm).
Local Abbreviation collect := (collect np_dot np_norm).
Local Abbreviation search := (search model_encode np_dot np_norm).
Local Abbreviation encode_one := (encode_one model_encode).
Variable repr_float : float -> string.
Local Abbreviation search_notes := (search_notes model_encode np_dot np_norm repr_float).

Lemma fetch_embedded_In (db : database) (row : note) (emb : list float) :
  In (row, emb) (fetch_embedded db) <->
  In row (notes db) /\ note_embedding row = Some emb.
Proof.
  unfold fetch_embedded. rewrite in_flat_map. split.
  - intros (r & Hr & Hin). destruct (note_embedding r) eqn:E; simpl in Hin.
    + destruct Hin as [Heq | []]. injection Heq as <- <-. auto.
    + contradiction.
  - intros [Hr He]. exists row. rewrite He. simpl. auto.
Qed.

Lemma fetch_embedded_dims (query_emb : list float) (db : database) :
  dims_agree query_emb db ->
  Forall (fun p => List.length (snd p) = List.length query_emb)
         (fetch_embedded db).
Proof.
  unfold dims_agree. rewrite !Forall_forall. intros H [row emb] Hin.
  apply fetch_embedded_In in Hin. destruct Hin as [Hr He].
  specialize (H row Hr). rewrite He in H. exact H.
Qed.

Lemma fetch_embedded_sorted (R : Z -> Z -> Prop) (db : database) :
  StronglySorted R (map note_id (notes db)) ->
  StronglySorted (fun p p' => R (note_id (fst p)) (note_id (fst p')))
                 (fetch_embedded db).
Proof.
  rewrite StronglySorted_map. unfold fetch_embedded.
  induction 1 as [|row rows Hs IH Hrow]; simpl; [constructor|].
  destruct (note_embedding row) as [emb|]; simpl; [|exact IH].
  constructor; [exact IH|].
  apply Forall_forall. intros [row' emb'] Hin.
  apply in_flat_map in Hin. destruct Hin as (r & Hr & Hin).
  destruct (note_embedding r); simpl in Hin; [|contradiction].
  destruct Hin as [Heq | []]. injection Heq as <- <-.
  rewrite Forall_forall in Hrow. simpl. auto.
Qed.

(** What the loop of [search_notes] leaves in [results]: the rows whose
    unrounded similarity passes the floor, in the order of the rows, each
    with its similarity rounded. *)
Lemma collect_spec (query_emb : list float) (rows : list (note * list float)) :
  Forall (fun p => List.length (snd p) = List.length query_emb) rows ->
  exists found,
    collect query_emb rows = Ok found /\
    (forall r, In r found ->
       exists row emb,
         In (row, emb) rows /\
         ge (cosine_value query_emb emb) lit_0_4 = true /\
         r = result_of row (cosine_value query_emb emb)) /\
    (forall row emb,
       In (row, emb) rows ->
       ge (cosine_value query_emb emb) lit_0_4 = true ->
       In (result_of row (cosine_value query_emb emb)) found) /\
    (forall R : Z -> Z -> Prop,
       StronglySorted (fun p p' => R (note_id (fst p)) (note_id (fst p'))) rows ->
       StronglySorted (fun a b => R (result_id a) (result_id b)) found).
Proof.
  induction 1 as [|[row emb] rows Hdim Hrows IH].
  - exists []. simpl. repeat split; try contradiction; constructor.
  - destruct IH as (found & Hc & Hfrom & Hto & Hsorted).
    simpl in Hdim. simpl. unfold cosine.
    rewrite <- Hdim, Nat.eqb_refl. simpl. rewrite Hc. simpl.
    destruct (ge (cosine_value query_emb emb) lit_0_4) eqn:Efloor.
    + eexists. split; [reflexivity|]. repeat split.
      * intros r [<- | Hr].
        -- exists row, emb. auto.
        -- destruct (Hfrom r Hr) as (row' & emb' & Hin & Hge & ->).
           exists row', emb'. auto.
      * intros row' emb' [Heq | Hin] Hge.
        -- injection Heq as <- <-. left. reflexivity.
        -- right. auto.
      * intros R HR. apply StronglySorted_inv in HR. destruct HR as [HR Hhead].
        constructor; [auto|].
        apply Forall_forall. intros r Hr.
        destruct (Hfrom r Hr) as (row' & emb' & Hin & _ & ->).
        rewrite Forall_forall in Hhead. exact (Hhead _ Hin).
    + exists found. split; [reflexivity|]. repeat split.
      * intros r Hr.
        destruct (Hfrom r Hr) as (row' & emb' & Hin & Hge & ->).
        exists row', emb'. auto.
      * intros row' emb' [Heq | Hin] Hge.
        -- injection Heq as <- <-. congruence.
        -- auto.
      * intros R HR. apply StronglySorted_inv in HR. destruct HR as [HR _]. auto.
Qed.

Lemma search_spec (db : database) (query : string) (limit : Z)
  (query_emb : list float) :
  encode_one query = Ok query_emb ->
  dims_agree query_emb db ->
  exists found,
    collect query_emb (fetch_embedded db) = Ok found /\
    search db query limit
    = Ok (SearchOutcome (Py.list_sort_reverse by_similarity found)
            (Py.slice_to (Py.list_sort_reverse by_similarity found) limit)).
Proof.
  intros Henc Hdims.
  destruct (collect_spec query_emb (fetch_embedded db)
              (fetch_embedded_dims _ _ Hdims)) as (found & Hc & _).
  exists found. split; [assumption|].
  unfold Handler.search. fold encode_one. rewrite Henc. simpl.
  fold collect. rewrite Hc. reflexivity.
Qed.

Lemma found_above_floor (query_emb : list float) (rows : list (note * list float))
  (found : list result) :
  collect query_emb rows = Ok found ->
  Forall (fun p => List.length (snd p) = List.length query_emb) rows ->
  Forall above_floor found.
Proof.
  intros Hc Hdims.
  destruct (collect_spec query_emb rows Hdims) as (found' & Hc' & Hfrom & _).
  rewrite Hc in Hc'. injection Hc' as <-.
  apply Forall_forall. intros r Hr.
  destruct (Hfrom r Hr) as (row & emb & _ & Hge & ->).
  unfold above_floor, result_of. simpl.
  apply RoundFacts.round4_floor. exact Hge.
Qed.

Lemma above_floor_not_nan (r : result) :
  above_floor r -> is_nan (result_similarity r) = false.
Proof.
  intros H. apply FloatOrder.ge_not_nan in H. tauto.
Qed.

(** [results] after the sort, for rows ordered by [R] on their ids. *)
Lemma sorted_results (R : Z -> Z -> Prop) (found : list result) :
  Forall above_floor found ->
  StronglySorted (fun a b => R (result_id a) (result_id b)) found ->
  StronglySorted
    (Py.desc_stable by_similarity (fun a b => R (result_id a) (result_id b)))
    (Py.list_sort_reverse by_similarity found).
Proof.
  intros Hfloor Hs.
  apply SortFacts.list_sort_reverse_sorted with (ok := above_floor);
    try assumption.
  - intros a b _ _. apply FloatOrder.lt_asym.
  - intros a b c Ha Hb Hc. unfold by_similarity.
    apply FloatOrder.lt_negative_trans; apply above_floor_not_nan; assumption.
Qed.

Lemma desc_stable_ranked (a b : result) :
  above_floor a -> above_floor b ->
  Py.desc_stable by_similarity (fun a b => result_id a < result_id b) a b ->
  ranked_before a b.
Proof.
  intros Ha Hb H.
  apply above_floor_not_nan in Ha, Hb.
  unfold ranked_before, by_similarity in *.
  rewrite (FloatOrder.ge_not_lt _ _ Ha Hb), (FloatOrder.eqb_not_lt _ _ Ha Hb).
  destruct H as [Hlt | (Hab & Hba & Hid)].
  - rewrite (FloatOrder.lt_asym _ _ Hlt), Hlt. simpl. split; [reflexivity|].
    discriminate.
  - rewrite Hab, Hba. simpl. auto.
Qed.

Lemma collect_dims (query_emb : list float) (rows : list (note * list float))
  (found : list result) :
  collect query_emb rows = Ok found ->
  Forall (fun p => List.length (snd p) = List.length query_emb) rows.
Proof.
  revert found. induction rows as [|[row emb] rows IH]; intros found H.
  - constructor.
  - simpl in H. unfold cosine in H.
    destruct (Nat.eqb_spec (List.length query_emb) (List.length emb)) as [E | N];
      [|discriminate H].
    simpl in H. fold collect in H.
    destruct (collect query_emb rows) as [found' | msg] eqn:Hc; [|discriminate H].
    constructor; [symmetry; exact E | eapply IH; reflexivity].
Qed.

(** [search] returns exactly when the model encodes the query and no stored
    embedding has another dimension than the query embedding. *)
Lemma search_inv (db : database) (query : string) (limit : Z) (o : search_outcome) :
  search db query limit = Ok o ->
  exists query_emb, encode_one query = Ok query_emb /\ dims_agree query_emb db.
Proof.
  unfold Handler.search. fold encode_one.
  destruct (encode_one query) as [query_emb | msg]; [|discriminate].
  simpl. fold collect.
  destruct (collect query_emb (fetch_embedded db)) as [found | msg] eqn:Hc;
    [|discriminate].
  intros _. exists query_emb. split; [reflexivity|].
  apply collect_dims in Hc. rewrite Forall_forall in Hc.
  apply Forall_forall. intros row Hrow.
  destruct (note_embedding row) as [emb|] eqn:E; [|exact I].
  apply (Hc (row, emb)). apply fetch_embedded_In. auto.
Qed.

(** C4, as amended: for a limit that is not negative, every result that
    [search_notes] returns has a similarity of at least 0.4 and there are at
    most [limit] of them (the smaller of [limit] and the number of
    matches). *)
Theorem search_floor_and_limit :
  forall (db : database) (query : string) (limit : Z) (query_emb : list float),
    encode_one query = Ok query_emb ->
    dims_agree query_emb db ->
    0 <= limit ->
    exists o,
      search db query limit = Ok o /\
      Forall above_floor (results o) /\
      Forall above_floor (top_results o) /\
      Z.of_nat (List.length (top_results o))
      = Z.min limit (Z.of_nat (List.length (results o))) /\
      Z.of_nat (List.length (top_results o)) <= limit.
Proof.
  intros db query limit query_emb Henc Hdims Hlimit.
  destruct (search_spec db query limit query_emb Henc Hdims) as (found & Hc & Hs).
  eexists. split; [exact Hs|]. simpl.
  pose proof (found_above_floor _ _ _ Hc (fetch_embedded_dims _ _ Hdims)) as Hfloor.
  assert (Hres : Forall above_floor (Py.list_sort_reverse by_similarity found)).
  { rewrite Forall_forall in *. intros r Hr.
    apply SortFacts.In_list_sort_reverse in Hr. auto. }
  split; [exact Hres|]. split.
  - rewrite Forall_forall in *. intros r Hr.
    apply SortFacts.In_slice_to in Hr. auto.
  - rewrite SortFacts.slice_to_length by assumption. lia.
Qed.

(** C5: when the table scan yields the rows by ascending id, the results of
    [search_notes], before and after the cut at [limit], come by descending
    similarity, and any two of them with equal similarity by ascending id. *)
Theorem search_ranked :
  forall (db : database) (query : string) (limit : Z) (query_emb : list float),
    encode_one query = Ok query_emb ->
    dims_agree query_emb db ->
    ids_ascending db ->
    exists o,
      search db query limit = Ok o /\
      StronglySorted ranked_before (results o) /\
      StronglySorted ranked_before (top_results o).
Proof.
  intros db query limit query_emb Henc Hdims Hids.
  destruct (search_spec db query limit query_emb Henc Hdims) as (found & Hc & Hs).
  eexists. split; [exact Hs|]. simpl.
  pose proof (found_above_floor _ _ _ Hc (fetch_embedded_dims _ _ Hdims)) as Hfloor.
  destruct (collect_spec query_emb (fetch_embedded db)
              (fetch_embedded_dims _ _ Hdims)) as (found' & Hc' & _ & _ & Hsorted).
  rewrite Hc in Hc'. injection Hc' as <-.
  assert (Hranked : StronglySorted ranked_before
                      (Py.list_sort_reverse by_similarity found)).
  { eapply SortFacts.StronglySorted_impl;
      [|apply (sorted_results Z.lt found Hfloor);
        apply Hsorted; apply fetch_embedded_sorted; exact Hids].
    intros a b Ha Hb. rewrite Forall_forall in Hfloor.
    apply SortFacts.In_list_sort_reverse in Ha, Hb.
    apply desc_stable_ranked; auto. }
  split; [exact Hranked|].
  apply SortFacts.StronglySorted_slice_to. exact Hranked.
Qed.

(** With a query norm that is an infinity or a NaN, the denominator is an
    infinity or a NaN and the quotient a zero or a NaN. *)
Lemma cosine_nonfinite (query_emb note_emb : list float) :
  is_finite (np_norm query_emb) = false ->
  ge (cosine_value query_emb note_emb) lit_0_4 = false.
Proof.
  unfold Handler.cosine_value, mul32, div32.
  destruct (np_norm query_emb) as [? | sq | | ? ? ?]; try discriminate;
    intros _;
    destruct (np_norm note_emb) as [? | ? | | ? ? ?];
    destruct (np_dot query_emb note_emb) as [? | ? | | ? ? ?];
    reflexivity.
Qed.

Lemma collect_nothing (query_emb : list float) (rows : list (note * list float)) :
  Forall (fun p => List.length (snd p) = List.length query_emb) rows ->
  is_finite (np_norm query_emb) = false ->
  collect query_emb rows = Ok [].
Proof.
  intros Hdims Hnorm.
  induction Hdims as [|[row emb] rows Hdim Hrows IH]; [reflexivity|].
  simpl in *. unfold cosine. rewrite <- Hdim, Nat.eqb_refl. simpl.
  fold collect. rewrite IH. simpl.
  rewrite cosine_nonfinite by assumption. reflexivity.
Qed.

(** C6: on a store without any embedded note, and on a query embedding
    whose norm is not finite, [search_notes] returns no result and counts
    zero matches; it raises nothing. *)
Theorem search_degenerate_inputs :
  forall (db : database) (query : string) (limit : Z) (query_emb : list float),
    encode_one query = Ok query_emb ->
    (forall row, In row (notes db) -> note_embedding row = None) \/
    (dims_agree query_emb db /\ is_finite (np_norm query_emb) = false) ->
    search db query limit = Ok (SearchOutcome [] []) /\
    search_notes db query limit
    = Ok (content_dict
            ("Found 0 relevant notes (from 0 total matches):" ++ Py.nl ++ Py.nl)).
Proof.
  intros db query limit query_emb Henc Hcase.
  assert (Hc : collect query_emb (fetch_embedded db) = Ok []).
  { destruct Hcase as [Hnone | [Hdims Hnorm]].
    - assert (E : fetch_embedded db = []); [|rewrite E; reflexivity].
      unfold fetch_embedded. induction (notes db) as [|row rows IH]; [reflexivity|].
      simpl. rewrite (Hnone row) by (left; reflexivity). simpl.
      apply IH. intros r Hr. apply Hnone. right. exact Hr.
    - apply collect_nothing; [apply fetch_embedded_dims|]; assumption. }
  assert (Hs : search db query limit = Ok (SearchOutcome [] [])).
  { unfold Handler.search. fold encode_one. rewrite Henc. simpl.
    fold collect. rewrite Hc. simpl.
    unfold Py.slice_to. destruct (0 <=? limit); rewrite firstn_nil; reflexivity. }
  split; [exact Hs|].
  unfold Handler.search_notes. fold search. rewrite Hs. reflexivity.
Qed.

(** C10: the similarity of every result is the cosine similarity rounded to
    four decimals: the float next to the multiple of 0.0001 next to the
    cosine similarity ([rounded_to_4_decimals]).  A row is among the
    results exactly when its unrounded similarity is at least 0.4.  Two
    rows whose similarities lie strictly within half a ten-thousandth of
    the same multiple of 0.0001 carry the same similarity in the results,
    and the results are sorted on these rounded values, rows whose rounded
    values are equal keeping the order of the table ([R] is any relation
    the ids of the table follow). *)
Theorem search_rounds_after_floor :
  forall (db : database) (query : string) (limit : Z) (query_emb : list float),
    encode_one query = Ok query_emb ->
    dims_agree query_emb db ->
    exists o,
      search db query limit = Ok o /\
      (forall r,
         In r (results o) <->
         exists row emb,
           In row (notes db) /\ note_embedding row = Some emb /\
           ge (cosine_value query_emb emb) lit_0_4 = true /\
           r = Result (note_id row) (note_content row) (note_category row)
                      (round4 (cosine_value query_emb emb))) /\
      (forall r,
         In r (results o) ->
         exists row emb,
           In row (notes db) /\ note_embedding row = Some emb /\
           r = Result (note_id row) (note_content row) (note_category row)
                      (result_similarity r) /\
           rounded_to_4_decimals (cosine_value query_emb emb)
                                 (result_similarity r)) /\
      (forall row emb row' emb' k,
         In row (notes db) -> note_embedding row = Some emb ->
         In row' (notes db) -> note_embedding row' = Some emb' ->
         ge (cosine_value query_emb emb) lit_0_4 = true ->
         ge (cosine_value query_emb emb') lit_0_4 = true ->
         within_half_of k (cosine_value query_emb emb) ->
         within_half_of k (cosine_value query_emb emb') ->
         exists sim,
           In (Result (note_id row) (note_content row) (note_category row) sim)
              (results o) /\
           In (Result (note_id row') (note_content row') (note_category row') sim)
              (results o)) /\
      (forall R : Z -> Z -> Prop,
         StronglySorted R (map note_id (notes db)) ->
         StronglySorted
           (fun a b =>
              lt (result_similarity a) (result_similarity b) = false /\
              (lt (result_similarity b) (result_similarity a) = false ->
               R (result_id a) (result_id b)))
           (results o)) /\
      top_results o = Py.slice_to (results o) limit.
Proof.
  intros db query limit query_emb Henc Hdims.
  destruct (search_spec db query limit query_emb Henc Hdims) as (found & Hc & Hs).
  eexists. split; [exact Hs|]. simpl.
  pose proof (found_above_floor _ _ _ Hc (fetch_embedded_dims _ _ Hdims)) as Hfloor.
  destruct (collect_spec query_emb (fetch_embedded db)
              (fetch_embedded_dims _ _ Hdims))
    as (found' & Hc' & Hfrom & Hto & Hsorted).
  rewrite Hc in Hc'. injection Hc' as <-.
  assert (Hmem : forall r,
             In r (Py.list_sort_reverse by_similarity found) <->
             exists row emb,
               In row (notes db) /\ note_embedding row = Some emb /\
               ge (cosine_value query_emb emb) lit_0_4 = true /\
               r = Result (note_id row) (note_content row) (note_category row)
                          (round4 (cosine_value query_emb emb))).
  { intros r. rewrite SortFacts.In_list_sort_reverse. split.
    + intros Hr. destruct (Hfrom r Hr) as (row & emb & Hin & Hge & ->).
      apply fetch_embedded_In in Hin. destruct Hin as [Hrow Hemb].
      exists row, emb. auto.
    + intros (row & emb & Hrow & Hemb & Hge & ->).
      apply (Hto row emb); [|exact Hge].
      apply fetch_embedded_In. auto. }
  split; [exact Hmem|]. split; [|split; [|split; [|reflexivity]]].
  - intros r Hr. apply Hmem in Hr.
    destruct Hr as (row & emb & Hrow & Hemb & Hge & ->).
    exists row, emb. split; [exact Hrow|]. split; [exact Hemb|].
    split; [reflexivity|]. simpl.
    apply RoundFacts.round4_rounds. exact Hge.
  - intros row emb row' emb' k Hrow Hemb Hrow' Hemb' Hge Hge' Hk Hk'.
    exists (round4 (cosine_value query_emb emb)). split.
    + apply Hmem. exists row, emb. auto.
    + apply Hmem. exists row', emb'.
      rewrite (RoundFacts.round4_ties k _ _ Hk Hk'). auto.
  - intros R HR.
    eapply SortFacts.StronglySorted_impl;
      [|apply (sorted_results R found Hfloor);
        apply Hsorted; apply fetch_embedded_sorted; exact HR].
    intros a b Ha Hb [Hlt | (Hab & Hba & HRab)]; unfold by_similarity in *.
    + split; [apply FloatOrder.lt_asym; exact Hlt | congruence].
    + auto.
Qed.

End WithEnvironment.

Local Abbreviation sample_search :=
  (search (Sample.encode Sample.table) Sample.dot Sample.norm).
Local Abbreviation sample_cosine := (cosine_value Sample.dot Sample.norm).

Ltac sample_dims := unfold dims_agree; simpl; repeat constructor.

(** C4 fails as stated: with two matching notes and [limit = -1] the slice
    [results[:-1]] keeps one result, which is more than [limit]. *)
Lemma search_negative_limit_exceeds :
  exists o,
    sample_search Sample.twin_db "east" (-1) = Ok o /\
    map result_id (top_results o) = [1] /\
    ~ Z.of_nat (List.length (top_results o)) <= -1.
Proof.
  eexists. split; [vm_compute; reflexivity|].
  split; [reflexivity | simpl; lia].
Qed.

Lemma search_floor_and_limit_witness :
  exists o,
    sample_search Sample.compass_db "east" 2 = Ok o /\
    Forall above_floor (results o) /\
    Forall above_floor (top_results o) /\
    Z.of_nat (List.length (top_results o))
    = Z.min 2 (Z.of_nat (List.length (results o))) /\
    Z.of_nat (List.length (top_results o)) <= 2.
Proof.
  apply (search_floor_and_limit (Sample.encode Sample.table) Sample.dot Sample.norm
           Sample.compass_db "east" 2 [Sample.f32 1; Sample.f32 0]).
  - reflexivity.
  - sample_dims.
  - lia.
Defined.

Lemma search_ranked_witness :
  exists o,
    sample_search Sample.compass_db "east" 5 = Ok o /\
    StronglySorted ranked_before (results o) /\
    StronglySorted ranked_before (top_results o).
Proof.
  apply (search_ranked (Sample.encode Sample.table) Sample.dot Sample.norm
           Sample.compass_db "east" 5 [Sample.f32 1; Sample.f32 0]).
  - reflexivity.
  - sample_dims.
  - unfold ids_ascending. simpl. repeat (constructor; try lia).
Defined.

Lemma search_degenerate_inputs_witness :
  sample_search Sample.compass_db "beyond" 5 = Ok (SearchOutcome [] []) /\
  search_notes (Sample.encode Sample.table) Sample.dot Sample.norm Sample.repr
    Sample.compass_db "beyond" 5
  = Ok (content_dict
          ("Found 0 relevant notes (from 0 total matches):" ++ Py.nl ++ Py.nl)).
Proof.
  apply (search_degenerate_inputs (Sample.encode Sample.table) Sample.dot
           Sample.norm Sample.repr Sample.compass_db "beyond" 5
           [S754_infinity false; Sample.f32 0]).
  - reflexivity.
  - right. split; [sample_dims | reflexivity].
Defined.

(** On the store of three notes the similarities of notes 1 and 3 to
    "east" differ, 0.40035... and 0.40041..., and both lie strictly within
    half a ten-thousandth of 0.4004: both results carry the float 0.4004,
    in the order of the table.  Note 2, at 0.39999..., lies within half a
    ten-thousandth of 0.4 and is left out all the same. *)
Lemma search_rounds_after_floor_witness :
  let q := [Sample.f32 1; Sample.f32 0] in
  let sim1 := sample_cosine q [Sample.f32 45; Sample.f32 103] in
  let sim2 := sample_cosine q [Sample.f32 127; Sample.f32 291] in
  let sim3 := sample_cosine q [Sample.f32 52; Sample.f32 119] in
  let lit_0_4004 := S754_finite false 7212965163196586 (-54) in
  sim1 = S754_finite false 7212101567250432 (-54) /\
  sim2 = S754_finite false 7205625293438976 (-54) /\
  sim3 = S754_finite false 7213232754262016 (-54) /\
  within_half_of 4004 sim1 /\
  within_half_of 4004 sim3 /\
  within_half_of 4000 sim2 /\
  ge sim2 lit_0_4 = false /\
  exists o,
    sample_search Sample.rounding_db "east" 5 = Ok o /\
    results o = [Result 1 "a" (Some "general") lit_0_4004;
                 Result 3 "c" (Some "general") lit_0_4004] /\
    top_results o = results o /\
    rounded_to_4_decimals sim1 lit_0_4004 /\
    rounded_to_4_decimals sim3 lit_0_4004 /\
    (exists sim,
       In (Result 1 "a" (Some "general") sim) (results o) /\
       In (Result 3 "c" (Some "general") sim) (results o)).
Proof.
  intros q sim1 sim2 sim3 lit_0_4004.
  assert (E1 : sim1 = S754_finite false 7212101567250432 (-54))
    by (vm_compute; reflexivity).
  assert (E2 : sim2 = S754_finite false 7205625293438976 (-54))
    by (vm_compute; reflexivity).
  assert (E3 : sim3 = S754_finite false 7213232754262016 (-54))
    by (vm_compute; reflexivity).
  assert (W1 : within_half_of 4004 sim1) by (rewrite E1; vm_compute; reflexivity).
  assert (W3 : within_half_of 4004 sim3) by (rewrite E3; vm_compute; reflexivity).
  split; [exact E1|]. split; [exact E2|]. split; [exact E3|].
  split; [exact W1|]. split; [exact W3|].
  split; [rewrite E2; vm_compute; reflexivity|].
  split; [rewrite E2; reflexivity|].
  destruct (search_rounds_after_floor (Sample.encode Sample.table) Sample.dot
              Sample.norm Sample.rounding_db "east" 5 q)
    as (o & Hs & Hmem & Hround & Hties & Hsorted & Htop).
  - reflexivity.
  - sample_dims.
  - pose proof Hs as Ho. vm_compute in Ho. injection Ho as Ho. subst o.
    exists (SearchOutcome
              [Result 1 "a" (Some "general") lit_0_4004;
               Result 3 "c" (Some "general") lit_0_4004]
              [Result 1 "a" (Some "general") lit_0_4004;
               Result 3 "c" (Some "general") lit_0_4004]).
    split; [exact Hs|]. split; [reflexivity|]. split; [reflexivity|].
    split; [|split].
    + destruct (Hround (Result 1 "a" (Some "general") lit_0_4004)
                  (or_introl eq_refl))
        as (row & emb & Hrow & Hemb & Hr & Hrounded).
      simpl in Hrow. destruct Hrow as [<- | [<- | [<- | []]]];
        simpl in Hemb, Hr; injection Hemb as <-; try discriminate Hr.
      exact Hrounded.
    + destruct (Hround (Result 3 "c" (Some "general") lit_0_4004)
                  (or_intror (or_introl eq_refl)))
        as (row & emb & Hrow & Hemb & Hr & Hrounded).
      simpl in Hrow. destruct Hrow as [<- | [<- | [<- | []]]];
        simpl in Hemb, Hr; injection Hemb as <-; try discriminate Hr.
      exact Hrounded.
    + apply (Hties (Note 1 "a" (Some "general") "2024-01-01T00:00:00"
                      (Some [Sample.f32 45; Sample.f32 103]))
               [Sample.f32 45; Sample.f32 103]
               (Note 3 "c" (Some "general") "2024-01-01T00:00:02"
                  (Some [Sample.f32 52; Sample.f32 119]))
               [Sample.f32 52; Sample.f32 119] 4004).
      * left. reflexivity.
      * reflexivity.
      * right. right. left. reflexivity.
      * reflexivity.
      * vm_compute. reflexivity.
      * vm_compute. reflexivity.
      * exact W1.
      * exact W3.
Defined.

(** The rounding at work: note 3 is closer to the query than note 1, but
    both round to 0.4004 and stay in the order of the table; note 2 rounds
    to 0.4 and is left out, its unrounded similarity being below 0.4. *)
Example search_rounding_ties :
  let q := [Sample.f32 1; Sample.f32 0] in
  let sim1 := sample_cosine q [Sample.f32 45; Sample.f32 103] in
  let sim2 := sample_cosine q [Sample.f32 127; Sample.f32 291] in
  let sim3 := sample_cosine q [Sample.f32 52; Sample.f32 119] in
  lt sim1 sim3 = true /\
  round4 sim1 = round4 sim3 /\
  ge sim2 lit_0_4 = false /\
  round4 sim2 = lit_0_4 /\
  exists o,
    sample_search Sample.rounding_db "east" 5 = Ok o /\
    map result_id (results o) = [1; 3].
Proof.
  repeat split; try (vm_compute; reflexivity).
  eexists. split; vm_compute; reflexivity.
Qed.

End SearchFacts.

(** ** The store operations *)

Module StoreFacts.
Import PyFloat Handler Spec.

Section WithEnvironment.

Variable model_encode : list string -> exc (list (list float)).

(** C9: [update_note] called with the empty string as content answers with
    the [-32602] error and gives back the store it was given, whatever the
    note id (that of a stored note or not) and the category. *)
Theorem update_note_empty_content_rejected :
  forall (db : database) (now : string) (note_id_arg : option Z)
         (category : option string),
    update_note model_encode db now note_id_arg (Some "") category
    = Ok (db, error_dict (-32602) "Note ID and content required").
Proof.
  intros db now note_id_arg category.
  unfold update_note.
  replace (Py.truthy_str (Some "")) with false by reflexivity.
  rewrite orb_true_r. reflexivity.
Qed.

Local Abbreviation encode_one := (encode_one model_encode).
Local Abbreviation update_note := (update_note model_encode).
Local Abbreviation add_note := (add_note model_encode).

Lemma fetch_by_id_In (db : database) (i : Z) (row : note) :
  fetch_by_id db i = Some row -> In row (notes db) /\ note_id row = i.
Proof.
  unfold fetch_by_id. intros H. apply find_some in H.
  destruct H as [Hin Heq]. apply Z.eqb_eq in Heq. auto.
Qed.

(** [UPDATE notes SET ... WHERE id = i] seen through [SELECT ... WHERE id = j]. *)
Lemma find_after_update (rows : list note) (i j : Z) (new : note -> note) :
  (forall row, note_id (new row) = note_id row) ->
  find (fun row => note_id row =? j)
       (map (fun row => if note_id row =? i then new row else row) rows)
  = match find (fun row => note_id row =? j) rows with
    | Some row => Some (if note_id row =? i then new row else row)
    | None => None
    end.
Proof.
  intros Hid. induction rows as [|row rows IH]; simpl; [reflexivity|].
  assert (E : note_id (if note_id row =? i then new row else row) = note_id row)
    by (destruct (note_id row =? i); auto).
  rewrite E. destruct (note_id row =? j); [reflexivity | exact IH].
Qed.

Lemma database_ok_empty : database_ok empty_database.
Proof.
  unfold database_ok, ids_ascending, empty_database, max_rowid. simpl.
  split; [constructor | split; [lia | constructor]].
Qed.

(** The id of a stored note can be bound to a [?]. *)
Lemma fits_integer_stored (db : database) (row : note) :
  database_ok db -> In row (notes db) -> fits_integer (note_id row) = true.
Proof.
  intros (_ & Hl & Hb) Hrow. rewrite Forall_forall in Hb.
  specialize (Hb row Hrow). unfold fits_integer.
  apply andb_true_intro. split; apply Z.leb_le; [|lia].
  apply Z.le_trans with 0; [discriminate | lia].
Qed.

Lemma ids_after_update (rows : list note) (i : Z) (new : note -> note) :
  (forall row, note_id (new row) = note_id row) ->
  map note_id (map (fun row => if note_id row =? i then new row else row) rows)
  = map note_id rows.
Proof.
  intros Hid. rewrite map_map. apply map_ext.
  intros row. destruct (note_id row =? i); auto.
Qed.

Lemma StronglySorted_filter {A : Type} (R : A -> A -> Prop) (f : A -> bool)
  (l : list A) :
  StronglySorted R l -> StronglySorted R (filter f l).
Proof.
  induction 1 as [|x l Hs IH Hx]; simpl; [constructor|].
  destruct (f x); [|exact IH].
  constructor; [exact IH|].
  rewrite Forall_forall in *. intros y Hy. apply filter_In in Hy. apply Hx, Hy.
Qed.

(** The three writers keep the table in the shape [database_ok]. *)
Lemma add_note_ok (db db' : database) (now content category : string) (reply : json) :
  database_ok db ->
  add_note db now content category = Ok (db', reply) ->
  database_ok db'.
Proof.
  intros (Hs & Hl & Hb) H. unfold Handler.add_note in H.
  destruct (String.eqb content "");
    [injection H as <- _; split; [|split]; assumption|].
  fold encode_one in H.
  destruct (encode_one content) as [embedding | msg]; [|discriminate H].
  simpl in H.
  destruct (Z.ltb_spec (last_rowid db) max_rowid) as [Hroom | _]; [|discriminate H].
  injection H as <- _.
  unfold database_ok, ids_ascending in *. simpl.
  rewrite Forall_forall in Hb. repeat split.
  - rewrite map_app.
    apply SortFacts.StronglySorted_app; [exact Hs | repeat constructor |].
    intros a b Ha [<- | []]. apply in_map_iff in Ha.
    destruct Ha as (row & <- & Hrow). specialize (Hb row Hrow). simpl. lia.
  - lia.
  - lia.
  - apply Forall_app. split.
    + apply Forall_forall. intros row Hrow. specialize (Hb row Hrow). lia.
    + repeat constructor; simpl; lia.
Qed.

Lemma update_note_ok (db db' : database) (now : string) (note_id_arg : option Z)
  (content category : option string) (reply : json) :
  database_ok db ->
  update_note db now note_id_arg content category = Ok (db', reply) ->
  database_ok db'.
Proof.
  intros Hok H. unfold Handler.update_note in H.
  destruct (negb (Py.truthy_int note_id_arg) || negb (Py.truthy_str content));
    [injection H as <- _; exact Hok|].
  destruct (negb (fits_integer (dget note_id_arg 0))); [discriminate H|].
  destruct (fetch_by_id db (dget note_id_arg 0)) as [existing|];
    [|injection H as <- _; exact Hok].
  fold encode_one in H.
  destruct (encode_one (dget content "")) as [embedding | msg]; [|discriminate H].
  simpl in H. injection H as <- _.
  destruct Hok as (Hs & Hl & Hb).
  unfold database_ok, ids_ascending in *. simpl.
  split; [|split].
  - rewrite ids_after_update by reflexivity. exact Hs.
  - exact Hl.
  - rewrite Forall_forall in *. intros row Hrow.
    apply in_map_iff in Hrow. destruct Hrow as (r & <- & Hr).
    specialize (Hb r Hr). destruct (note_id r =? dget note_id_arg 0); simpl; lia.
Qed.

Lemma delete_note_ok (db db' : database) (note_id_arg : option Z) (reply : json) :
  database_ok db ->
  delete_note db note_id_arg = Ok (db', reply) ->
  database_ok db'.
Proof.
  intros Hok H. unfold delete_note in H.
  destruct (negb (Py.truthy_int note_id_arg)); [injection H as <- _; exact Hok|].
  destruct (negb (fits_integer (dget note_id_arg 0))); [discriminate H|].
  destruct (fetch_by_id db (dget note_id_arg 0));
    [|injection H as <- _; exact Hok].
  injection H as <- _.
  destruct Hok as (Hs & Hl & Hb).
  unfold database_ok, ids_ascending in *. simpl.
  split; [|split].
  - apply SearchFacts.StronglySorted_map. apply StronglySorted_filter.
    apply SearchFacts.StronglySorted_map. exact Hs.
  - exact Hl.
  - rewrite Forall_forall in *. intros row Hrow.
    apply filter_In in Hrow. apply Hb, Hrow.
Qed.

(** C8: on a stored note and a content that is not empty, [update_note]
    without a category succeeds, keeps the category the note had and
    replaces its content, embedding and timestamp; the other notes stay
    what they were. *)
Theorem update_note_keeps_category :
  forall (db : database) (now : string) (i : Z) (content : string)
         (old : note) (embedding : list float),
    database_ok db ->
    fetch_by_id db i = Some old ->
    content <> "" ->
    encode_one content = Ok embedding ->
    exists db' reply,
      update_note db now (Some i) (Some content) None = Ok (db', reply) /\
      fetch_by_id db' i
      = Some (Note i content (note_category old) now (Some embedding)) /\
      (forall j, j <> i -> fetch_by_id db' j = fetch_by_id db j) /\
      map note_id (notes db') = map note_id (notes db).
Proof.
  intros db now i content old embedding Hok Hold Hcontent Henc.
  destruct (fetch_by_id_In db i old Hold) as [Hin Hid].
  pose proof (fits_integer_stored db old Hok Hin) as Hfits. rewrite Hid in Hfits.
  destruct Hok as (_ & _ & Hb). rewrite Forall_forall in Hb.
  assert (Hi : (i =? 0) = false) by (specialize (Hb old Hin); lia).
  assert (Hc : String.eqb content "" = false) by (apply String.eqb_neq; exact Hcontent).
  unfold Handler.update_note. simpl. rewrite Hi, Hc, Hfits. simpl.
  rewrite Hold. fold encode_one. rewrite Henc. simpl.
  eexists. eexists. split; [reflexivity|].
  unfold fetch_by_id in *. simpl.
  repeat split.
  - rewrite find_after_update by reflexivity. rewrite Hold.
    rewrite Hid, Z.eqb_refl. reflexivity.
  - intros j Hj. rewrite find_after_update by reflexivity.
    destruct (find (fun row => note_id row =? j) (notes db)) as [row|] eqn:E;
      [|reflexivity].
    apply find_some in E. destruct E as [_ E]. apply Z.eqb_eq in E.
    rewrite E. destruct (Z.eqb_spec j i); [contradiction | reflexivity].
  - apply ids_after_update. reflexivity.
Qed.

End WithEnvironment.

Lemma update_note_keeps_category_witness :
  exists db' reply,
    update_note (Sample.encode Sample.table) Sample.compass_db
      "2024-02-02T00:00:00" (Some 5) (Some "north") None = Ok (db', reply) /\
    fetch_by_id db' 5
    = Some (Note 5 "north" (Some "travel") "2024-02-02T00:00:00"
              (Some [Sample.f32 0; Sample.f32 1])) /\
    (forall j, j <> 5 -> fetch_by_id db' j = fetch_by_id Sample.compass_db j) /\
    map note_id (notes db') = map note_id (notes Sample.compass_db).
Proof.
  apply (update_note_keeps_category (Sample.encode Sample.table)
           Sample.compass_db "2024-02-02T00:00:00" 5 "north"
           (Note 5 "east-north" (Some "travel") "2024-01-01T00:00:04"
              (Some [Sample.f32 4; Sample.f32 3]))
           [Sample.f32 0; Sample.f32 1]).
  - unfold database_ok, ids_ascending, max_rowid. simpl.
    repeat split; try lia; repeat (constructor; try (simpl; lia)).
  - reflexivity.
  - discriminate.
  - reflexivity.
Defined.

End StoreFacts.

(** ** [verify_auth] and the endpoint *)

Module AuthFacts.
Import PyFloat Handler Spec.

(** C2 fails as stated: a request whose [Authorization: Bearer] token is
    the secret is turned away when it also carries an [api_key] parameter
    that is not the secret. *)
Lemma bearer_ignored_after_wrong_api_key :
  let req := Request POST (Some "wrong") (Some "Bearer s3cret") (Ok empty_rpc) in
  opt_hashes_to_secret "s3cret" (bearer_credential req) = true /\
  verify_auth "s3cret" req = false /\
  mcp_sse "s3cret" (Sample.encode Sample.table) Sample.dot Sample.norm Sample.repr
    empty_database "2024-01-01T00:00:00" req
  = (empty_database, Unauthorized).
Proof.
  vm_compute. repeat split.
Qed.

Section WithEnvironment.

Variable API_KEY : string.
Variable model_encode : list string -> exc (list (list float)).
Variable np_dot : list float -> list float -> float.
Variable np_norm : list float -> float.
Variable repr_float : float -> string.

Local Abbreviation verify_auth := (verify_auth API_KEY).
Local Abbreviation generate := (generate model_encode np_dot np_norm repr_float).
Local Abbreviation mcp_sse := (mcp_sse API_KEY model_encode np_dot np_norm repr_float).

(** C2, as amended: a non-empty [api_key] parameter decides alone, by
    whether it hashes to the secret; without one (absent or empty) the
    token of an [Authorization: Bearer] header decides, and a request with
    neither is refused.  An authorized request goes to the dispatcher, a
    refused one gets the 401 answer and leaves the store alone. *)
Theorem verify_auth_precedence :
  forall (req : request),
    (forall k, query_credential req = Some k -> k <> "" ->
               verify_auth req = hashes_to_secret API_KEY k) /\
    (query_credential req = None \/ query_credential req = Some "" ->
     verify_auth req = opt_hashes_to_secret API_KEY (bearer_credential req)) /\
    (query_credential req = None -> req_authorization req = None ->
     verify_auth req = false) /\
    (forall db now,
       mcp_sse db now req
       = if verify_auth req
         then (fst (generate db now req), EventStream (snd (generate db now req)))
         else (db, Unauthorized)).
Proof.
  intros req. split; [|split; [|split]].
  - intros k Hk Hne. unfold Handler.verify_auth, query_credential in *.
    rewrite Hk. simpl. apply String.eqb_neq in Hne. rewrite Hne. reflexivity.
  - unfold Handler.verify_auth, query_credential, bearer_credential,
      opt_hashes_to_secret.
    intros [Hk | Hk]; rewrite Hk; simpl;
      destruct (req_authorization req) as [h|]; try reflexivity;
      destruct (String.prefix "Bearer " h); reflexivity.
  - unfold Handler.verify_auth, query_credential.
    intros Hk Hh. rewrite Hk, Hh. reflexivity.
  - intros db now. unfold Handler.mcp_sse.
    destruct (verify_auth req); simpl; [|reflexivity].
    destruct (generate db now req). reflexivity.
Qed.

End WithEnvironment.

Lemma verify_auth_precedence_witness :
  verify_auth "s3cret" (Request GET (Some "s3cret") None (Ok empty_rpc)) = true /\
  verify_auth "s3cret" (Request GET None (Some "Bearer s3cret") (Ok empty_rpc)) = true /\
  verify_auth "s3cret" (Request GET None None (Ok empty_rpc)) = false.
Proof.
  split; [|split].
  - rewrite (proj1 (verify_auth_precedence "s3cret" (Sample.encode Sample.table)
                      Sample.dot Sample.norm Sample.repr
                      (Request GET (Some "s3cret") None (Ok empty_rpc)))
               "s3cret" eq_refl); [reflexivity | discriminate].
  - rewrite (proj1 (proj2 (verify_auth_precedence "s3cret"
                             (Sample.encode Sample.table)
                             Sample.dot Sample.norm Sample.repr
                             (Request GET None (Some "Bearer s3cret") (Ok empty_rpc))))
               (or_introl eq_refl)).
    vm_compute. reflexivity.
  - exact (proj1 (proj2 (proj2 (verify_auth_precedence "s3cret"
                                  (Sample.encode Sample.table)
                                  Sample.dot Sample.norm Sample.repr
                                  (Request GET None None (Ok empty_rpc)))))
             eq_refl eq_refl).
Defined.

End AuthFacts.

(** ** The dispatcher *)

Module DispatchFacts.
Import PyFloat Handler Spec.

Section WithEnvironment.

Variable model_encode : list string -> exc (list (list float)).
Variable np_dot : list float -> list float -> float.
Variable np_norm : list float -> float.
Variable repr_float : float -> string.

Local Abbreviation search_notes := (search_notes model_encode np_dot np_norm repr_float).
Local Abbreviation handle_tool_call :=
  (handle_tool_call model_encode np_dot np_norm repr_float).
Local Abbreviation handle_mcp_request :=
  (handle_mcp_request model_encode np_dot np_norm repr_float).
Local Abbreviation generate := (generate model_encode np_dot np_norm repr_float).

(** C1 is not what the code does: for a method that is none of
    [initialize], [tools/list], [tools/call], the event has no [error]
    member; the [-32601] error dict is the value of its [result] member,
    where a success would put its result. *)
Theorem unknown_method_error_is_wrapped_in_result :
  forall (db : database) (now : string) (req : request) (data : rpc)
         (method : string),
    req_method req = POST ->
    req_json req = Ok data ->
    rpc_method data = Some method ->
    method <> "initialize" -> method <> "tools/list" -> method <> "tools/call" ->
    let event := snd (generate db now req) in
    event = JDict [("jsonrpc", JStr "2.0");
                   ("id", dget (rpc_id data) (JInt 1));
                   ("result",
                    error_dict (-32601) ("Method not found: " ++ method))] /\
    member "error" event = None /\
    ~ is_error_envelope (-32601) event.
Proof.
  intros db now req data method Hpost Hjson Hmethod H1 H2 H3 event.
  assert (E : event = JDict [("jsonrpc", JStr "2.0");
                             ("id", dget (rpc_id data) (JInt 1));
                             ("result",
                              error_dict (-32601) ("Method not found: " ++ method))]).
  { unfold event, Handler.generate. rewrite Hpost, Hjson, Hmethod. simpl.
    unfold Handler.handle_mcp_request.
    apply String.eqb_neq in H1, H2, H3. rewrite H1, H2, H3. reflexivity. }
  split; [exact E|]. rewrite E. split; [reflexivity|].
  intros [message H]. discriminate H.
Qed.

(** What the [except] clause of [generate] sends, for comparison: there
    the error is a member of the envelope. *)
Lemma generate_exception_is_error_envelope (db : database) (now : string)
  (req : request) (e : string) :
  req_method req = POST ->
  req_json req = Raise e ->
  is_error_envelope (-32603) (snd (generate db now req)).
Proof.
  intros Hpost Hjson. unfold Handler.generate. rewrite Hpost, Hjson. simpl.
  exists e. reflexivity.
Qed.

(** C3 is not what the code does: a [search_neural_memory] call without
    [query] is the search for the empty string.  Its answer is the text of
    the results, or the [-32603] dict when something was raised; a
    [-32602] error it never is. *)
Theorem missing_query_is_searched_as_empty_string :
  forall (db : database) (now : string) (limit : option Z)
         (content category : option string) (note_id_arg : option Z),
    let call q :=
      Params (Some "search_neural_memory")
             (Some (Args q limit content category note_id_arg)) in
    handle_tool_call db now (call None) = handle_tool_call db now (call (Some "")) /\
    (handle_tool_call db now (call None)
     = (r <- search_notes db "" (dget limit 5) ;; Ok (db, r))) /\
    ((exists text, snd (handle_mcp_request db now "tools/call" (call None))
                   = content_dict text) \/
     (exists e, snd (handle_mcp_request db now "tools/call" (call None))
                = error_dict (-32603) e)).
Proof.
  intros db now limit content category note_id_arg call.
  split; [reflexivity|]. split; [reflexivity|].
  unfold Handler.handle_mcp_request. simpl.
  unfold Handler.handle_tool_call. simpl.
  unfold Handler.search_notes.
  destruct (search model_encode np_dot np_norm db "" (dget limit 5)) as [o | e];
    simpl; [left | right]; eexists; reflexivity.
Qed.

End WithEnvironment.

Lemma unknown_method_error_is_wrapped_in_result_witness :
  let req := Request POST None None
               (Ok (Rpc (Some "resources/list") None (Some (JInt 7)))) in
  let event := snd (generate (Sample.encode Sample.table) Sample.dot Sample.norm
                      Sample.repr empty_database "2024-01-01T00:00:00" req) in
  event = JDict [("jsonrpc", JStr "2.0");
                 ("id", JInt 7);
                 ("result",
                  error_dict (-32601) "Method not found: resources/list")] /\
  member "error" event = None /\
  ~ is_error_envelope (-32601) event.
Proof.
  apply (unknown_method_error_is_wrapped_in_result
           (Sample.encode Sample.table) Sample.dot Sample.norm Sample.repr
           empty_database "2024-01-01T00:00:00"
           (Request POST None None
              (Ok (Rpc (Some "resources/list") None (Some (JInt 7)))))
           (Rpc (Some "resources/list") None (Some (JInt 7)))
           "resources/list");
    try reflexivity; discriminate.
Defined.

(** The call without [query] on the sample store: a list of results, no
    error. *)
Example missing_query_on_sample_store :
  snd (handle_mcp_request (Sample.encode Sample.table) Sample.dot Sample.norm
         Sample.repr Sample.compass_db "2024-01-01T00:00:00" "tools/call"
         (Params (Some "search_neural_memory") (Some no_arguments)))
  = content_dict
      ("Found 4 relevant notes (from 4 total matches):" ++ Py.nl ++ Py.nl
       ++ "[ID:1] [general] (similarity: <float>)" ++ Py.nl
       ++ "north-east" ++ Py.nl ++ Py.nl
       ++ "[ID:5] [travel] (similarity: <float>)" ++ Py.nl
       ++ "east-north" ++ Py.nl ++ Py.nl
       ++ "[ID:2] [general] (similarity: <float>)" ++ Py.nl
       ++ "east" ++ Py.nl ++ Py.nl
       ++ "[ID:4] [general] (similarity: <float>)" ++ Py.nl
       ++ "north" ++ Py.nl ++ Py.nl).
Proof.
  vm_compute. reflexivity.
Qed.

End DispatchFacts.

(** ** [check_consistency] *)

Module CheckFacts.
Import PyFloat EmbeddingCheck.

Lemma ge_refl (a : float) : is_nan a = false -> ge a a = true.
Proof.
  intros Ha. rewrite (FloatOrder.ge_not_lt a a Ha Ha).
  destruct (lt a a) eqn:E; [|reflexivity].
  rewrite (FloatOrder.lt_asym a a E) in E. discriminate E.
Qed.

(** The loop of [min]: the result is one of the values, and a lower bound
    of all of them when none is a NaN. *)
Lemma fold_min_spec (rest : list float) (acc : float) :
  let m := fold_left (fun m y => if lt y m then y else m) rest acc in
  (m = acc \/ In m rest) /\
  (is_nan acc = false -> Forall (fun s => is_nan s = false) rest ->
   ge acc m = true /\ Forall (fun s => ge s m = true) rest).
Proof.
  revert acc. induction rest as [|y rest IH]; intros acc; simpl.
  - split; [left; reflexivity|]. intros Ha _. split; [apply ge_refl; exact Ha|constructor].
  - destruct (IH (if lt y acc then y else acc)) as [Hin Hlow]. split.
    + destruct Hin as [-> | Hin]; [|right; right; exact Hin].
      destruct (lt y acc); [right; left; reflexivity | left; reflexivity].
    + intros Ha Hrest. apply Forall_cons_iff in Hrest. destruct Hrest as [Hy Hrest].
      assert (Hacc' : is_nan (if lt y acc then y else acc) = false)
        by (destruct (lt y acc); assumption).
      destruct (Hlow Hacc' Hrest) as [Hm Hall].
      assert (Hboth : ge acc (if lt y acc then y else acc) = true /\
                      ge y (if lt y acc then y else acc) = true).
      { destruct (lt y acc) eqn:E.
        - split; [|apply ge_refl; exact Hy].
          rewrite (FloatOrder.ge_not_lt _ _ Ha Hy).
          rewrite (FloatOrder.lt_asym _ _ E). reflexivity.
        - split; [apply ge_refl; exact Ha|].
          rewrite (FloatOrder.ge_not_lt _ _ Hy Ha), E. reflexivity. }
      destruct Hboth as [Hacc Hyy].
      split; [eapply FloatOrder.ge_trans; eassumption|].
      constructor; [eapply FloatOrder.ge_trans; eassumption | exact Hall].
Qed.

Section WithModel.

Variable model_encode : list string -> exc (list (list float)).
Variable np_dot : list float -> list float -> float.
Variable np_norm32 : list float -> float.
Variable np_norm64 : list float -> float.
Variable format_4f : float -> string.
Variable save_calibration : calibration -> exc unit.

Local Abbreviation cosine_value := (cosine_value np_dot np_norm32 np_norm64).
Local Abbreviation compare_all := (compare_all np_dot np_norm32 np_norm64).
Local Abbreviation check_consistency :=
  (check_consistency model_encode np_dot np_norm32 np_norm64 format_4f
     save_calibration).

Lemma compare_all_spec (pairs : list (list float * list float)) :
  Forall (fun p => List.length (fst p) = List.length (snd p)) pairs ->
  compare_all pairs = Ok (map (fun p => cosine_value (fst p) (snd p)) pairs).
Proof.
  induction 1 as [|[curr saved_emb] pairs Hlen Hpairs IH]; [reflexivity|].
  simpl in *. unfold cosine_similarity. rewrite Hlen, Nat.eqb_refl. simpl.
  fold compare_all. rewrite IH. reflexivity.
Qed.

Lemma compare_all_dims (pairs : list (list float * list float))
  (sims : list float) :
  compare_all pairs = Ok sims ->
  Forall (fun p => List.length (fst p) = List.length (snd p)) pairs.
Proof.
  revert sims. induction pairs as [|[curr saved_emb] pairs IH]; intros sims H.
  - constructor.
  - simpl in H. unfold cosine_similarity in H.
    destruct (Nat.eqb_spec (List.length curr) (List.length saved_emb)) as [E | N];
      [|discriminate H].
    simpl in H. fold compare_all in H.
    destruct (compare_all pairs) as [sims' | msg]; [|discriminate H].
    constructor; [exact E | eapply IH; reflexivity].
Qed.

(** The check reports something only when the model re-encodes the
    phrases, every baseline vector met has the dimension of its phrase's
    vector, and there is at least one pair to compare. *)
Lemma check_consistency_inv (saved : calibration)
  (report : bool * string * option calibration) :
  check_consistency (Some saved) = Ok report ->
  exists current,
    model_encode CALIBRATION_PHRASES = Ok current /\
    Forall (fun p => List.length (fst p) = List.length (snd p))
           (combine current (embeddings saved)) /\
    combine current (embeddings saved) <> [].
Proof.
  unfold EmbeddingCheck.check_consistency.
  destruct (model_encode CALIBRATION_PHRASES) as [current | msg]; [|discriminate].
  simpl. fold compare_all.
  destruct (compare_all (combine current (embeddings saved))) as [sims | msg] eqn:E;
    [|discriminate].
  intros H. exists current. split; [reflexivity|]. split.
  - eapply compare_all_dims. exact E.
  - intros Hnil. rewrite Hnil in E. simpl in E. injection E as <-.
    discriminate H.
Qed.

(** What the check reports on a baseline, whatever the similarities: the
    flag and the message follow the result of Python's [min]. *)
Lemma check_consistency_report (saved : calibration) (current : list (list float))
  (min_sim : float) :
  model_encode CALIBRATION_PHRASES = Ok current ->
  Forall (fun p => List.length (fst p) = List.length (snd p))
         (combine current (embeddings saved)) ->
  Py.min (map (fun p => cosine_value (fst p) (snd p))
              (combine current (embeddings saved))) = Ok min_sim ->
  check_consistency (Some saved)
  = Ok (ge min_sim lit_0_99,
        if ge min_sim lit_0_99
        then ("Model consistent (min_sim=" ++ format_4f min_sim ++ ")")%string
        else ("MODEL DRIFT DETECTED! min_sim=" ++ format_4f min_sim
              ++ " < 0.99")%string,
        Some saved).
Proof.
  intros Henc Hdims Hmin.
  unfold EmbeddingCheck.check_consistency. rewrite Henc.
  cbv beta iota delta [bind]. fold compare_all.
  rewrite (compare_all_spec _ Hdims), Hmin.
  unfold SIMILARITY_THRESHOLD. destruct (ge min_sim lit_0_99); reflexivity.
Qed.

(** Python's [min] on similarities none of which is a NaN: one of them,
    and a lower bound of all. *)
Lemma min_without_nan (similarities : list float) :
  similarities <> [] ->
  Forall (fun s => is_nan s = false) similarities ->
  exists min_sim,
    Py.min similarities = Ok min_sim /\
    In min_sim similarities /\
    Forall (fun s => ge s min_sim = true) similarities.
Proof.
  intros Hne Hnan. destruct similarities as [|x rest]; [contradiction|].
  apply Forall_cons_iff in Hnan. destruct Hnan as [Hx Hrest].
  pose proof (fold_min_spec rest x) as Hmin. simpl in Hmin.
  destruct Hmin as [Hin Hlow]. destruct (Hlow Hx Hrest) as [Hxm Hall].
  eexists. split; [reflexivity|]. split.
  - destruct Hin as [Hin | Hin]; [left; symmetry; exact Hin | right; exact Hin].
  - constructor; assumption.
Qed.


End WithModel.

Local Abbreviation sample_check :=
  (check_consistency (Sample.encode Sample.table) Sample.dot64 Sample.norm
     Sample.norm64 Sample.format_4f Sample.save).

Local Abbreviation sample_current :=
  [[Sample.f32 3; Sample.f32 4]; [Sample.f32 1; Sample.f32 0];
   [Sample.f32 0; Sample.f32 1]].



(** The two reports on the sample baselines: all three similarities are 1
    on the first; on the second the similarity of the second phrase is 0
    and the check reports the drift. *)
Example check_on_sample_baselines :
  sample_check (Some Sample.baseline)
  = Ok (true, "Model consistent (min_sim=1.0000)", Some Sample.baseline) /\
  sample_check (Some Sample.drifted_baseline)
  = Ok (false, "MODEL DRIFT DETECTED! min_sim=0.0000 < 0.99",
        Some Sample.drifted_baseline) /\
  map (fun p => cosine_value Sample.dot64 Sample.norm Sample.norm64 (fst p) (snd p))
      (combine sample_current (embeddings Sample.drifted_baseline))
  = [lit_1; S754_zero false; lit_1].
Proof.
  repeat split; vm_compute; reflexivity.
Qed.

End CheckFacts.

(* ================================================================== *)
(** * Further properties *)
(* ================================================================== *)

(** ** The store: adding, looking up, deleting *)

Module StoreMore.
Import PyFloat Handler Spec Spec2.

Lemma find_all_false {A : Type} (f : A -> bool) (l : list A) :
  (forall x, In x l -> f x = false) -> find f l = None.
Proof.
  induction l as [|x l IH]; intros H; simpl; [reflexivity|].
  rewrite (H x) by (left; reflexivity).
  apply IH. intros y Hy. apply H. right. exact Hy.
Qed.

Lemma find_snoc {A : Type} (f : A -> bool) (l : list A) (x : A) :
  find f (l ++ [x])
  = match find f l with
    | Some y => Some y
    | None => if f x then Some x else None
    end.
Proof.
  induction l as [|y l IH]; simpl; [reflexivity|].
  destruct (f y); [reflexivity | exact IH].
Qed.

(** [DELETE FROM notes WHERE id = i] seen through [SELECT ... WHERE id = j]. *)
Lemma find_after_delete (rows : list note) (i j : Z) :
  find (fun row => note_id row =? j)
       (filter (fun row => negb (note_id row =? i)) rows)
  = if j =? i then None else find (fun row => note_id row =? j) rows.
Proof.
  induction rows as [|row rows IH]; simpl.
  - destruct (j =? i); reflexivity.
  - destruct (Z.eqb_spec (note_id row) i) as [Ei | Ni]; simpl.
    + rewrite IH. destruct (Z.eqb_spec j i) as [Ej | Nj]; [reflexivity|].
      destruct (Z.eqb_spec (note_id row) j); [lia | reflexivity].
    + destruct (Z.eqb_spec (note_id row) j) as [Ej | Nj].
      * destruct (Z.eqb_spec j i); [lia | reflexivity].
      * exact IH.
Qed.

Lemma filter_all_true {A : Type} (f : A -> bool) (l : list A) :
  (forall x, In x l -> f x = true) -> filter f l = l.
Proof.
  induction l as [|x l IH]; intros H; simpl; [reflexivity|].
  rewrite (H x) by (left; reflexivity). f_equal.
  apply IH. intros y Hy. apply H. right. exact Hy.
Qed.

(** No stored note has an id above the counter. *)
Lemma fresh_id_absent (db : database) (i : Z) :
  database_ok db -> last_rowid db < i -> fetch_by_id db i = None.
Proof.
  intros (_ & _ & Hb) Hi. unfold fetch_by_id. apply find_all_false.
  rewrite Forall_forall in Hb. intros row Hrow. specialize (Hb row Hrow).
  apply Z.eqb_neq. lia.
Qed.

Section WithEnvironment.

Variable model_encode : list string -> exc (list (list float)).

Local Abbreviation encode_one := (encode_one model_encode).
Local Abbreviation update_note := (update_note model_encode).
Local Abbreviation add_note := (add_note model_encode).

Lemma fits_integer_iff (i : Z) :
  fits_integer i = true <-> min_integer <= i <= max_rowid.
Proof.
  unfold fits_integer. rewrite andb_true_iff, !Z.leb_le. reflexivity.
Qed.

(** X1: as long as the AUTOINCREMENT counter has not reached the largest
    rowid, [add_note] with a content that is not empty stores the note
    under the id that follows the counter, an id no stored note has; the
    note can be read back with the content, category, timestamp and
    embedding of the call, and every other id reads as before.  Once the
    counter is at the largest rowid the INSERT is refused and [add_note]
    raises. *)
Theorem add_note_then_fetch :
  forall (db : database) (now content category : string) (embedding : list float),
    database_ok db ->
    content <> "" ->
    encode_one content = Ok embedding ->
    let i := last_rowid db + 1 in
    let row := Note i content (Some category) now (Some embedding) in
    (last_rowid db < max_rowid ->
     exists reply,
       add_note db now content category
       = Ok (Database (notes db ++ [row]) i, reply) /\
       member "error" reply = None /\
       fetch_by_id db i = None /\
       fetch_by_id (Database (notes db ++ [row]) i) i = Some row /\
       (forall j, j <> i ->
          fetch_by_id (Database (notes db ++ [row]) i) j = fetch_by_id db j)) /\
    (last_rowid db = max_rowid ->
     add_note db now content category = Raise "database or disk is full").
Proof.
  intros db now content category embedding Hok Hcontent Henc i row.
  apply String.eqb_neq in Hcontent. split.
  - intros Hroom.
    assert (Hfresh : fetch_by_id db i = None)
      by (apply fresh_id_absent; [exact Hok | unfold i; lia]).
    eexists. split; [|split; [|split; [exact Hfresh|split]]].
    + unfold Handler.add_note.
      rewrite Hcontent. fold encode_one. rewrite Henc. simpl.
      apply Z.ltb_lt in Hroom. rewrite Hroom. reflexivity.
    + reflexivity.
    + unfold fetch_by_id in *. simpl. rewrite find_snoc, Hfresh.
      simpl. rewrite Z.eqb_refl. reflexivity.
    + intros j Hj. unfold fetch_by_id. simpl. rewrite find_snoc.
      destruct (find (fun r => note_id r =? j) (notes db)); [reflexivity|].
      simpl. destruct (Z.eqb_spec i j); [lia | reflexivity].
  - intros Hfull. unfold Handler.add_note.
    rewrite Hcontent. fold encode_one. rewrite Henc. simpl.
    rewrite Hfull, Z.ltb_irrefl. reflexivity.
Qed.

(** X2: deleting the note that [add_note] has just stored gives back the
    rows there were, but not the counter: the id is gone for good, a later
    [update_note] or [delete_note] on it answers not found, and the next
    [add_note] takes the following id, or is refused when the id that is
    gone was the largest rowid. *)
Theorem add_then_delete :
  forall (db : database) (now content category : string) (embedding : list float),
    database_ok db ->
    content <> "" ->
    encode_one content = Ok embedding ->
    last_rowid db < max_rowid ->
    let i := last_rowid db + 1 in
    let db2 := Database (notes db) i in
    exists db1 reply1 reply2,
      add_note db now content category = Ok (db1, reply1) /\
      delete_note db1 (Some i) = Ok (db2, reply2) /\
      member "error" reply2 = None /\
      delete_note db2 (Some i)
      = Ok (db2, error_dict (-32602) ("Note #" ++ Py.str_int i ++ " not found")) /\
      (forall text cat,
         text <> "" ->
         update_note db2 now (Some i) (Some text) cat
         = Ok (db2, error_dict (-32602)
                      ("Note #" ++ Py.str_int i ++ " not found"))) /\
      (i < max_rowid ->
       exists reply3,
         add_note db2 now content category
         = Ok (Database (notes db
                         ++ [Note (i + 1) content (Some category) now
                               (Some embedding)])
                        (i + 1), reply3)) /\
      (i = max_rowid ->
       add_note db2 now content category = Raise "database or disk is full").
Proof.
  intros db now content category embedding Hok Hcontent Henc Hroom i db2.
  assert (Hfresh : fetch_by_id db i = None)
    by (apply fresh_id_absent; [exact Hok | unfold i; lia]).
  assert (Hi : (i =? 0) = false)
    by (destruct Hok as (_ & Hl & _); apply Z.eqb_neq; unfold i; lia).
  assert (Hfits : fits_integer i = true).
  { apply fits_integer_iff. destruct Hok as (_ & Hl & _). split; [|unfold i; lia].
    apply Z.le_trans with 0; [discriminate | unfold i; lia]. }
  assert (Hc : String.eqb content "" = false) by (apply String.eqb_neq; exact Hcontent).
  assert (Hadd : forall d,
             last_rowid d < max_rowid ->
             add_note d now content category
             = Ok (Database (notes d ++ [Note (last_rowid d + 1) content
                                           (Some category) now (Some embedding)])
                            (last_rowid d + 1),
                   content_dict ("✅ Added note #"
                                 ++ Py.str_int (last_rowid d + 1) ++ Py.nl
                                 ++ "Category: " ++ category ++ Py.nl
                                 ++ "Content: " ++ content))).
  { intros d Hd. unfold Handler.add_note. rewrite Hc. fold encode_one.
    rewrite Henc. simpl. apply Z.ltb_lt in Hd. rewrite Hd. reflexivity. }
  eexists. eexists. eexists. split; [apply Hadd; exact Hroom|]. split.
  - unfold delete_note, db2. simpl. fold i. rewrite Hi, Hfits. simpl.
    unfold fetch_by_id in *. simpl. rewrite find_snoc, Hfresh. simpl.
    rewrite Z.eqb_refl. simpl.
    rewrite filter_app. simpl. rewrite Z.eqb_refl. simpl. rewrite app_nil_r.
    rewrite filter_all_true; [reflexivity|].
    intros row Hrow. destruct Hok as (_ & _ & Hb). rewrite Forall_forall in Hb.
    specialize (Hb row Hrow). apply negb_true_iff. apply Z.eqb_neq. unfold i. lia.
  - assert (Hgone : fetch_by_id db2 i = None) by exact Hfresh.
    split; [reflexivity|]. split; [|split; [|split]].
    + unfold delete_note. simpl. rewrite Hi, Hfits. simpl. rewrite Hgone.
      reflexivity.
    + intros text cat Htext. unfold Handler.update_note. simpl.
      apply String.eqb_neq in Htext. rewrite Hi, Htext, Hfits. simpl.
      rewrite Hgone. reflexivity.
    + intros Hnext. eexists. rewrite Hadd by exact Hnext. reflexivity.
    + intros Hlast. unfold Handler.add_note. rewrite Hc. fold encode_one.
      rewrite Henc. simpl. rewrite Hlast, Z.ltb_irrefl. reflexivity.
Qed.

(** X3: [delete_note] on a stored note removes that note and no other: the
    id reads as absent afterwards, every other id reads as before, the
    table is one row shorter, and the reply quotes the category ([None]
    for a NULL) and the first 100 characters of the content the note
    had. *)
Theorem delete_note_removes_one :
  forall (db : database) (i : Z) (old : note),
    database_ok db ->
    fetch_by_id db i = Some old ->
    exists db',
      delete_note db (Some i)
      = Ok (db', content_dict ("✅ Deleted note #" ++ Py.str_int i ++ Py.nl
                               ++ "Was: [" ++ Py.str_opt (note_category old) ++ "] "
                               ++ Py.str_slice_to (note_content old) 100 ++ "...")) /\
      fetch_by_id db' i = None /\
      (forall j, j <> i -> fetch_by_id db' j = fetch_by_id db j) /\
      S (List.length (notes db')) = List.length (notes db) /\
      last_rowid db' = last_rowid db.
Proof.
  intros db i old Hok Hold.
  destruct (StoreFacts.fetch_by_id_In db i old Hold) as [Hin Hid].
  pose proof (StoreFacts.fits_integer_stored db old Hok Hin) as Hfits.
  rewrite Hid in Hfits.
  destruct Hok as (Hs & _ & Hb). rewrite Forall_forall in Hb.
  assert (Hi : (i =? 0) = false) by (specialize (Hb old Hin); lia).
  eexists. split; [|split; [|split; [|split]]].
  - unfold delete_note. simpl. rewrite Hi, Hfits. simpl. rewrite Hold. reflexivity.
  - unfold fetch_by_id. simpl. rewrite find_after_delete, Z.eqb_refl. reflexivity.
  - intros j Hj. unfold fetch_by_id. simpl. rewrite find_after_delete.
    destruct (Z.eqb_spec j i); [contradiction | reflexivity].
  - simpl. clear Hb Hold Hi Hfits. unfold ids_ascending in Hs.
    induction (notes db) as [|row rows IH]; [contradiction|].
    simpl in Hs. apply StronglySorted_inv in Hs. destruct Hs as [Hs Hrow].
    simpl. destruct Hin as [-> | Hin].
    + rewrite Hid, Z.eqb_refl. simpl. f_equal.
      rewrite filter_all_true; [reflexivity|].
      intros r Hr. rewrite Forall_forall in Hrow.
      assert (note_id old < note_id r) by (apply Hrow, in_map, Hr).
      apply negb_true_iff. apply Z.eqb_neq. lia.
    + assert (Hne : note_id row <> i).
      { rewrite Forall_forall in Hrow.
        assert (note_id row < note_id old) by (apply Hrow, in_map, Hin). lia. }
      apply Z.eqb_neq in Hne. rewrite Hne. simpl. f_equal. apply IH; assumption.
  - reflexivity.
Qed.

(** X4: on an id that is not stored, [delete_note] and [update_note]
    answer [-32602] "not found" and give back the store they were given
    when the id is a 64-bit integer; [update_note] decides so before it
    asks the model for an embedding.  An id outside of the 64-bit range
    cannot be bound to the SELECT: both raise, before anything is read or
    written. *)
Theorem missing_note_is_reported :
  forall (db : database) (now : string) (i : Z) (content : string)
         (category : option string),
    i <> 0 ->
    fetch_by_id db i = None ->
    content <> "" ->
    let reply := error_dict (-32602) ("Note #" ++ Py.str_int i ++ " not found") in
    let overflow := "Python int too large to convert to SQLite INTEGER" in
    (min_integer <= i <= max_rowid ->
     delete_note db (Some i) = Ok (db, reply) /\
     update_note db now (Some i) (Some content) category = Ok (db, reply)) /\
    (i < min_integer \/ max_rowid < i ->
     delete_note db (Some i) = Raise overflow /\
     update_note db now (Some i) (Some content) category = Raise overflow).
Proof.
  intros db now i content category Hi Hnone Hcontent reply overflow.
  apply Z.eqb_neq in Hi. apply String.eqb_neq in Hcontent. split.
  - intros Hrange. apply fits_integer_iff in Hrange. split.
    + unfold delete_note. simpl. rewrite Hi, Hrange. simpl. rewrite Hnone.
      reflexivity.
    + unfold Handler.update_note. simpl. rewrite Hi, Hcontent, Hrange. simpl.
      rewrite Hnone. reflexivity.
  - intros Hout.
    assert (Hrange : fits_integer i = false).
    { destruct (fits_integer i) eqn:E; [|reflexivity].
      apply fits_integer_iff in E. lia. }
    split.
    + unfold delete_note. simpl. rewrite Hi, Hrange. reflexivity.
    + unfold Handler.update_note. simpl. rewrite Hi, Hcontent, Hrange. reflexivity.
Qed.

(** X5: [update_note] with a category that is not empty stores that
    category; with the empty string as category it keeps the stored one,
    as if the category had been left out. *)
Theorem update_note_category_given :
  forall (db : database) (now : string) (i : Z) (content category : string)
         (old : note) (embedding : list float),
    database_ok db ->
    fetch_by_id db i = Some old ->
    content <> "" ->
    encode_one content = Ok embedding ->
    let stored :=
      if String.eqb category "" then note_category old else Some category in
    exists db' reply,
      update_note db now (Some i) (Some content) (Some category) = Ok (db', reply) /\
      fetch_by_id db' i = Some (Note i content stored now (Some embedding)) /\
      (forall j, j <> i -> fetch_by_id db' j = fetch_by_id db j).
Proof.
  intros db now i content category old embedding Hok Hold Hcontent Henc stored.
  destruct (StoreFacts.fetch_by_id_In db i old Hold) as [Hin Hid].
  pose proof (StoreFacts.fits_integer_stored db old Hok Hin) as Hfits.
  rewrite Hid in Hfits.
  destruct Hok as (_ & _ & Hb). rewrite Forall_forall in Hb.
  assert (Hi : (i =? 0) = false) by (specialize (Hb old Hin); lia).
  apply String.eqb_neq in Hcontent.
  unfold Handler.update_note. simpl. rewrite Hi, Hcontent, Hfits. simpl.
  rewrite Hold. fold encode_one. rewrite Henc. simpl.
  eexists. eexists. split; [reflexivity|].
  unfold fetch_by_id in *. simpl. split.
  - rewrite StoreFacts.find_after_update by reflexivity. rewrite Hold.
    rewrite Hid, Z.eqb_refl. unfold stored.
    destruct (String.eqb category ""); reflexivity.
  - intros j Hj. rewrite StoreFacts.find_after_update by reflexivity.
    destruct (find (fun row => note_id row =? j) (notes db)) as [row|] eqn:E;
      [|reflexivity].
    apply find_some in E. destruct E as [_ E]. apply Z.eqb_eq in E.
    rewrite E. destruct (Z.eqb_spec j i); [contradiction | reflexivity].
Qed.

End WithEnvironment.

End StoreMore.

(** ** The dispatcher and the endpoint: what a request can do to the store *)

Module DispatchMore.
Import PyFloat Handler Spec Spec2.

Section WithEnvironment.

Variable API_KEY : string.
Variable model_encode : list string -> exc (list (list float)).
Variable np_dot : list float -> list float -> float.
Variable np_norm : list float -> float.
Variable repr_float : float -> string.

Local Abbreviation search_notes := (search_notes model_encode np_dot np_norm repr_float).
Local Abbreviation add_note := (add_note model_encode).
Local Abbreviation update_note := (update_note model_encode).
Local Abbreviation handle_tool_call :=
  (handle_tool_call model_encode np_dot np_norm repr_float).
Local Abbreviation handle_mcp_request :=
  (handle_mcp_request model_encode np_dot np_norm repr_float).
Local Abbreviation generate := (generate model_encode np_dot np_norm repr_float).
Local Abbreviation mcp_sse :=
  (mcp_sse API_KEY model_encode np_dot np_norm repr_float).

(** The three writers change the store only together with a reply that is
    no error. *)
Lemma add_note_error_keeps (db db' : database) (now content category : string)
  (reply : json) :
  add_note db now content category = Ok (db', reply) ->
  member "error" reply <> None -> db' = db.
Proof.
  unfold Handler.add_note. destruct (String.eqb content "").
  - intros H _. injection H as <- _. reflexivity.
  - destruct (Handler.encode_one model_encode content); simpl; [|discriminate].
    destruct (last_rowid db <? max_rowid); [|discriminate].
    intros H Herr. injection H as _ <-. contradiction Herr. reflexivity.
Qed.

Lemma update_note_error_keeps (db db' : database) (now : string)
  (note_id_arg : option Z) (content category : option string) (reply : json) :
  update_note db now note_id_arg content category = Ok (db', reply) ->
  member "error" reply <> None -> db' = db.
Proof.
  unfold Handler.update_note.
  destruct (negb (Py.truthy_int note_id_arg) || negb (Py.truthy_str content)).
  - intros H _. injection H as <- _. reflexivity.
  - destruct (negb (fits_integer (dget note_id_arg 0))); [discriminate|].
    destruct (fetch_by_id db (dget note_id_arg 0)).
    + destruct (Handler.encode_one model_encode (dget content ""));
        simpl; [|discriminate].
      intros H Herr. injection H as _ <-. contradiction Herr. reflexivity.
    + intros H _. injection H as <- _. reflexivity.
Qed.

Lemma delete_note_error_keeps (db db' : database) (note_id_arg : option Z)
  (reply : json) :
  delete_note db note_id_arg = Ok (db', reply) ->
  member "error" reply <> None -> db' = db.
Proof.
  unfold delete_note. destruct (negb (Py.truthy_int note_id_arg)).
  - intros H _. injection H as <- _. reflexivity.
  - destruct (negb (fits_integer (dget note_id_arg 0))); [discriminate|].
    destruct (fetch_by_id db (dget note_id_arg 0)).
    + intros H Herr. injection H as _ <-. contradiction Herr. reflexivity.
    + intros H _. injection H as <- _. reflexivity.
Qed.

Lemma handle_tool_call_error_keeps (db db' : database) (now : string) (p : params)
  (reply : json) :
  handle_tool_call db now p = Ok (db', reply) ->
  member "error" reply <> None -> db' = db.
Proof.
  unfold Handler.handle_tool_call.
  destruct (is_name (params_name p) "search_neural_memory").
  { destruct (search_notes db _ _); simpl; [|discriminate].
    intros H _. injection H as <- _. reflexivity. }
  destruct (is_name (params_name p) "neural_stats").
  { destruct (get_stats db); simpl; [|discriminate].
    intros H _. injection H as <- _. reflexivity. }
  destruct (is_name (params_name p) "add_note"); [apply add_note_error_keeps|].
  destruct (is_name (params_name p) "update_note"); [apply update_note_error_keeps|].
  destruct (is_name (params_name p) "delete_note"); [apply delete_note_error_keeps|].
  intros H _. injection H as <- _. reflexivity.
Qed.

(** X6: a request that is answered with an error dict has not changed the
    store, whether the error was returned by a tool ([-32602]), stands for
    an unknown method ([-32601]) or for an exception ([-32603]): a note is
    written only by a call that reports success. *)
Theorem error_reply_leaves_store :
  forall (db : database) (now method : string) (p : params),
    member "error" (snd (handle_mcp_request db now method p)) <> None ->
    fst (handle_mcp_request db now method p) = db.
Proof.
  intros db now method p. unfold Handler.handle_mcp_request.
  destruct (String.eqb method "initialize"); [reflexivity|].
  destruct (String.eqb method "tools/list"); [reflexivity|].
  destruct (String.eqb method "tools/call"); [|reflexivity].
  destruct (handle_tool_call db now p) as [[db' reply] | e] eqn:E; [|reflexivity].
  simpl. intros Herr. exact (handle_tool_call_error_keeps db db' now p reply E Herr).
Qed.

Lemma handle_tool_call_ok (db db' : database) (now : string) (p : params)
  (reply : json) :
  database_ok db ->
  handle_tool_call db now p = Ok (db', reply) ->
  database_ok db' /\ counter_kept db db'.
Proof.
  intros Hok. unfold Handler.handle_tool_call, counter_kept.
  destruct (is_name (params_name p) "search_neural_memory").
  { destruct (search_notes db _ _); simpl; [|discriminate].
    intros H. injection H as <- _. split; [exact Hok | lia]. }
  destruct (is_name (params_name p) "neural_stats").
  { destruct (get_stats db); simpl; [|discriminate].
    intros H. injection H as <- _. split; [exact Hok | lia]. }
  destruct (is_name (params_name p) "add_note").
  { intros H. split; [eapply StoreFacts.add_note_ok; eassumption|].
    unfold Handler.add_note in H.
    destruct (String.eqb _ ""); [injection H as <- _; lia|].
    destruct (Handler.encode_one model_encode _); [|discriminate H].
    simpl in H. destruct (last_rowid db <? max_rowid); [|discriminate H].
    injection H as <- _. simpl. lia. }
  destruct (is_name (params_name p) "update_note").
  { intros H. split; [eapply StoreFacts.update_note_ok; eassumption|].
    unfold Handler.update_note in H.
    destruct (negb _ || negb _); [injection H as <- _; lia|].
    destruct (negb (fits_integer _)); [discriminate H|].
    destruct (fetch_by_id db _); [|injection H as <- _; lia].
    destruct (Handler.encode_one model_encode _); [|discriminate H].
    simpl in H. injection H as <- _. simpl. lia. }
  destruct (is_name (params_name p) "delete_note").
  { intros H. split; [eapply StoreFacts.delete_note_ok; eassumption|].
    unfold delete_note in H. destruct (negb _); [injection H as <- _; lia|].
    destruct (negb (fits_integer _)); [discriminate H|].
    destruct (fetch_by_id db _); injection H as <- _; simpl; lia. }
  intros H. injection H as <- _. split; [exact Hok | lia].
Qed.

(** X7: whatever the request, authorized or not, well formed or not, the
    endpoint hands on a table whose ids are ascending, positive and not
    above the counter if it was given one, and the counter has not gone
    back: an id is never given twice. *)
Theorem request_keeps_table :
  forall (db : database) (now : string) (req : request),
    database_ok db ->
    database_ok (fst (mcp_sse db now req)) /\
    counter_kept db (fst (mcp_sse db now req)).
Proof.
  intros db now req Hok. unfold Handler.mcp_sse, counter_kept.
  destruct (negb (Handler.verify_auth API_KEY req)); [simpl; split; [exact Hok | lia]|].
  destruct (generate db now req) as [db' event] eqn:E. simpl.
  unfold Handler.generate in E.
  assert (Hdispatch : forall method p,
             database_ok (fst (handle_mcp_request db now method p)) /\
             last_rowid db <= last_rowid (fst (handle_mcp_request db now method p))).
  { intros method p. unfold Handler.handle_mcp_request.
    destruct (String.eqb method "initialize"); [simpl; split; [exact Hok | lia]|].
    destruct (String.eqb method "tools/list"); [simpl; split; [exact Hok | lia]|].
    destruct (String.eqb method "tools/call"); [|simpl; split; [exact Hok | lia]].
    destruct (handle_tool_call db now p) as [[db1 reply] | e] eqn:Et;
      [|simpl; split; [exact Hok | lia]].
    simpl. exact (handle_tool_call_ok db db1 now p reply Hok Et). }
  destruct (match req_method req with POST => req_json req | GET => Ok empty_rpc end)
    as [data | e]; [|injection E as <- _; split; [exact Hok | lia]].
  specialize (Hdispatch (dget (rpc_method data) "initialize")
                        (dget (rpc_params data) no_params)).
  destruct (handle_mcp_request db now _ _) as [db1 result].
  injection E as <- _. exact Hdispatch.
Qed.

(** X8: only [tools/call] with one of the three writing tools can change
    the store: every other method, and every other tool name (the search,
    the statistics, an unknown or a missing name), gives back the store it
    was given. *)
Theorem only_write_tools_change_store :
  forall (db : database) (now method : string) (p : params),
    method <> "tools/call" \/ is_write_tool (params_name p) = false ->
    fst (handle_mcp_request db now method p) = db.
Proof.
  intros db now method p H. unfold Handler.handle_mcp_request.
  destruct (String.eqb method "initialize"); [reflexivity|].
  destruct (String.eqb method "tools/list"); [reflexivity|].
  destruct (String.eqb_spec method "tools/call") as [-> | Hm]; [|reflexivity].
  destruct H as [H | H]; [contradiction H; reflexivity|].
  unfold is_write_tool in H. apply orb_false_iff in H. destruct H as [H Hd].
  apply orb_false_iff in H. destruct H as [Ha Hu].
  unfold Handler.handle_tool_call. rewrite Ha, Hu, Hd.
  destruct (is_name (params_name p) "search_neural_memory").
  { destruct (search_notes db _ _); reflexivity. }
  destruct (is_name (params_name p) "neural_stats"); [|reflexivity].
  destruct (get_stats db); reflexivity.
Qed.

(** A GET request is answered as [initialize], under the id 1,
    whatever it carries; it never reaches a tool and leaves the store
    alone. *)
Theorem get_request_is_initialize :
  forall (db : database) (now : string) (req : request),
    req_method req = GET ->
    generate db now req
    = (db, JDict [("jsonrpc", JStr "2.0"); ("id", JInt 1);
                  ("result", initialize_result)]).
Proof.
  intros db now req Hget. unfold Handler.generate. rewrite Hget. reflexivity.
Qed.

(** X9: the defaults of the [add_note] tool.  Called without a category
    it stores the note under "general", as long as the AUTOINCREMENT
    counter has not reached the largest rowid; at the largest rowid the
    call is answered [-32603] and stores nothing.  Called without a
    content it answers [-32602] and stores nothing, without asking the
    model. *)
Theorem add_note_call_defaults :
  forall (db : database) (now : string) (content : string)
         (embedding : list float) (query : option string) (limit : option Z)
         (note_id_arg : option Z),
    content <> "" ->
    Handler.encode_one model_encode content = Ok embedding ->
    let call c cat :=
      handle_mcp_request db now "tools/call"
        (Params (Some "add_note") (Some (Args query limit c cat note_id_arg))) in
    (last_rowid db < max_rowid ->
     fst (call (Some content) None)
     = Database (notes db
                 ++ [Note (last_rowid db + 1) content (Some "general") now
                       (Some embedding)])
                (last_rowid db + 1) /\
     member "error" (snd (call (Some content) None)) = None) /\
    (last_rowid db = max_rowid ->
     call (Some content) None
     = (db, error_dict (-32603) "database or disk is full")) /\
    (forall cat, call None cat = (db, error_dict (-32602) "Content required")).
Proof.
  intros db now content embedding query limit note_id_arg Hcontent Henc call.
  apply String.eqb_neq in Hcontent.
  unfold call, Handler.handle_mcp_request, Handler.handle_tool_call. simpl.
  unfold Handler.add_note. rewrite Hcontent, Henc. simpl.
  split; [|split].
  - intros Hroom. apply Z.ltb_lt in Hroom. rewrite Hroom. split; reflexivity.
  - intros Hfull. rewrite Hfull, Z.ltb_irrefl. reflexivity.
  - reflexivity.
Qed.

(** X10: the tool catalog of [tools/list] and the dispatcher of
    [tools/call] agree: a name is in the catalog exactly when a call under
    that name is not answered "Unknown tool"; and a call without a name is
    answered "Unknown tool: None". *)
Theorem catalog_matches_dispatcher :
  forall (db : database) (now : string) (name : string) (args : option arguments),
    (In name (tool_names tools_list_result) <->
     handle_tool_call db now (Params (Some name) args)
     <> Ok (db, error_dict (-32602) ("Unknown tool: " ++ name))) /\
    handle_tool_call db now (Params None args)
    = Ok (db, error_dict (-32602) "Unknown tool: None").
Proof.
  intros db now name args. split; [|reflexivity].
  change (tool_names tools_list_result)
    with ["search_neural_memory"; "neural_stats"; "add_note"; "update_note";
          "delete_note"].
  split.
  - intros Hin.
    destruct Hin as [<- | [<- | [<- | [<- | [<- | []]]]]];
      unfold Handler.handle_tool_call; simpl.
    + unfold Handler.search_notes.
      destruct (search model_encode np_dot np_norm db _ _); simpl; discriminate.
    + unfold get_stats.
      destruct (Py.sorted_exc item_lt (by_category db)); simpl; discriminate.
    + unfold Handler.add_note. destruct (String.eqb _ ""); [discriminate|].
      destruct (Handler.encode_one model_encode _); simpl; [|discriminate].
      destruct (last_rowid db <? max_rowid); discriminate.
    + unfold Handler.update_note.
      destruct (negb _ || negb _); [discriminate|].
      destruct (negb (fits_integer _)); [discriminate|].
      destruct (fetch_by_id db _); [|simpl; discriminate].
      destruct (Handler.encode_one model_encode _); simpl; discriminate.
    + unfold delete_note. destruct (negb _); [discriminate|].
      destruct (negb (fits_integer _)); [discriminate|].
      destruct (fetch_by_id db _); simpl; discriminate.
  - intros H.
    destruct (String.eqb_spec name "search_neural_memory") as [-> | N1];
      [simpl; auto|].
    destruct (String.eqb_spec name "neural_stats") as [-> | N2]; [simpl; auto|].
    destruct (String.eqb_spec name "add_note") as [-> | N3]; [simpl; auto|].
    destruct (String.eqb_spec name "update_note") as [-> | N4]; [simpl; auto 6|].
    destruct (String.eqb_spec name "delete_note") as [-> | N5]; [simpl; auto 6|].
    contradiction H. unfold Handler.handle_tool_call, is_name. simpl.
    apply String.eqb_neq in N1, N2, N3, N4, N5.
    rewrite N1, N2, N3, N4, N5. reflexivity.
Qed.

End WithEnvironment.

End DispatchMore.

(** ** [get_stats] *)

Module StatsFacts.
Import PyFloat Handler Spec Spec2.
Local Open Scope nat_scope.

(** The lexicographic order of strings. *)
Lemma string_lt_trans (a b c : string) :
  String.compare a b = Lt -> String.compare b c = Lt -> String.compare a c = Lt.
Proof.
  revert b c. induction a as [|x a IH]; intros [|y b] [|z c]; simpl;
    try discriminate; try reflexivity.
  unfold Ascii.compare.
  destruct (N.compare_spec (N_of_ascii x) (N_of_ascii y)) as [Exy | Lxy | Gxy];
    destruct (N.compare_spec (N_of_ascii y) (N_of_ascii z)) as [Eyz | Lyz | Gyz];
    try discriminate; intros Hab Hbc.
  - rewrite Exy, Eyz, N.compare_refl. eauto.
  - rewrite Exy. apply N.compare_lt_iff in Lyz. rewrite Lyz. reflexivity.
  - rewrite <- Eyz. apply N.compare_lt_iff in Lxy. rewrite Lxy. reflexivity.
  - assert (L : (N_of_ascii x < N_of_ascii z)%N) by lia.
    apply N.compare_lt_iff in L. rewrite L. reflexivity.
Qed.

Lemma ltb_asym (a b : string) : String.ltb a b = true -> String.ltb b a = false.
Proof.
  unfold String.ltb. rewrite (String.compare_antisym b a).
  destruct (String.compare a b); simpl; congruence.
Qed.

Lemma ltb_neither (a b : string) :
  String.ltb a b = false -> String.ltb b a = false -> a = b.
Proof.
  unfold String.ltb. rewrite (String.compare_antisym b a).
  destruct (String.compare a b) eqn:E; simpl; try discriminate.
  intros _ _. apply String.compare_eq_iff. exact E.
Qed.

Lemma ltb_negative_trans (a b c : string) :
  String.ltb a b = false -> String.ltb b c = false -> String.ltb a c = false.
Proof.
  intros Hab Hbc. destruct (String.ltb a c) eqn:Hac; [|reflexivity].
  destruct (String.ltb b a) eqn:Hba.
  - unfold String.ltb in *.
    destruct (String.compare b a) eqn:E1; try discriminate.
    destruct (String.compare a c) eqn:E2; try discriminate.
    rewrite (string_lt_trans b a c E1 E2) in Hbc. discriminate.
  - rewrite (ltb_neither a b Hab Hba) in Hac. congruence.
Qed.

Lemma same_category_eq (a b : option string) :
  same_category a b = true <-> a = b.
Proof.
  destruct a as [x|], b as [y|]; simpl; try (split; congruence).
  rewrite String.eqb_eq. split; congruence.
Qed.

Lemma same_category_sym (a b : option string) :
  same_category a b = same_category b a.
Proof.
  destruct a as [x|], b as [y|]; simpl; try reflexivity. apply String.eqb_sym.
Qed.

Lemma kept_count_category (counts : list (option string * nat))
  (cat c : option string) :
  kept (count_category cat counts) c
  = kept counts c + (if same_category cat c then 1 else 0).
Proof.
  unfold kept. induction counts as [|[k n] counts IH]; simpl.
  - destruct (same_category cat c); reflexivity.
  - destruct (same_category k cat) eqn:Ek; simpl.
    + apply same_category_eq in Ek. subst k.
      destruct (same_category cat c); simpl; lia.
    + destruct (same_category k c) eqn:Ec; simpl.
      * apply same_category_eq in Ec. subst k.
        rewrite same_category_sym, Ek. lia.
      * exact IH.
Qed.

Lemma keys_count_category (counts : list (option string * nat))
  (cat : option string) :
  NoDup (map fst counts) ->
  Forall (fun item => 0 < snd item) counts ->
  NoDup (map fst (count_category cat counts)) /\
  Forall (fun item => 0 < snd item) (count_category cat counts) /\
  (forall k, In k (map fst (count_category cat counts)) ->
             k = cat \/ In k (map fst counts)) /\
  list_sum (map snd (count_category cat counts)) = S (list_sum (map snd counts)).
Proof.
  induction counts as [|[k n] counts IH]; simpl; intros Hnd Hpos.
  - repeat split; try (repeat constructor; simpl; auto; lia).
    intros k [<- | []]. left. reflexivity.
  - apply NoDup_cons_iff in Hnd. destruct Hnd as [Hk Hnd].
    apply Forall_cons_iff in Hpos. destruct Hpos as [Hn Hpos].
    destruct (same_category k cat) eqn:Ek; simpl.
    + apply same_category_eq in Ek. subst k. repeat split.
      * constructor; assumption.
      * constructor; [simpl; lia | assumption].
      * intros k' [<- | Hk']; auto.
    + assert (Nk : k <> cat)
        by (intros E; apply same_category_eq in E; congruence).
      destruct (IH Hnd Hpos) as (Hnd' & Hpos' & Hkeys & Hsum).
      repeat split.
      * constructor; [|exact Hnd'].
        intros Hin. destruct (Hkeys k Hin) as [-> | Hin']; contradiction.
      * constructor; assumption.
      * intros k' [<- | Hk']; [auto|].
        destruct (Hkeys k' Hk'); auto.
      * rewrite Hsum. lia.
Qed.

Lemma count_in_category_snoc (rows : list note) (row : note) (c : option string) :
  count_in_category (rows ++ [row]) c
  = count_in_category rows c
    + (if same_category (note_category row) c then 1 else 0).
Proof.
  unfold count_in_category. rewrite filter_app, length_app. simpl.
  destruct (same_category (note_category row) c); reflexivity.
Qed.

Lemma fold_counts (rows done : list note) (counts : list (option string * nat)) :
  NoDup (map fst counts) ->
  Forall (fun item => 0 < snd item) counts ->
  (forall c, kept counts c = count_in_category done c) ->
  list_sum (map snd counts) = List.length done ->
  let final := fold_left (fun counts row => count_category (note_category row) counts)
                         rows counts in
  NoDup (map fst final) /\
  Forall (fun item => 0 < snd item) final /\
  (forall c, kept final c = count_in_category (done ++ rows) c) /\
  list_sum (map snd final) = List.length (done ++ rows).
Proof.
  revert done counts. induction rows as [|row rows IH]; intros done counts Hnd Hpos Hk Hs.
  - simpl. rewrite app_nil_r. auto.
  - simpl.
    destruct (keys_count_category counts (note_category row) Hnd Hpos)
      as (Hnd' & Hpos' & _ & Hsum).
    replace (done ++ row :: rows) with ((done ++ [row]) ++ rows)
      by (rewrite <- app_assoc; reflexivity).
    apply IH; try assumption.
    + intros c. rewrite kept_count_category, count_in_category_snoc, Hk. reflexivity.
    + rewrite Hsum, Hs, length_app. simpl. lia.
Qed.

Lemma kept_In (counts : list (option string * nat)) (c : option string) (n : nat) :
  NoDup (map fst counts) ->
  Forall (fun item => 0 < snd item) counts ->
  (In (c, n) counts <-> kept counts c = n /\ 0 < n).
Proof.
  intros Hnd Hpos. unfold kept. split.
  - intros Hin. split; [|rewrite Forall_forall in Hpos; apply (Hpos (c, n) Hin)].
    induction counts as [|[k m] counts IH]; [contradiction|].
    simpl in *. apply NoDup_cons_iff in Hnd. destruct Hnd as [Hk Hnd].
    apply Forall_cons_iff in Hpos. destruct Hpos as [_ Hpos].
    destruct Hin as [Heq | Hin].
    + injection Heq as -> ->.
      rewrite (proj2 (same_category_eq c c) eq_refl). reflexivity.
    + destruct (same_category k c) eqn:Ek.
      * apply same_category_eq in Ek. subst k.
        contradiction Hk. apply (in_map fst) in Hin. exact Hin.
      * apply IH; assumption.
  - intros [Hk Hn].
    destruct (find (fun item => same_category (fst item) c) counts)
      as [[k m]|] eqn:E; [|simpl in Hk; lia].
    apply find_some in E. destruct E as [Hin Heq]. simpl in *.
    apply same_category_eq in Heq. subst. exact Hin.
Qed.

(** A category has a positive count exactly when a note carries it. *)
Lemma count_in_category_pos (rows : list note) (c : option string) :
  0 < count_in_category rows c <->
  exists row, In row rows /\ note_category row = c.
Proof.
  unfold count_in_category. split.
  - intros Hpos.
    destruct (filter (fun row => same_category (note_category row) c) rows)
      as [|row l] eqn:E; [simpl in Hpos; lia|].
    assert (Hin : In row (filter (fun row => same_category (note_category row) c)
                            rows)) by (rewrite E; left; reflexivity).
    apply filter_In in Hin. destruct Hin as [Hin Hc].
    apply same_category_eq in Hc. eauto.
  - intros (row & Hin & Hc).
    assert (Hf : In row (filter (fun row => same_category (note_category row) c)
                           rows)).
    { apply filter_In. split; [exact Hin|]. apply same_category_eq. exact Hc. }
    destruct (filter _ rows); [contradiction | simpl; lia].
Qed.

Lemma insert_by_perm {A : Type} (lt : A -> A -> bool) (x : A) (l : list A) :
  Permutation (Py.insert_by lt x l) (x :: l).
Proof.
  induction l as [|y l IH]; simpl; [reflexivity|].
  destruct (lt y x); [|reflexivity].
  rewrite IH. apply perm_swap.
Qed.

Lemma list_sort_perm {A : Type} (lt : A -> A -> bool) (l : list A) :
  Permutation (Py.list_sort lt l) l.
Proof.
  induction l as [|x l IH]; simpl; [reflexivity|].
  rewrite insert_by_perm. constructor. exact IH.
Qed.

Lemma list_sum_perm (l l' : list nat) :
  Permutation l l' -> list_sum l = list_sum l'.
Proof.
  induction 1; simpl; lia.
Qed.

(** Where no comparison raises, [sorted] is the stable sort. *)
Lemma insert_by_exc_total {A : Type} (lt : A -> A -> exc bool)
  (ltb : A -> A -> bool) (x : A) (l : list A) :
  (forall y, In y l -> lt y x = Ok (ltb y x)) ->
  Py.insert_by_exc lt x l = Ok (Py.insert_by ltb x l).
Proof.
  induction l as [|y l IH]; intros H; simpl; [reflexivity|].
  rewrite (H y) by (left; reflexivity). simpl.
  destruct (ltb y x); [|reflexivity].
  rewrite IH by (intros z Hz; apply H; right; exact Hz). reflexivity.
Qed.

(** A dict whose keys are all strings is sorted by its keys. *)
Lemma sorted_exc_named (l : list (option string * nat)) :
  NoDup (map fst l) ->
  ~ In None (map fst l) ->
  Py.sorted_exc item_lt l = Ok (Py.list_sort category_ltb l).
Proof.
  induction l as [|x l IH]; intros Hnd Hnone; simpl; [reflexivity|].
  simpl in Hnd, Hnone. apply NoDup_cons_iff in Hnd. destruct Hnd as [Hx Hnd].
  rewrite IH by (try assumption; intros H; apply Hnone; right; exact H). simpl.
  apply insert_by_exc_total. intros y Hy.
  apply SortFacts.In_list_sort in Hy.
  unfold item_lt, category_ltb.
  destruct (fst x) as [u|] eqn:Ex; [|contradiction Hnone; left; reflexivity].
  destruct (fst y) as [v|] eqn:Ey.
  - destruct (String.eqb_spec v u) as [E | N]; [|reflexivity].
    contradiction Hx. rewrite <- E, <- Ey. apply in_map. exact Hy.
  - contradiction Hnone. right. rewrite <- Ey. apply in_map. exact Hy.
Qed.

Lemma insert_by_exc_perm {A : Type} (lt : A -> A -> exc bool) (x : A)
  (l r : list A) :
  Py.insert_by_exc lt x l = Ok r -> Permutation r (x :: l).
Proof.
  revert r. induction l as [|y l IH]; intros r; simpl.
  - intros H. injection H as <-. reflexivity.
  - destruct (lt y x) as [[|] | e]; simpl; try discriminate.
    + destruct (Py.insert_by_exc lt x l) as [r' | e]; simpl; [|discriminate].
      intros H. injection H as <-. rewrite (IH r' eq_refl). apply perm_swap.
    + intros H. injection H as <-. reflexivity.
Qed.

Lemma sorted_exc_perm {A : Type} (lt : A -> A -> exc bool) (l r : list A) :
  Py.sorted_exc lt l = Ok r -> Permutation r l.
Proof.
  revert r. induction l as [|x l IH]; intros r; simpl.
  - intros H. injection H as <-. reflexivity.
  - destruct (Py.sorted_exc lt l) as [r' | e]; simpl; [|discriminate].
    intros H. apply insert_by_exc_perm in H. rewrite H.
    constructor. apply IH. reflexivity.
Qed.

Lemma category_eq_dec (a b : option string) : {a = b} + {a <> b}.
Proof.
  decide equality. apply string_dec.
Qed.

(** Two items of which exactly one has the key [None] cannot be
    compared. *)
Lemma item_lt_mixed (a b : option string * nat) :
  (fst a = None <-> fst b <> None) ->
  exists e, item_lt a b = Raise e /\ is_type_error e.
Proof.
  unfold item_lt, is_type_error. intros H.
  destruct (fst a) as [x|], (fst b) as [y|].
  - exfalso. assert (E : @None string = None) by reflexivity.
    destruct H as [_ H]. discriminate H. discriminate.
  - eauto.
  - eauto.
  - exfalso. destruct H as [H _]. apply H; reflexivity.
Qed.

(** [sorted] raises on a dict of two or more items one of which has the
    key [None]. *)
Lemma sorted_exc_mixed (l : list (option string * nat)) :
  NoDup (map fst l) ->
  In None (map fst l) ->
  2 <= List.length l ->
  exists e, Py.sorted_exc item_lt l = Raise e /\ is_type_error e.
Proof.
  induction l as [|x l IH]; intros Hnd Hnone Hlen; [contradiction|].
  simpl in Hnd. apply NoDup_cons_iff in Hnd. destruct Hnd as [Hx Hnd].
  simpl.
  destruct (Py.sorted_exc item_lt l) as [rest | e] eqn:Es.
  2: { destruct l as [|y [|z l]].
       - simpl in Hlen. lia.
       - simpl in Es. discriminate Es.
       - destruct (in_dec category_eq_dec None (map fst (y :: z :: l))) as [Hin | Hout].
         + destruct (IH Hnd Hin) as (e' & He' & Hte); [simpl; lia|].
           injection He' as <-. simpl. eauto.
         + rewrite (sorted_exc_named _ Hnd Hout) in Es. discriminate Es. }
  simpl.
  pose proof (sorted_exc_perm _ _ _ Es) as Hperm.
  destruct rest as [|y rest].
  { apply Permutation_length in Hperm. simpl in *. lia. }
  assert (Hy : In y l) by (apply (Permutation_in _ Hperm); left; reflexivity).
  destruct l as [|y0 [|z l]].
  - contradiction.
  - (* two items *)
    destruct Hy as [<- | []]. clear IH.
    simpl.
    destruct (item_lt_mixed y0 x) as (e & He & Hte).
    { simpl in Hnone, Hx. destruct (fst y0) as [u|] eqn:Ey.
      - split; [discriminate|]. intros Hne.
        destruct Hnone as [H0 | [H0 | []]]; [contradiction | discriminate H0].
      - split; [|reflexivity]. intros _ Hx0. apply Hx. left. congruence. }
    rewrite He. simpl. eauto.
  - destruct (fst x) as [u|] eqn:Ex.
    + (* the key [None] is among the others: their sort has raised *)
      assert (Hin : In None (map fst (y0 :: z :: l))).
      { destruct Hnone as [H0 | H0]; [congruence | exact H0]. }
      destruct (IH Hnd Hin) as (e' & He' & _); [simpl; lia|].
      discriminate He'.
    + simpl.
      destruct (item_lt_mixed y x) as (e & He & Hte).
      { rewrite Ex. split.
        - intros Hy0. exfalso. apply Hx. rewrite <- Hy0. apply in_map. exact Hy.
        - intros H. contradiction H. reflexivity. }
      rewrite He. simpl. eauto.
Qed.

Lemma two_elements {A : Type} (a b : A) (l : list A) :
  In a l -> In b l -> a <> b -> 2 <= List.length l.
Proof.
  destruct l as [|x [|y l]]; simpl; try lia; try contradiction.
  intros [<- | []] [<- | []] H. contradiction H. reflexivity.
Qed.

Lemma one_key (l : list (option string * nat)) (k : option string) :
  NoDup (map fst l) ->
  (forall item, In item l -> fst item = k) ->
  List.length l <= 1.
Proof.
  destruct l as [|x [|y l]]; simpl; try lia.
  intros Hnd Hall. apply NoDup_cons_iff in Hnd. destruct Hnd as [Hx _].
  contradiction Hx. left.
  rewrite (Hall x), (Hall y) by auto. reflexivity.
Qed.

(** X11: the statistics count right, unless they cannot be listed.  When
    the table holds a note without a category (NULL) and a note with one,
    sorting the items of the dict compares [None] with a string and
    [get_stats] raises the TypeError.  Otherwise the listing has one line
    for each category that has a note, with the number of notes of that
    category; the lines come by ascending category, no category twice;
    and the counts add up to the total it prints. *)
Theorem get_stats_counts :
  forall (db : database),
    let has_null := exists row, In row (notes db) /\ note_category row = None in
    let has_named :=
      exists row c, In row (notes db) /\ note_category row = Some c in
    (has_null /\ has_named ->
     exists e, get_stats db = Raise e /\ is_type_error e) /\
    (~ (has_null /\ has_named) ->
     exists items,
       get_stats db
       = Ok (content_dict
               ("Neural Memory Statistics:" ++ Py.nl ++ Py.nl
                ++ "Total notes: " ++ Py.str_int (Z.of_nat (List.length (notes db)))
                ++ Py.nl ++ Py.nl ++ "By category:" ++ Py.nl
                ++ String.concat "" (map stats_line items))) /\
       (forall c n, In (c, n) items <->
                    n = count_in_category (notes db) c /\ 0 < n) /\
       StronglySorted category_before items /\
       list_sum (map snd items) = List.length (notes db)).
Proof.
  intros db has_null has_named.
  destruct (fold_counts (notes db) [] [] (NoDup_nil _) (Forall_nil _)
              (fun c => eq_refl) eq_refl) as (Hnd & Hpos & Hk & Hsum).
  simpl in Hk, Hsum. fold (by_category db) in Hnd, Hpos, Hk, Hsum.
  assert (Hitems : forall c n, In (c, n) (by_category db) <->
                               n = count_in_category (notes db) c /\ 0 < n).
  { intros c n. rewrite (kept_In _ c n Hnd Hpos), Hk. intuition congruence. }
  assert (Hkeys : forall c, In c (map fst (by_category db)) <->
                            exists row, In row (notes db) /\ note_category row = c).
  { intros c. rewrite <- count_in_category_pos, in_map_iff. split.
    - intros ([c' n] & Hc & Hin). simpl in Hc. subst c'.
      apply Hitems in Hin. destruct Hin as [-> Hn]. exact Hn.
    - intros Hn. exists (c, count_in_category (notes db) c).
      split; [reflexivity|]. apply Hitems. auto. }
  split.
  - intros [Hnull (row & c & Hrow & Hc)].
    apply Hkeys in Hnull.
    assert (Hnamed : In (Some c) (map fst (by_category db)))
      by (apply Hkeys; eauto).
    assert (Hlen : 2 <= List.length (by_category db)).
    { rewrite <- (length_map fst).
      apply (two_elements None (Some c)); try assumption. discriminate. }
    destruct (sorted_exc_mixed _ Hnd Hnull Hlen) as (e & He & Hte).
    exists e. split; [|exact Hte].
    unfold get_stats. rewrite He. reflexivity.
  - intros Hnot.
    destruct (in_dec category_eq_dec None (map fst (by_category db)))
      as [Hnull | Hnamed].
    + (* the only key is [None] *)
      assert (Hall : forall item, In item (by_category db) -> fst item = None).
      { intros [[c|] n] Hin; [|reflexivity]. contradiction Hnot. split.
        - apply Hkeys. exact Hnull.
        - apply (in_map fst) in Hin. apply Hkeys in Hin.
          destruct Hin as (row & Hrow & Hc). exists row, c. auto. }
      pose proof (one_key _ None Hnd Hall) as Hone.
      exists (by_category db). split; [|split; [exact Hitems|split; [|exact Hsum]]].
      * unfold get_stats.
        destruct (by_category db) as [|x [|y l]]; [reflexivity | reflexivity|].
        simpl in Hone. lia.
      * destruct (by_category db) as [|x [|y l]]; [constructor | |simpl in Hone; lia].
        constructor; constructor.
    + exists (Py.list_sort category_ltb (by_category db)).
      split; [|split; [|split]].
      * unfold get_stats. rewrite (sorted_exc_named _ Hnd Hnamed). reflexivity.
      * intros c n. rewrite SortFacts.In_list_sort. apply Hitems.
      * apply SortFacts.StronglySorted_impl
          with (R := Py.asc_stable category_ltb (fun a b => fst a <> fst b)).
        -- intros a b Ha Hb. apply SortFacts.In_list_sort in Ha, Hb.
           assert (Hsome : forall item, In item (by_category db) ->
                                        exists x, fst item = Some x).
           { intros item Hin. destruct (fst item) as [x|] eqn:E; [eauto|].
             contradiction Hnamed. rewrite <- E. apply in_map. exact Hin. }
           destruct (Hsome a Ha) as (x & Ex). destruct (Hsome b Hb) as (y & Ey).
           unfold Py.asc_stable, category_before, category_ltb. rewrite Ex, Ey.
           intros [Hlt | (Hab & Hba & Hne)]; [eauto|].
           contradiction Hne. f_equal. apply ltb_neither; assumption.
        -- apply SortFacts.list_sort_sorted
             with (ok := fun item => exists x, fst item = Some x).
           ++ intros a b (x & Ex) (y & Ey). unfold category_ltb.
              rewrite Ex, Ey. apply ltb_asym.
           ++ intros a b c (x & Ex) (y & Ey) (z & Ez). unfold category_ltb.
              rewrite Ex, Ey, Ez. apply ltb_negative_trans.
           ++ apply Forall_forall. intros item Hin.
              destruct (fst item) as [x|] eqn:E; [eauto|].
              contradiction Hnamed. rewrite <- E. apply in_map. exact Hin.
           ++ clear Hpos Hk Hsum Hitems Hkeys Hnamed Hnot.
              induction (by_category db) as [|x l IH]; [constructor|].
              simpl in Hnd. apply NoDup_cons_iff in Hnd. destruct Hnd as [Hx Hnd].
              constructor; [apply IH; exact Hnd|].
              apply Forall_forall. intros y Hy Heq. apply Hx. rewrite Heq.
              apply in_map. exact Hy.
      * rewrite <- Hsum.
        apply list_sum_perm. apply Permutation_map. apply list_sort_perm.
Qed.

End StatsFacts.

(** ** [search_notes]: what the result list is made of *)

Module SearchMore.
Import PyFloat Handler Spec Spec2.

Lemma slice_to_prefix {A : Type} (l : list A) (stop : Z) :
  exists rest, l = Py.slice_to l stop ++ rest.
Proof.
  unfold Py.slice_to. destruct (0 <=? stop).
  - exists (skipn (Z.to_nat stop) l). symmetry. apply firstn_skipn.
  - exists (skipn (List.length l - Z.to_nat (- stop)) l). symmetry.
    apply firstn_skipn.
Qed.

Lemma list_sort_reverse_perm {A : Type} (lt : A -> A -> bool) (l : list A) :
  Permutation (Py.list_sort_reverse lt l) l.
Proof.
  unfold Py.list_sort_reverse.
  rewrite <- Permutation_rev, StatsFacts.list_sort_perm, <- Permutation_rev.
  reflexivity.
Qed.

Lemma ascending_NoDup (l : list Z) : StronglySorted Z.lt l -> NoDup l.
Proof.
  induction 1 as [|x l Hs IH Hx]; constructor; [|exact IH].
  intros Hin. rewrite Forall_forall in Hx. specialize (Hx x Hin). lia.
Qed.

Lemma fetch_by_id_of_row (db : database) (row : note) :
  ids_ascending db -> In row (notes db) -> fetch_by_id db (note_id row) = Some row.
Proof.
  unfold ids_ascending, fetch_by_id.
  induction (notes db) as [|r rows IH]; intros Hs Hin; [contradiction|].
  simpl in Hs. apply StronglySorted_inv in Hs. destruct Hs as [Hs Hr].
  simpl. destruct Hin as [-> | Hin]; [rewrite Z.eqb_refl; reflexivity|].
  rewrite Forall_forall in Hr.
  assert (note_id r < note_id row) by (apply Hr, in_map, Hin).
  destruct (Z.eqb_spec (note_id r) (note_id row)); [lia|]. apply IH; assumption.
Qed.

Section WithEnvironment.

Variable model_encode : list string -> exc (list (list float)).
Variable np_dot : list float -> list float -> float.
Variable np_norm : list float -> float.

Local Abbreviation cosine_value := (cosine_value np_dot np_norm).
Local Abbreviation collect := (collect np_dot np_norm).
Local Abbreviation search := (search model_encode np_dot np_norm).
Local Abbreviation encode_one := (encode_one model_encode).

(** X12: whatever the limit, negative ones included, the results returned
    are the first entries of the ranked list of matches, never more than
    the matches counted; a negative limit drops that many from the end; and
    the ranked list itself does not depend on the limit. *)
Theorem top_results_are_a_prefix :
  forall (db : database) (query : string) (limit : Z) (o : search_outcome),
    search db query limit = Ok o ->
    (exists rest, results o = top_results o ++ rest) /\
    (List.length (top_results o) <= List.length (results o))%nat /\
    (limit < 0 ->
     Z.of_nat (List.length (top_results o))
     = Z.max 0 (Z.of_nat (List.length (results o)) + limit)) /\
    (forall limit',
       exists o', search db query limit' = Ok o' /\ results o' = results o).
Proof.
  intros db query limit o H. unfold Handler.search in *. fold encode_one in *.
  destruct (encode_one query) as [query_emb | e]; [|discriminate H].
  simpl in *. fold collect in *.
  destruct (collect query_emb (fetch_embedded db)) as [found | e]; [|discriminate H].
  simpl in *. injection H as <-. simpl.
  destruct (slice_to_prefix (Py.list_sort_reverse by_similarity found) limit)
    as [rest Hrest].
  split; [exists rest; exact Hrest|]. split; [|split].
  - rewrite Hrest at 2. rewrite length_app. lia.
  - intros Hneg. apply SortFacts.slice_to_negative_length. exact Hneg.
  - intros limit'. eexists. split; reflexivity.
Qed.

Lemma collect_length (query_emb : list float) (rows : list (note * list float))
  (found : list result) :
  collect query_emb rows = Ok found ->
  List.length found
  = List.length (filter (fun p => ge (cosine_value query_emb (snd p)) lit_0_4) rows).
Proof.
  revert found. induction rows as [|[row emb] rows IH]; intros found H; simpl in H.
  - injection H as <-. reflexivity.
  - unfold cosine in H.
    destruct (Nat.eqb (List.length query_emb) (List.length emb)); [|discriminate H].
    simpl in H. fold collect in H.
    destruct (collect query_emb rows) as [found' | e]; [|discriminate H].
    simpl in *. specialize (IH found' eq_refl).
    destruct (ge (cosine_value query_emb emb) lit_0_4); injection H as <-; simpl; lia.
Qed.

(** X13: on a table with ascending ids, no note is listed twice in the
    results, each result shows the content and the category stored under
    its id, and the number of matches is the number of embedded notes whose
    similarity to the query is at least 0.4. *)
Theorem results_reflect_store :
  forall (db : database) (query : string) (limit : Z) (query_emb : list float),
    encode_one query = Ok query_emb ->
    dims_agree query_emb db ->
    ids_ascending db ->
    exists o,
      search db query limit = Ok o /\
      NoDup (map result_id (results o)) /\
      NoDup (map result_id (top_results o)) /\
      (forall r, In r (results o) ->
         exists row,
           fetch_by_id db (result_id r) = Some row /\
           result_content r = note_content row /\
           result_category r = note_category row) /\
      List.length (results o)
      = List.length (filter (fun p => ge (cosine_value query_emb (snd p)) lit_0_4)
                            (fetch_embedded db)).
Proof.
  intros db query limit query_emb Henc Hdims Hids.
  destruct (SearchFacts.search_spec model_encode np_dot np_norm db query limit
              query_emb Henc Hdims) as (found & Hc & Hs).
  destruct (SearchFacts.collect_spec np_dot np_norm query_emb (fetch_embedded db)
              (SearchFacts.fetch_embedded_dims _ _ Hdims))
    as (found' & Hc' & Hfrom & _ & Hsorted).
  fold collect in Hc, Hc'. rewrite Hc in Hc'. injection Hc' as <-.
  eexists. split; [exact Hs|]. simpl.
  assert (Hnd : NoDup (map result_id (Py.list_sort_reverse by_similarity found))).
  { apply Permutation_NoDup with (l := map result_id found).
    - apply Permutation_map. symmetry. apply list_sort_reverse_perm.
    - apply ascending_NoDup. apply SearchFacts.StronglySorted_map.
      apply Hsorted. apply SearchFacts.fetch_embedded_sorted. exact Hids. }
  split; [exact Hnd|]. split; [|split].
  - destruct (slice_to_prefix (Py.list_sort_reverse by_similarity found) limit)
      as [rest Hrest].
    rewrite Hrest, map_app in Hnd. apply NoDup_app_remove_r in Hnd. exact Hnd.
  - intros r Hr. apply SortFacts.In_list_sort_reverse in Hr.
    destruct (Hfrom r Hr) as (row & emb & Hin & _ & ->).
    apply SearchFacts.fetch_embedded_In in Hin. destruct Hin as [Hrow _].
    exists row. simpl. split; [apply fetch_by_id_of_row; assumption | auto].
  - rewrite (Permutation_length (list_sort_reverse_perm by_similarity found)).
    apply collect_length. exact Hc.
Qed.

(** X14: a note without an embedding plays no part in a search: with or
    without it in the table, wherever it stands, the search gives the
    same. *)
Theorem unembedded_note_is_ignored :
  forall (before after : list note) (row : note) (counter counter' : Z)
         (query : string) (limit : Z),
    note_embedding row = None ->
    search (Database (before ++ row :: after) counter) query limit
    = search (Database (before ++ after) counter') query limit.
Proof.
  intros before after row counter counter' query limit Hnone.
  unfold Handler.search, fetch_embedded. simpl.
  rewrite !flat_map_app. simpl. rewrite Hnone. reflexivity.
Qed.

End WithEnvironment.

End SearchMore.

(** ** [run_check], [recalibrate] and the calibration file *)

Module StartupFacts.
Import PyFloat EmbeddingCheck Startup.

Lemma combine_extra_left {A B : Type} (l extra : list A) (l' : list B) :
  List.length l = List.length l' -> combine (l ++ extra) l' = combine l l'.
Proof.
  revert l'. induction l as [|a l IH]; intros [|b l'] H; simpl in *;
    try discriminate.
  - destruct extra; reflexivity.
  - rewrite IH by congruence. reflexivity.
Qed.

Lemma combine_extra_right {A B : Type} (l : list A) (l' extra : list B) :
  List.length l = List.length l' -> combine l (l' ++ extra) = combine l l'.
Proof.
  revert l'. induction l as [|a l IH]; intros [|b l'] H; simpl in *;
    try discriminate.
  - reflexivity.
  - rewrite IH by congruence. reflexivity.
Qed.

(** X17: the check pairs the re-encoded vectors with the baseline vectors
    by [zip], so what has no partner is not looked at: vectors the model
    returns beyond the length of the baseline, and baseline vectors beyond
    what the model returns, change nothing in the report. *)
Theorem check_ignores_unpaired_vectors :
  forall (model_encode model_encode' : list string -> exc (list (list float)))
         (np_dot : list float -> list float -> float)
         (np_norm32 np_norm64 : list float -> float)
         (format_4f : float -> string)
         (save_calibration : calibration -> exc unit)
         (current more : list (list float)) (vectors more' : list (list float)),
    model_encode CALIBRATION_PHRASES = Ok current ->
    model_encode' CALIBRATION_PHRASES = Ok (current ++ more) ->
    List.length current = List.length vectors ->
    let report enc saved :=
      match check_consistency enc np_dot np_norm32 np_norm64 format_4f
              save_calibration (Some saved)
      with
      | Ok (is_ok, message, _) => Ok (is_ok, message)
      | Raise e => Raise e
      end in
    report model_encode' (Calibration CALIBRATION_PHRASES vectors)
    = report model_encode (Calibration CALIBRATION_PHRASES vectors) /\
    report model_encode (Calibration CALIBRATION_PHRASES (vectors ++ more'))
    = report model_encode (Calibration CALIBRATION_PHRASES vectors).
Proof.
  intros model_encode model_encode' np_dot np_norm32 np_norm64 format_4f
    save_calibration current more vectors more' Henc Henc' Hlen report.
  unfold report, EmbeddingCheck.check_consistency. rewrite Henc, Henc'. simpl.
  rewrite (combine_extra_left current more vectors Hlen).
  rewrite (combine_extra_right current vectors more' Hlen).
  split; [reflexivity|].
  destruct (compare_all np_dot np_norm32 np_norm64 (combine current vectors))
    as [sims | e]; simpl; [|reflexivity].
  destruct (Py.min sims) as [min_sim | e]; simpl; [|reflexivity].
  destruct (ge min_sim SIMILARITY_THRESHOLD); reflexivity.
Qed.

Lemma combine_with_image {A B : Type} (f : A -> B) (l : list A) :
  combine l (map f l) = map (fun a => (a, f a)) l.
Proof.
  induction l as [|a l IH]; simpl; [reflexivity | rewrite IH; reflexivity].
Qed.

Section WithModel.

Variable load_model : exc unit.
Variable model_encode : list string -> exc (list (list float)).
Variable np_dot : list float -> list float -> float.
Variable np_norm32 : list float -> float.
Variable np_norm64 : list float -> float.
Variable format_4f : float -> string.
Variable save_calibration : calibration -> exc unit.

Local Abbreviation cosine_value := (cosine_value np_dot np_norm32 np_norm64).
Local Abbreviation check_consistency :=
  (check_consistency model_encode np_dot np_norm32 np_norm64 format_4f
     save_calibration).
Local Abbreviation run_check :=
  (run_check load_model model_encode np_dot np_norm32 np_norm64 format_4f
     save_calibration).
Local Abbreviation recalibrate :=
  (recalibrate load_model model_encode save_calibration).

(** X15: the consistency check never touches a baseline that exists:
    consistent, drifted or failed, [run_check] leaves the calibration file
    as it found it, and its exit code is 0 or 1. *)
Theorem run_check_keeps_baseline :
  forall (old : calibration),
    snd (run_check (Some old)) = Some old /\
    (fst (run_check (Some old)) = 0 \/ fst (run_check (Some old)) = 1).
Proof.
  intros old. unfold Startup.run_check.
  destruct load_model as [[] | e]; simpl; [|auto].
  unfold EmbeddingCheck.check_consistency.
  destruct (model_encode CALIBRATION_PHRASES) as [current | e]; simpl; [|auto].
  destruct (compare_all np_dot np_norm32 np_norm64 _) as [sims | e]; simpl; [|auto].
  destruct (Py.min sims) as [min_sim | e]; simpl; [|auto].
  destruct (ge min_sim SIMILARITY_THRESHOLD); simpl; auto.
Qed.

(** X16: the first run.  When there is no baseline and the model loads
    and encodes the phrases, [run_check] saves the baseline that
    [recalibrate] would save, the three phrases with the vectors of the
    model as Python floats, and exits with 0; when the file cannot be
    written it exits with 1.  A check against that baseline compares every
    vector with its own copy, so it cannot fail on a shape: its exit code
    is 0 exactly when Python's [min] of these similarities is at least
    0.99, and when no similarity is a NaN that is their minimum, so that
    the exit code is 0 exactly when every similarity is at least 0.99. *)
Theorem first_run_calibrates :
  forall (embs : list (list float)),
    load_model = Ok tt ->
    model_encode CALIBRATION_PHRASES = Ok embs ->
    let baseline := Calibration CALIBRATION_PHRASES (map (map to_py_float) embs) in
    let similarities :=
      map (fun e => div64 (np_dot e (map to_py_float e))
                      (mul64 (to_py_float (np_norm32 e))
                             (np_norm64 (map to_py_float e)))) embs in
    (save_calibration baseline = Ok tt ->
     run_check None = (0, Some baseline) /\ recalibrate = Ok baseline) /\
    (forall e, save_calibration baseline = Raise e ->
               fst (run_check None) = 1 /\ recalibrate = Raise e) /\
    (forall min_sim,
       Py.min similarities = Ok min_sim ->
       run_check (Some baseline)
       = (if ge min_sim lit_0_99 then 0 else 1, Some baseline)) /\
    (embs <> [] ->
     Forall (fun s => is_nan s = false) similarities ->
     exists min_sim,
       Py.min similarities = Ok min_sim /\
       In min_sim similarities /\
       Forall (fun s => ge s min_sim = true) similarities /\
       (fst (run_check (Some baseline)) = 0 <->
        Forall (fun s => ge s lit_0_99 = true) similarities)).
Proof.
  intros embs Hload Henc baseline similarities.
  assert (Hsims : map (fun p => cosine_value (fst p) (snd p))
                      (combine embs (embeddings baseline))
                  = similarities).
  { simpl. rewrite combine_with_image, map_map. reflexivity. }
  assert (Hdims : Forall (fun p => List.length (fst p) = List.length (snd p))
                         (combine embs (embeddings baseline))).
  { simpl. rewrite combine_with_image.
    apply Forall_forall. intros [a b] Hin. apply in_map_iff in Hin.
    destruct Hin as (e & Heq & _). injection Heq as <- <-. simpl.
    rewrite length_map. reflexivity. }
  assert (Hrun : forall min_sim,
             Py.min similarities = Ok min_sim ->
             run_check (Some baseline)
             = (if ge min_sim lit_0_99 then 0 else 1, Some baseline)).
  { intros min_sim Hmin. unfold Startup.run_check. rewrite Hload.
    cbv beta iota delta [bind].
    rewrite (CheckFacts.check_consistency_report model_encode np_dot np_norm32
               np_norm64 format_4f save_calibration baseline embs min_sim Henc Hdims)
      by (rewrite Hsims; exact Hmin).
    destruct (ge min_sim lit_0_99); reflexivity. }
  split; [|split; [|split; [exact Hrun|]]].
  - intros Hsave. split.
    + unfold Startup.run_check, EmbeddingCheck.check_consistency, compute_calibration.
      rewrite Hload, Henc. cbv beta iota delta [bind]. fold baseline.
      rewrite Hsave. reflexivity.
    + unfold Startup.recalibrate, compute_calibration. rewrite Hload, Henc.
      cbv beta iota delta [bind]. fold baseline. rewrite Hsave. reflexivity.
  - intros e Hsave. split.
    + unfold Startup.run_check, EmbeddingCheck.check_consistency, compute_calibration.
      rewrite Hload, Henc. cbv beta iota delta [bind]. fold baseline.
      rewrite Hsave. reflexivity.
    + unfold Startup.recalibrate, compute_calibration. rewrite Hload, Henc.
      cbv beta iota delta [bind]. fold baseline. rewrite Hsave. reflexivity.
  - intros Hne Hnan.
    assert (Hsome : similarities <> []).
    { unfold similarities. destruct embs; [contradiction Hne; reflexivity|].
      discriminate. }
    destruct (CheckFacts.min_without_nan similarities Hsome Hnan)
      as (m & Hmin & Hin & Hlow).
    exists m. split; [exact Hmin|]. split; [exact Hin|]. split; [exact Hlow|].
    rewrite (Hrun m Hmin). simpl. rewrite Forall_forall in *. split.
    + intros Hexit s Hs.
      destruct (ge m lit_0_99) eqn:Hm; [|discriminate Hexit].
      eapply FloatOrder.ge_trans; [apply Hlow; exact Hs | exact Hm].
    + intros Hall. rewrite (Hall m Hin). reflexivity.
Qed.

End WithModel.

End StartupFacts.

(** ** The further properties on the sample deployment *)

Module MoreWitnesses.
Import PyFloat Handler Spec Spec2.

Ltac sample_ok :=
  unfold database_ok, ids_ascending; simpl; unfold max_rowid;
  repeat split; try lia; repeat (constructor; try (simpl; lia)).

Local Abbreviation enc := (Sample.encode Sample.table).
Local Abbreviation stamp := "2024-03-03T00:00:00".

(** A sixth note is added to the sample store; the store whose counter is
    at the largest rowid takes no further note. *)
Lemma add_note_then_fetch_witness :
  let row :=
    Note 6 "north" (Some "travel") stamp (Some [Sample.f32 0; Sample.f32 1]) in
  (exists reply,
     add_note enc Sample.compass_db stamp "north" "travel"
     = Ok (Database (notes Sample.compass_db ++ [row]) 6, reply) /\
     member "error" reply = None /\
     fetch_by_id Sample.compass_db 6 = None /\
     fetch_by_id (Database (notes Sample.compass_db ++ [row]) 6) 6 = Some row /\
     (forall j, j <> 6 ->
        fetch_by_id (Database (notes Sample.compass_db ++ [row]) 6) j
        = fetch_by_id Sample.compass_db j)) /\
  add_note enc Sample.full_db stamp "north" "travel"
  = Raise "database or disk is full".
Proof.
  split.
  - destruct (StoreMore.add_note_then_fetch enc Sample.compass_db stamp "north"
                "travel" [Sample.f32 0; Sample.f32 1]) as [Hroom _].
    + sample_ok.
    + discriminate.
    + reflexivity.
    + apply Hroom. reflexivity.
  - destruct (StoreMore.add_note_then_fetch enc Sample.full_db stamp "north"
                "travel" [Sample.f32 0; Sample.f32 1]) as [_ Hfull].
    + sample_ok.
    + discriminate.
    + reflexivity.
    + apply Hfull. reflexivity.
Defined.

Lemma add_then_delete_witness :
  let db2 := Database (notes Sample.compass_db) 6 in
  exists db1 reply1 reply2,
    add_note enc Sample.compass_db stamp "north" "travel" = Ok (db1, reply1) /\
    delete_note db1 (Some 6) = Ok (db2, reply2) /\
    member "error" reply2 = None /\
    delete_note db2 (Some 6)
    = Ok (db2, error_dict (-32602) "Note #6 not found") /\
    (forall text cat,
       text <> "" ->
       update_note enc db2 stamp (Some 6) (Some text) cat
       = Ok (db2, error_dict (-32602) "Note #6 not found")) /\
    (exists reply3,
       add_note enc db2 stamp "north" "travel"
       = Ok (Database (notes Sample.compass_db
                       ++ [Note 7 "north" (Some "travel") stamp
                             (Some [Sample.f32 0; Sample.f32 1])]) 7, reply3)).
Proof.
  destruct (StoreMore.add_then_delete enc Sample.compass_db stamp "north" "travel"
              [Sample.f32 0; Sample.f32 1])
    as (db1 & reply1 & reply2 & Hadd & Hdel & Herr & Hgone & Hupd & Hnext & _).
  - sample_ok.
  - discriminate.
  - reflexivity.
  - reflexivity.
  - exists db1, reply1, reply2.
    split; [exact Hadd|]. split; [exact Hdel|]. split; [exact Herr|].
    split; [exact Hgone|]. split; [exact Hupd|]. apply Hnext. reflexivity.
Defined.

(** The note of 101 two-byte characters is quoted by its first 100
    characters, which are 200 bytes. *)
Lemma delete_note_removes_one_witness :
  exists db',
    delete_note Sample.accents_db (Some 1)
    = Ok (db', content_dict ("✅ Deleted note #1" ++ Py.nl
                             ++ "Was: [général] "
                             ++ String.concat "" (repeat "é" 100) ++ "...")) /\
    fetch_by_id db' 1 = None /\
    (forall j, j <> 1 -> fetch_by_id db' j = fetch_by_id Sample.accents_db j) /\
    S (List.length (notes db')) = List.length (notes Sample.accents_db) /\
    last_rowid db' = last_rowid Sample.accents_db.
Proof.
  apply (StoreMore.delete_note_removes_one Sample.accents_db 1
           (Note 1 (String.concat "" (repeat "é" 101)) (Some "général")
              "2024-01-01T00:00:00" (Some [Sample.f32 1; Sample.f32 0]))).
  - sample_ok.
  - reflexivity.
Defined.

Lemma missing_note_is_reported_witness :
  let reply := error_dict (-32602) "Note #9 not found" in
  let overflow := "Python int too large to convert to SQLite INTEGER" in
  (delete_note Sample.compass_db (Some 9) = Ok (Sample.compass_db, reply) /\
   update_note enc Sample.compass_db stamp (Some 9) (Some "not in the table") None
   = Ok (Sample.compass_db, reply)) /\
  (delete_note Sample.compass_db (Some 9223372036854775808) = Raise overflow /\
   update_note enc Sample.compass_db stamp (Some 9223372036854775808)
     (Some "not in the table") None
   = Raise overflow).
Proof.
  split.
  - destruct (StoreMore.missing_note_is_reported enc Sample.compass_db stamp 9
                "not in the table" None) as [Hin _].
    + discriminate.
    + reflexivity.
    + discriminate.
    + apply Hin. split; discriminate.
  - destruct (StoreMore.missing_note_is_reported enc Sample.compass_db stamp
                9223372036854775808 "not in the table" None) as [_ Hout].
    + discriminate.
    + reflexivity.
    + discriminate.
    + apply Hout. right. reflexivity.
Defined.

Lemma update_note_category_given_witness :
  exists db' reply,
    update_note enc Sample.compass_db stamp (Some 5) (Some "north") (Some "")
    = Ok (db', reply) /\
    fetch_by_id db' 5
    = Some (Note 5 "north" (Some "travel") stamp
              (Some [Sample.f32 0; Sample.f32 1])) /\
    (forall j, j <> 5 -> fetch_by_id db' j = fetch_by_id Sample.compass_db j).
Proof.
  apply (StoreMore.update_note_category_given enc Sample.compass_db stamp 5 "north" ""
           (Note 5 "east-north" (Some "travel") "2024-01-01T00:00:04"
              (Some [Sample.f32 4; Sample.f32 3]))
           [Sample.f32 0; Sample.f32 1]).
  - sample_ok.
  - reflexivity.
  - discriminate.
  - reflexivity.
Defined.

Local Abbreviation sample_request :=
  (handle_mcp_request enc Sample.dot Sample.norm Sample.repr).

(** An [add_note] call whose content the sample model cannot encode. *)
Lemma error_reply_leaves_store_witness :
  fst (sample_request Sample.compass_db stamp "tools/call"
         (Params (Some "add_note")
                 (Some (Args None None (Some "not in the table") None None))))
  = Sample.compass_db.
Proof.
  apply (DispatchMore.error_reply_leaves_store enc Sample.dot Sample.norm Sample.repr).
  vm_compute. discriminate.
Defined.

Lemma request_keeps_table_witness :
  let req := Request POST (Some "s3cret") None
               (Ok (Rpc (Some "tools/call")
                        (Some (Params (Some "delete_note")
                                      (Some (Args None None None None (Some 2)))))
                        (Some (JInt 3)))) in
  database_ok (fst (mcp_sse "s3cret" enc Sample.dot Sample.norm Sample.repr
                      Sample.compass_db stamp req)) /\
  counter_kept Sample.compass_db
    (fst (mcp_sse "s3cret" enc Sample.dot Sample.norm Sample.repr
            Sample.compass_db stamp req)).
Proof.
  apply (DispatchMore.request_keeps_table "s3cret" enc Sample.dot Sample.norm
           Sample.repr).
  sample_ok.
Defined.

Lemma only_write_tools_change_store_witness :
  fst (sample_request Sample.compass_db stamp "tools/call"
         (Params (Some "neural_stats") None))
  = Sample.compass_db.
Proof.
  apply (DispatchMore.only_write_tools_change_store enc Sample.dot Sample.norm
           Sample.repr).
  right. reflexivity.
Defined.

Lemma get_request_is_initialize_witness :
  generate enc Sample.dot Sample.norm Sample.repr Sample.compass_db stamp
    (Request GET None None
       (Ok (Rpc (Some "tools/call")
                (Some (Params (Some "delete_note")
                              (Some (Args None None None None (Some 2)))))
                (Some (JInt 3)))))
  = (Sample.compass_db,
     JDict [("jsonrpc", JStr "2.0"); ("id", JInt 1); ("result", initialize_result)]).
Proof.
  apply (DispatchMore.get_request_is_initialize enc Sample.dot Sample.norm Sample.repr).
  reflexivity.
Defined.

Local Abbreviation sample_search := (search enc Sample.dot Sample.norm).

Lemma top_results_are_a_prefix_witness :
  exists o,
    sample_search Sample.compass_db "east" (-2) = Ok o /\
    (exists rest, results o = top_results o ++ rest) /\
    (List.length (top_results o) <= List.length (results o))%nat /\
    Z.of_nat (List.length (top_results o))
    = Z.max 0 (Z.of_nat (List.length (results o)) + -2).
Proof.
  destruct (sample_search Sample.compass_db "east" (-2)) as [o | e] eqn:E.
  - exists o. split; [reflexivity|].
    destruct (SearchMore.top_results_are_a_prefix enc Sample.dot Sample.norm
                Sample.compass_db "east" (-2) o E) as (Hprefix & Hlen & Hneg & _).
    split; [exact Hprefix|]. split; [exact Hlen|]. apply Hneg. lia.
  - vm_compute in E. discriminate E.
Defined.

Lemma results_reflect_store_witness :
  exists o,
    sample_search Sample.compass_db "east" 5 = Ok o /\
    NoDup (map result_id (results o)) /\
    NoDup (map result_id (top_results o)) /\
    (forall r, In r (results o) ->
       exists row,
         fetch_by_id Sample.compass_db (result_id r) = Some row /\
         result_content r = note_content row /\
         result_category r = note_category row) /\
    List.length (results o)
    = List.length
        (filter (fun p => ge (cosine_value Sample.dot Sample.norm
                                [Sample.f32 1; Sample.f32 0] (snd p)) lit_0_4)
                (fetch_embedded Sample.compass_db)).
Proof.
  apply (SearchMore.results_reflect_store enc Sample.dot Sample.norm
           Sample.compass_db "east" 5 [Sample.f32 1; Sample.f32 0]).
  - reflexivity.
  - unfold dims_agree. simpl. repeat constructor.
  - unfold ids_ascending. simpl. repeat (constructor; try lia).
Defined.

Lemma unembedded_note_is_ignored_witness :
  sample_search Sample.compass_db "east" 5
  = sample_search
      (Database
         [Note 1 "north-east" (Some "general") "2024-01-01T00:00:00"
            (Some [Sample.f32 3; Sample.f32 4]);
          Note 2 "east" (Some "general") "2024-01-01T00:00:01"
            (Some [Sample.f32 1; Sample.f32 0]);
          Note 4 "north" (Some "general") "2024-01-01T00:00:03"
            (Some [Sample.f32 0; Sample.f32 1]);
          Note 5 "east-north" (Some "travel") "2024-01-01T00:00:04"
            (Some [Sample.f32 4; Sample.f32 3])] 5)
      "east" 5.
Proof.
  apply (SearchMore.unembedded_note_is_ignored enc Sample.dot Sample.norm
           [Note 1 "north-east" (Some "general") "2024-01-01T00:00:00"
              (Some [Sample.f32 3; Sample.f32 4]);
            Note 2 "east" (Some "general") "2024-01-01T00:00:01"
              (Some [Sample.f32 1; Sample.f32 0])]
           [Note 4 "north" (Some "general") "2024-01-01T00:00:03"
              (Some [Sample.f32 0; Sample.f32 1]);
            Note 5 "east-north" (Some "travel") "2024-01-01T00:00:04"
              (Some [Sample.f32 4; Sample.f32 3])]
           (Note 3 "draft" (Some "general") "2024-01-01T00:00:02" None)
           5 5 "east" 5).
  reflexivity.
Defined.

Local Abbreviation sample_embs :=
  [[Sample.f32 3; Sample.f32 4]; [Sample.f32 1; Sample.f32 0];
   [Sample.f32 0; Sample.f32 1]].

(** The first run with the sample model: the baseline is saved and the
    exit code is 0, or 1 when the file is refused; against that baseline
    the three similarities are 1 and the next run exits with 0. *)
Lemma first_run_calibrates_witness :
  let run save :=
    Startup.run_check (Ok tt) enc Sample.dot64 Sample.norm Sample.norm64
      Sample.format_4f save in
  run Sample.save None = (0, Some Sample.baseline) /\
  Startup.recalibrate (Ok tt) enc Sample.save = Ok Sample.baseline /\
  fst (run Sample.save_refused None) = 1 /\
  run Sample.save (Some Sample.baseline) = (0, Some Sample.baseline) /\
  exists min_sim,
    Py.min [lit_1; lit_1; lit_1] = Ok min_sim /\
    In min_sim [lit_1; lit_1; lit_1] /\
    Forall (fun s => ge s min_sim = true) [lit_1; lit_1; lit_1] /\
    (fst (run Sample.save (Some Sample.baseline)) = 0 <->
     Forall (fun s => ge s lit_0_99 = true) [lit_1; lit_1; lit_1]).
Proof.
  destruct (StartupFacts.first_run_calibrates (Ok tt) enc Sample.dot64 Sample.norm
              Sample.norm64 Sample.format_4f Sample.save sample_embs)
    as (Hsaved & _ & Hrun & Hmin).
  - reflexivity.
  - reflexivity.
  - destruct (StartupFacts.first_run_calibrates (Ok tt) enc Sample.dot64 Sample.norm
                Sample.norm64 Sample.format_4f Sample.save_refused sample_embs)
      as (_ & Hrefused & _).
    + reflexivity.
    + reflexivity.
    + destruct (Hsaved eq_refl) as [Hfirst Hrecal].
      destruct (Hrefused _ eq_refl) as [Hexit _].
      split; [exact Hfirst|]. split; [exact Hrecal|]. split; [exact Hexit|].
      split; [exact (Hrun lit_1 eq_refl)|].
      apply Hmin; [discriminate | repeat constructor].
Defined.

Lemma add_note_call_defaults_witness :
  let call db c cat :=
    sample_request db stamp "tools/call"
      (Params (Some "add_note") (Some (Args None None c cat None))) in
  (fst (call Sample.compass_db (Some "north") None)
   = Database (notes Sample.compass_db
               ++ [Note 6 "north" (Some "general") stamp
                     (Some [Sample.f32 0; Sample.f32 1])])
              6 /\
   member "error" (snd (call Sample.compass_db (Some "north") None)) = None) /\
  call Sample.full_db (Some "north") None
  = (Sample.full_db, error_dict (-32603) "database or disk is full") /\
  (forall cat,
     call Sample.compass_db None cat
     = (Sample.compass_db, error_dict (-32602) "Content required")).
Proof.
  destruct (DispatchMore.add_note_call_defaults enc Sample.dot Sample.norm
              Sample.repr Sample.compass_db stamp "north"
              [Sample.f32 0; Sample.f32 1] None None None)
    as (Hroom & _ & Hempty).
  - discriminate.
  - reflexivity.
  - destruct (DispatchMore.add_note_call_defaults enc Sample.dot Sample.norm
                Sample.repr Sample.full_db stamp "north"
                [Sample.f32 0; Sample.f32 1] None None None)
      as (_ & Hfull & _).
    + discriminate.
    + reflexivity.
    + split; [apply Hroom; reflexivity|].
      split; [apply Hfull; reflexivity | exact Hempty].
Defined.

(** A model that returns a fourth vector, and a baseline of two vectors. *)
Lemma check_ignores_unpaired_vectors_witness :
  let current := [[Sample.f32 3; Sample.f32 4]; [Sample.f32 1; Sample.f32 0]] in
  let enc2 := fun _ : list string => Ok current in
  let enc4 := fun _ : list string =>
                Ok (current ++ [[Sample.f32 0; Sample.f32 1]; [Sample.f32 4]]) in
  let vectors := map (map to_py_float) current in
  let report enc saved :=
    match EmbeddingCheck.check_consistency enc Sample.dot64 Sample.norm Sample.norm64
            Sample.format_4f Sample.save (Some saved)
    with
    | Ok (is_ok, message, _) => Ok (is_ok, message)
    | Raise e => Raise e
    end in
  report enc4 (EmbeddingCheck.Calibration EmbeddingCheck.CALIBRATION_PHRASES vectors)
  = report enc2 (EmbeddingCheck.Calibration EmbeddingCheck.CALIBRATION_PHRASES vectors)
  /\
  report enc2 (EmbeddingCheck.Calibration EmbeddingCheck.CALIBRATION_PHRASES
                 (vectors ++ [[lit_1]]))
  = report enc2 (EmbeddingCheck.Calibration EmbeddingCheck.CALIBRATION_PHRASES vectors).
Proof.
  apply (StartupFacts.check_ignores_unpaired_vectors
           (fun _ => Ok [[Sample.f32 3; Sample.f32 4]; [Sample.f32 1; Sample.f32 0]])
           (fun _ => Ok ([[Sample.f32 3; Sample.f32 4]; [Sample.f32 1; Sample.f32 0]]
                         ++ [[Sample.f32 0; Sample.f32 1]; [Sample.f32 4]]))
           Sample.dot64 Sample.norm Sample.norm64 Sample.format_4f Sample.save
           [[Sample.f32 3; Sample.f32 4]; [Sample.f32 1; Sample.f32 0]]
           [[Sample.f32 0; Sample.f32 1]; [Sample.f32 4]]
           (map (map to_py_float)
                [[Sample.f32 3; Sample.f32 4]; [Sample.f32 1; Sample.f32 0]])
           [[lit_1]]);
    reflexivity.
Defined.

(** The statistics of the sample store, and of the store that has a note
    with a category and a note without one. *)
Lemma get_stats_counts_witness :
  get_stats Sample.compass_db
  = Ok (content_dict
          ("Neural Memory Statistics:" ++ Py.nl ++ Py.nl
           ++ "Total notes: 5" ++ Py.nl ++ Py.nl
           ++ "By category:" ++ Py.nl
           ++ "  - general: 4" ++ Py.nl
           ++ "  - travel: 1" ++ Py.nl)) /\
  exists e, get_stats Sample.accents_db = Raise e /\ is_type_error e.
Proof.
  split; [vm_compute; reflexivity|].
  apply (proj1 (StatsFacts.get_stats_counts Sample.accents_db)).
  split.
  - exists (Note 2 "plain" None "2024-01-01T00:00:01"
              (Some [Sample.f32 0; Sample.f32 1])).
    split; [right; left; reflexivity | reflexivity].
  - exists (Note 1 (String.concat "" (repeat "é" 101)) (Some "général")
              "2024-01-01T00:00:00" (Some [Sample.f32 1; Sample.f32 0])),
           "général".
    split; [left; reflexivity | reflexivity].
Defined.

(** When the NULL category is the only one, there is nothing to compare
    and the listing names it [None]. *)
Example get_stats_with_null_category :
  get_stats
    (Database [Note 2 "plain" None "2024-01-01T00:00:01" None] 2)
  = Ok (content_dict
          ("Neural Memory Statistics:" ++ Py.nl ++ Py.nl
           ++ "Total notes: 1" ++ Py.nl ++ Py.nl
           ++ "By category:" ++ Py.nl
           ++ "  - None: 1" ++ Py.nl)).
Proof.
  vm_compute. reflexivity.
Qed.

End MoreWitnesses.
